(** * Moonlight-Switch: the GameStream client protocol (libgamestream/client.cpp)

    A shallow embedding of the protocol orchestrator of
    [app/src/libgamestream/client.cpp]: [load_serverinfo],
    [load_server_status], [gs_unpair], [gs_pair_validate], [gs_pair_cleanup],
    [gs_pair] and [gs_start_app].

    The functions of client.cpp work on a server descriptor and a stream
    configuration passed by pointer, on the process-global [_gs_error]
    string, and on the outside world through [http_request], the XML reader,
    [Data::random_bytes] and [CryptoManager].  Here they are state
    transformers over a [World] that holds the two pointed-to objects, the
    error string, the list of requests handed to [http_request] so far and
    the number of random draws so far.  What client.cpp only calls (and does
    not define) is a field of [Externals]; the error codes of errors.h are
    the fields of [ErrorCodes].  The [brls::Logger] lines change nothing
    that the functions read and are left out; they mark where the stages of
    [gs_pair] begin. *)

From Stdlib Require Import ZArith String List Bool Lia DecimalString.
Import ListNotations.
Local Open Scope string_scope.
Local Open Scope Z_scope.

(** ** Error codes (errors.h) *)

(** errors.h is not part of client.cpp: the codes are parameters.  *)
Class ErrorCodes : Type := {
  GS_OK : Z;
  GS_FAILED : Z;
  GS_INVALID : Z;
  GS_WRONG_STATE : Z;
  GS_IO_ERROR : Z;
  GS_NOT_SUPPORTED_4K : Z;
  GS_UNSUPPORTED_VERSION : Z;
  GS_ERROR : Z
}.

(** The usual C convention, which client.cpp relies on where it tests
    [if ((ret = ... != GS_OK))]: success is 0 and every error code is
    negative. *)
Definition conventional (c : ErrorCodes) : Prop :=
  GS_OK = 0 /\ GS_FAILED < 0 /\ GS_INVALID < 0 /\ GS_WRONG_STATE < 0 /\
  GS_IO_ERROR < 0 /\ GS_NOT_SUPPORTED_4K < 0 /\ GS_UNSUPPORTED_VERSION < 0 /\
  GS_ERROR < 0.

(** ** Plain data *)

(** [Data] is the byte buffer class of the repository; [std::string] and
    C strings are byte strings as well. *)
Definition Data : Type := string.

Inductive HTTPRequestTimeout : Type :=
| HTTPRequestTimeoutLow
| HTTPRequestTimeoutMedium
| HTTPRequestTimeoutLong.

(** The part of [SERVER_INFORMATION] (Limelight.h) that client.cpp touches
    after [gs_init]. *)
Record SERVER_INFORMATION : Type := mkSERVER_INFORMATION {
  si_address : string;
  si_rtspSessionUrl : option string;
  si_serverCodecModeSupport : Z
}.

(** [_SERVER_DATA], with the fields client.cpp reads or writes. *)
Record SERVER_DATA : Type := mkSERVER_DATA {
  address : string;
  serverInfoAppVersion : string;
  serverInfoGfeVersion : string;
  gpuType : string;
  gsVersion : string;
  hostname : string;
  mac : string;
  paired : bool;
  supports4K : bool;
  currentGame : Z;
  serverMajorVersion : Z;
  httpPort : Z;
  httpsPort : Z;
  serverInfo : SERVER_INFORMATION
}.

(** The part of [STREAM_CONFIGURATION] (Limelight.h) that [gs_start_app]
    uses. *)
Record STREAM_CONFIGURATION : Type := mkSTREAM_CONFIGURATION {
  width : Z;
  height : Z;
  fps : Z;
  audioConfiguration : Z;
  remoteInputAesKey : Data
}.

(** Field assignments. *)
Definition set_serverInfoAppVersion (v : string) (s : SERVER_DATA) :=
  mkSERVER_DATA (address s) v (serverInfoGfeVersion s) (gpuType s)
    (gsVersion s) (hostname s) (mac s) (paired s) (supports4K s)
    (currentGame s) (serverMajorVersion s) (httpPort s) (httpsPort s)
    (serverInfo s).
Definition set_serverInfoGfeVersion (v : string) (s : SERVER_DATA) :=
  mkSERVER_DATA (address s) (serverInfoAppVersion s) v (gpuType s)
    (gsVersion s) (hostname s) (mac s) (paired s) (supports4K s)
    (currentGame s) (serverMajorVersion s) (httpPort s) (httpsPort s)
    (serverInfo s).
Definition set_gpuType (v : string) (s : SERVER_DATA) :=
  mkSERVER_DATA (address s) (serverInfoAppVersion s) (serverInfoGfeVersion s)
    v (gsVersion s) (hostname s) (mac s) (paired s) (supports4K s)
    (currentGame s) (serverMajorVersion s) (httpPort s) (httpsPort s)
    (serverInfo s).
Definition set_gsVersion (v : string) (s : SERVER_DATA) :=
  mkSERVER_DATA (address s) (serverInfoAppVersion s) (serverInfoGfeVersion s)
    (gpuType s) v (hostname s) (mac s) (paired s) (supports4K s)
    (currentGame s) (serverMajorVersion s) (httpPort s) (httpsPort s)
    (serverInfo s).
Definition set_hostname (v : string) (s : SERVER_DATA) :=
  mkSERVER_DATA (address s) (serverInfoAppVersion s) (serverInfoGfeVersion s)
    (gpuType s) (gsVersion s) v (mac s) (paired s) (supports4K s)
    (currentGame s) (serverMajorVersion s) (httpPort s) (httpsPort s)
    (serverInfo s).
Definition set_mac (v : string) (s : SERVER_DATA) :=
  mkSERVER_DATA (address s) (serverInfoAppVersion s) (serverInfoGfeVersion s)
    (gpuType s) (gsVersion s) (hostname s) v (paired s) (supports4K s)
    (currentGame s) (serverMajorVersion s) (httpPort s) (httpsPort s)
    (serverInfo s).
Definition set_paired (v : bool) (s : SERVER_DATA) :=
  mkSERVER_DATA (address s) (serverInfoAppVersion s) (serverInfoGfeVersion s)
    (gpuType s) (gsVersion s) (hostname s) (mac s) v (supports4K s)
    (currentGame s) (serverMajorVersion s) (httpPort s) (httpsPort s)
    (serverInfo s).
Definition set_supports4K (v : bool) (s : SERVER_DATA) :=
  mkSERVER_DATA (address s) (serverInfoAppVersion s) (serverInfoGfeVersion s)
    (gpuType s) (gsVersion s) (hostname s) (mac s) (paired s) v
    (currentGame s) (serverMajorVersion s) (httpPort s) (httpsPort s)
    (serverInfo s).
Definition set_currentGame (v : Z) (s : SERVER_DATA) :=
  mkSERVER_DATA (address s) (serverInfoAppVersion s) (serverInfoGfeVersion s)
    (gpuType s) (gsVersion s) (hostname s) (mac s) (paired s) (supports4K s)
    v (serverMajorVersion s) (httpPort s) (httpsPort s) (serverInfo s).
Definition set_serverMajorVersion (v : Z) (s : SERVER_DATA) :=
  mkSERVER_DATA (address s) (serverInfoAppVersion s) (serverInfoGfeVersion s)
    (gpuType s) (gsVersion s) (hostname s) (mac s) (paired s) (supports4K s)
    (currentGame s) v (httpPort s) (httpsPort s) (serverInfo s).
Definition set_httpsPort (v : Z) (s : SERVER_DATA) :=
  mkSERVER_DATA (address s) (serverInfoAppVersion s) (serverInfoGfeVersion s)
    (gpuType s) (gsVersion s) (hostname s) (mac s) (paired s) (supports4K s)
    (currentGame s) (serverMajorVersion s) (httpPort s) v (serverInfo s).
Definition set_serverInfo (v : SERVER_INFORMATION) (s : SERVER_DATA) :=
  mkSERVER_DATA (address s) (serverInfoAppVersion s) (serverInfoGfeVersion s)
    (gpuType s) (gsVersion s) (hostname s) (mac s) (paired s) (supports4K s)
    (currentGame s) (serverMajorVersion s) (httpPort s) (httpsPort s) v.
Definition set_serverCodecModeSupport (v : Z) (s : SERVER_DATA) :=
  set_serverInfo
    (mkSERVER_INFORMATION (si_address (serverInfo s))
       (si_rtspSessionUrl (serverInfo s)) v) s.
Definition set_rtspSessionUrl (v : option string) (s : SERVER_DATA) :=
  set_serverInfo
    (mkSERVER_INFORMATION (si_address (serverInfo s)) v
       (si_serverCodecModeSupport (serverInfo s))) s.
Definition set_remoteInputAesKey (v : Data) (c : STREAM_CONFIGURATION) :=
  mkSTREAM_CONFIGURATION (width c) (height c) (fps c) (audioConfiguration c) v.

(** ** What client.cpp calls but does not define *)

Class Externals : Type := {
  (** http.h: [http_request(url, &data, timeout)].  The answer of the
      transport may depend on everything requested before (the URLs, oldest
      first); it is a result code and the body left in [data].  As the
      spec describes the transport, it has no other effect on what
      client.cpp sees: it does not write [_gs_error]. *)
  http_request : list string -> string -> HTTPRequestTimeout -> Z * Data;
  (** The XML reader.  [xml_status] yields the code and, when it has one,
      the status message it hands to the error channel. *)
  xml_status : Data -> Z * option string;
  (** [xml_search(data, name, &out)] with a [std::string] out-parameter:
      the code and what is in [out] afterwards, given what was in it. *)
  xml_search : Data -> string -> string -> Z * string;
  (** The overload with an [int] out-parameter. *)
  xml_search_int : Data -> string -> Z -> Z * Z;
  (** [Data::random_bytes(n)]: the bytes of the k-th draw of the process. *)
  random_bytes : nat -> Z -> Data;
  (** [Data::hex()] (as the C string that [%s] prints) and
      [Data::hex_to_bytes()]. *)
  hex : Data -> string;
  hex_to_bytes : Data -> Data;
  (** CryptoManager. *)
  cert_data : Data;
  key_data : Data;
  create_AES_key_from_salt_SHA256 : Data -> Data;
  create_AES_key_from_salt_SHA1 : Data -> Data;
  aes_encrypt : Data -> Data -> Data;
  aes_decrypt : Data -> Data -> Data;
  SHA256_hash_data : Data -> Data;
  SHA1_hash_data : Data -> Data;
  signature : Data -> Data;
  sign_data : Data -> Data -> Data;
  verify_signature : Data -> Data -> Data -> bool;
  (** libc. *)
  atoi : string -> Z;
  (** Limelight.h and client.h. *)
  AUDIO_CONFIGURATION_STEREO : Z;
  LiGetLaunchUrlQueryParameters : string;
  MAX_SUPPORTED_GFE_VERSION : Z;
  MIN_SUPPORTED_GFE_VERSION : Z
}.

(** Modelled from the spec: the [Data] class is not among the sources.
    [a.append(b)] is a new blob, the concatenation; [a] itself is left as
    it was. *)
Definition append (a b : Data) : Data := (a ++ b)%string.

(** Modelled from the spec: the [Data] class is not among the sources.
    [d.subdata(offset, len)] is a new blob with the [len] bytes of [d] from
    [offset] on. *)
Definition subdata (d : Data) (offset len : Z) : Data :=
  substring (Z.to_nat offset) (Z.to_nat len) d.

(** ** Formatting *)

(** [%d] on an [int]. *)
Definition fmt_d (z : Z) : string := NilZero.string_of_int (Z.to_int z).

(** [%u] on a value of at most 32 bits. *)
Definition fmt_u (z : Z) : string := fmt_d (z mod 2 ^ 32).

(** [%d] on a [bool] argument. *)
Definition fmt_b (b : bool) : string := if b then "1" else "0".

(** [snprintf(url, size, ...)]: the formatted text, cut to [size - 1] bytes
    when it does not fit. *)
Definition snprintf (size : nat) (text : string) : string :=
  if (String.length text <? size)%nat then text
  else substring 0 (size - 1) text.

Definition url_size : nat := 4096.

(** [static std::string unique_id]. *)
Definition unique_id : string := "0123456789ABCDEF".

(** C's [a != b] as an [int]. *)
Definition ne (a b : Z) : Z := if a =? b then 0 else 1.

(** ** The world and its operations *)

(** Which call site of client.cpp issued a request.  The label is not
    visible to the transport; it only names the request in the trace. *)
Inductive Endpoint : Type :=
| Serverinfo (https : bool)
| Pair (stage : nat)
| Unpair
| Launch
| Resume
| Applist
| Appasset
| Cancel.

Record Request : Type := mkRequest {
  req_by : Endpoint;
  req_url : string;
  req_timeout : HTTPRequestTimeout
}.

Record World : Type := mkWorld {
  w_server : SERVER_DATA;            (* *server *)
  w_config : STREAM_CONFIGURATION;   (* *config *)
  w_error : string;                  (* _gs_error *)
  w_trace : list Request;            (* requests so far, oldest first *)
  w_draws : nat                      (* random_bytes draws so far *)
}.

(** A statement either falls through with a value or leaves the function
    with its return value. *)
Inductive Flow (A : Type) : Type :=
| Next (a : A)
| Return (r : Z).
Arguments Next {A} a.
Arguments Return {A} r.

Definition Op (A : Type) : Type := World -> Flow A * World.

Definition pure {A} (a : A) : Op A := fun w => (Next a, w).

Definition leave {A} (r : Z) : Op A := fun w => (Return r, w).

Definition bind {A B} (m : Op A) (k : A -> Op B) : Op B :=
  fun w =>
    match m w with
    | (Next a, w') => k a w'
    | (Return r, w') => (Return r, w')
    end.

Notation "x <- m ;; k" := (bind m (fun x => k))
  (at level 61, m at next level, right associativity).
Notation "' pat <- m ;; k" := (bind m (fun x => match x with pat => k end))
  (at level 61, pat pattern, m at next level, right associativity).
Notation "m ;; k" := (bind m (fun _ => k))
  (at level 61, right associativity).

(** [if (c) { ... return ...; }] *)
Definition when (c : bool) (m : Op unit) : Op unit :=
  if c then m else pure tt.

(** A function body, run: its value is what it returned, by [return] in
    the middle or at its end. *)
Definition body (m : Op Z) : World -> Z * World :=
  fun w =>
    match m w with
    | (Next r, w') => (r, w')
    | (Return r, w') => (r, w')
    end.

(** A call of such a function from another body. *)
Definition call (f : World -> Z * World) : Op Z :=
  fun w => let (r, w') := f w in (Next r, w').

Definition get_server : Op SERVER_DATA := fun w => (Next (w_server w), w).
Definition get_config : Op STREAM_CONFIGURATION :=
  fun w => (Next (w_config w), w).

Definition update_server (f : SERVER_DATA -> SERVER_DATA) : Op unit :=
  fun w =>
    (Next tt,
     mkWorld (f (w_server w)) (w_config w) (w_error w) (w_trace w)
       (w_draws w)).

Definition update_config (f : STREAM_CONFIGURATION -> STREAM_CONFIGURATION)
  : Op unit :=
  fun w =>
    (Next tt,
     mkWorld (w_server w) (f (w_config w)) (w_error w) (w_trace w)
       (w_draws w)).

(** [void gs_set_error(std::string error) { _gs_error = error; }] *)
Definition gs_set_error (error : string) : Op unit :=
  fun w =>
    (Next tt,
     mkWorld (w_server w) (w_config w) error (w_trace w) (w_draws w)).

(** [std::string gs_error()] *)
Definition gs_error (w : World) : string :=
  if (String.length (w_error w) =? 0)%nat then "Unknown error..."
  else w_error w.

(** ** client.cpp *)

Section Client.

Context {codes : ErrorCodes} {ext : Externals}.

(** The world with one more request in its trace. *)
Definition record (who : Endpoint) (url : string)
  (timeout : HTTPRequestTimeout) (w : World) : World :=
  mkWorld (w_server w) (w_config w) (w_error w)
    (w_trace w ++ [mkRequest who url timeout]) (w_draws w).

(** [http_request(url, &data, timeout)], recorded in the trace. *)
Definition request (who : Endpoint) (url : string)
  (timeout : HTTPRequestTimeout) : Op (Z * Data) :=
  fun w =>
    (Next (http_request (map req_url (w_trace w)) url timeout),
     record who url timeout w).

(** The world once [xml_status] has handed its message, when it has one,
    to the error channel. *)
Definition heard (data : Data) (w : World) : World :=
  match snd (xml_status data) with
  | Some message =>
      mkWorld (w_server w) (w_config w) message (w_trace w) (w_draws w)
  | None => w
  end.

(** [xml_status(data)]. *)
Definition status (data : Data) : Op Z :=
  fun w => (Next (fst (xml_status data)), heard data w).

(** [Data::random_bytes(n)]. *)
Definition random (n : Z) : Op Data :=
  fun w =>
    (Next (random_bytes (w_draws w) n),
     mkWorld (w_server w) (w_config w) (w_error w) (w_trace w)
       (S (w_draws w))).

(** [xml_search(data, name, &server->field)]: the field holds whatever the
    reader left in it, also when the search fails. *)
Definition search_into (data : Data) (name : string)
  (field : SERVER_DATA -> string)
  (assign : string -> SERVER_DATA -> SERVER_DATA) : Op Z :=
  server <- get_server ;;
  update_server (assign (snd (xml_search data name (field server)))) ;;
  pure (fst (xml_search data name (field server))).

Definition search_int_into (data : Data) (name : string)
  (field : SERVER_DATA -> Z)
  (assign : Z -> SERVER_DATA -> SERVER_DATA) : Op Z :=
  server <- get_server ;;
  update_server (assign (snd (xml_search_int data name (field server)))) ;;
  pure (fst (xml_search_int data name (field server))).

Definition empty (s : string) : bool := (String.length s =? 0)%nat.

(** *** load_serverinfo (lines 66-159) *)

Definition serverinfo_url (server : SERVER_DATA) (https : bool) : string :=
  snprintf url_size
    ((if https then "https" else "http") ++ "://" ++
     si_address (serverInfo server) ++ ":" ++
     fmt_d (if https then httpsPort server else httpPort server) ++
     "/serverinfo?uniqueid=" ++ unique_id).

Definition load_serverinfo (https : bool) : World -> Z * World :=
  body (
    server <- get_server ;;
    ' (r, data) <- request (Serverinfo https) (serverinfo_url server https)
                     HTTPRequestTimeoutLow ;;
    when (negb (r =? GS_OK)) (leave GS_IO_ERROR) ;;
    st <- status data ;;
    when (st =? GS_ERROR) (leave GS_ERROR) ;;
    ' (c, currentGameText) <- pure (xml_search data "currentgame" "") ;;
    when (negb (c =? GS_OK)) (leave GS_INVALID) ;;
    ' (c, pairedText) <- pure (xml_search data "PairStatus" "") ;;
    when (negb (c =? GS_OK)) (leave GS_INVALID) ;;
    c <- search_into data "appversion" serverInfoAppVersion
           set_serverInfoAppVersion ;;
    when (negb (c =? GS_OK)) (leave GS_INVALID) ;;
    ' (c, stateText) <- pure (xml_search data "state" "") ;;
    when (negb (c =? GS_OK)) (leave GS_INVALID) ;;
    c <- search_int_into data "ServerCodecModeSupport"
           (fun s => si_serverCodecModeSupport (serverInfo s))
           set_serverCodecModeSupport ;;
    when (negb (c =? GS_OK)) (leave GS_INVALID) ;;
    c <- search_into data "gputype" gpuType set_gpuType ;;
    when (negb (c =? GS_OK)) (leave GS_INVALID) ;;
    c <- search_into data "GsVersion" gsVersion set_gsVersion ;;
    when (negb (c =? GS_OK)) (leave GS_INVALID) ;;
    c <- search_into data "hostname" hostname set_hostname ;;
    when (negb (c =? GS_OK)) (leave GS_INVALID) ;;
    c <- search_into data "GfeVersion" serverInfoGfeVersion
           set_serverInfoGfeVersion ;;
    when (negb (c =? GS_OK)) (leave GS_INVALID) ;;
    ' (c, httpsPortText) <- pure (xml_search data "HttpsPort" "") ;;
    when (negb (c =? GS_OK)) (leave GS_INVALID) ;;
    c <- search_into data "mac" mac set_mac ;;
    when (negb (c =? GS_OK)) (leave GS_INVALID) ;;
    server <- get_server ;;
    when (empty currentGameText || empty pairedText ||
          empty (serverInfoAppVersion server) || empty stateText)
      (leave GS_INVALID) ;;
    update_server (set_paired (pairedText =? "1")%string) ;;
    update_server
      (set_currentGame
         (if empty currentGameText then 0 else atoi currentGameText)) ;;
    update_server
      (fun s =>
         set_supports4K
           (negb (si_serverCodecModeSupport (serverInfo s) =? 0)) s) ;;
    update_server
      (fun s => set_serverMajorVersion (atoi (serverInfoAppVersion s)) s) ;;
    update_server (set_httpsPort (atoi httpsPortText)) ;;
    update_server
      (fun s => if httpsPort s =? 0 then set_httpsPort 47984 s else s) ;;
    when (stateText =? "_SERVER_BUSY")%string
      (update_server (set_currentGame 0)) ;;
    pure GS_OK).

(** *** load_server_status (lines 161-196) *)

(** [for (i = 0; i < 2 && ret != GS_OK; i++)
       ret = load_serverinfo(server, i == 0);] *)
Fixpoint serverinfo_attempts (fuel : nat) (i ret : Z) : Op Z :=
  match fuel with
  | O => pure ret
  | S fuel' =>
      if (i <? 2) && negb (ret =? GS_OK) then
        ret' <- call (load_serverinfo (i =? 0)) ;;
        serverinfo_attempts fuel' (i + 1) ret'
      else pure ret
  end.

Definition too_new : string :=
  "Ensure you're running the latest version of Moonlight-Switch or downgrade GeForce Experience and try again".

Definition too_old : string :=
  "Moonlight-Switch requires a newer version of GeForce Experience. Please upgrade GFE on your PC and try again.".

(** Lines 181-193: the supported band of server versions. *)
Definition check_version (ret : Z) : Op Z :=
  if ret =? GS_OK then
    server <- get_server ;;
    if MAX_SUPPORTED_GFE_VERSION <? serverMajorVersion server then
      gs_set_error too_new ;; pure GS_UNSUPPORTED_VERSION
    else if serverMajorVersion server <? MIN_SUPPORTED_GFE_VERSION then
      gs_set_error too_old ;; pure GS_UNSUPPORTED_VERSION
    else pure ret
  else pure ret.

Definition load_server_status : World -> Z * World :=
  body (
    server <- get_server ;;
    when (httpsPort server =? 0)
      (ret <- call (load_serverinfo false) ;;
       when (negb (ret =? GS_OK)) (leave ret)) ;;
    ret <- serverinfo_attempts 3 0 GS_INVALID ;;
    check_version ret).

(** *** gs_unpair (lines 209-221) *)

Definition unpair_url (server : SERVER_DATA) : string :=
  snprintf url_size
    ("http://" ++ si_address (serverInfo server) ++ ":" ++
     fmt_u (httpPort server) ++ "/unpair?uniqueid=" ++ unique_id).

Definition gs_unpair : World -> Z * World :=
  body (
    server <- get_server ;;
    ' (ret, _) <- request Unpair (unpair_url server) HTTPRequestTimeoutLow ;;
    pure ret).

(** *** gs_pair_validate (lines 223-239) *)

(** The value is the returned [int] and what is in [*result] afterwards.
    In [(ret = xml_status(data) != GS_OK)] the comparison binds tighter than
    the assignment: [ret] is the truth value of the comparison. *)
Definition gs_pair_validate (data : Data) : Op (Z * string) :=
  st <- status data ;;
  if negb (ne st GS_OK =? 0) then pure (ne st GS_OK, "")
  else pure (xml_search data "paired" "").

(** *** gs_pair_cleanup (lines 241-246) *)

Definition gs_pair_cleanup (ret : Z) : World -> Z * World :=
  body (
    when (negb (ret =? GS_OK)) (_ <- call gs_unpair ;; pure tt) ;;
    pure ret).

(** [return gs_pair_cleanup(ret, server, &result);] *)
Definition return_cleanup {A : Type} (ret : Z) : Op A :=
  r <- call (gs_pair_cleanup ret) ;; leave r.

(** [if ((ret = gs_pair_validate(data, &result) != GS_OK))
       return gs_pair_cleanup(ret, server, &result);]
    Again [ret] is the truth value of the comparison.  The value is
    [*result]. *)
Definition validate_or_cleanup (data : Data) : Op string :=
  ' (v, result) <- gs_pair_validate data ;;
  when (negb (ne v GS_OK =? 0)) (return_cleanup (ne v GS_OK)) ;;
  pure result.

(** [if ((ret = http_request(url, &data, HTTPRequestTimeoutLong)) != GS_OK)
       return gs_pair_cleanup(ret, server, &result);] *)
Definition request_or_cleanup (stage : nat) (url : string) : Op Data :=
  ' (ret, data) <- request (Pair stage) url HTTPRequestTimeoutLong ;;
  when (negb (ret =? GS_OK)) (return_cleanup ret) ;;
  pure data.

(** *** gs_pair (lines 248-450) *)

(** The common head of the five pairing URLs, and each URL. *)
Definition pair_url_head (scheme : string) (server : SERVER_DATA) (port : Z)
  : string :=
  scheme ++ "://" ++ si_address (serverInfo server) ++ ":" ++ fmt_u port ++
  "/pair?uniqueid=" ++ unique_id ++ "&devicename=roth&updateState=1&".

Definition pair_url1 (server : SERVER_DATA) (salt : Data) : string :=
  snprintf url_size
    (pair_url_head "http" server (httpPort server) ++
     "phrase=getservercert&salt=" ++ hex salt ++
     "&clientcert=" ++ hex cert_data).

Definition pair_url2 (server : SERVER_DATA) (encryptedChallenge : Data)
  : string :=
  snprintf url_size
    (pair_url_head "http" server (httpPort server) ++
     "clientchallenge=" ++ hex encryptedChallenge).

Definition pair_url3 (server : SERVER_DATA) (challengeRespEncrypted : Data)
  : string :=
  snprintf url_size
    (pair_url_head "http" server (httpPort server) ++
     "serverchallengeresp=" ++ hex challengeRespEncrypted).

Definition pair_url4 (server : SERVER_DATA) (clientPairingSecret : Data)
  : string :=
  snprintf url_size
    (pair_url_head "http" server (httpPort server) ++
     "clientpairingsecret=" ++ hex clientPairingSecret).

Definition pair_url5 (server : SERVER_DATA) : string :=
  snprintf url_size
    (pair_url_head "https" server (httpsPort server) ++
     "phrase=pairchallenge").

(** The locals that are alive when the log line of the next stage is
    written. *)
Record Stage1 : Type := mkStage1 {
  salted_pin : Data;
  result1 : string                   (* the plaincert text *)
}.

Record Stage2 : Type := mkStage2 {
  plainCert : Data;
  aesKey : Data;
  hashLength : Z;
  randomChallenge : Data;
  result2 : string                   (* the challengeresponse text *)
}.

Record Stage3 : Type := mkStage3 {
  serverResponse : Data;
  serverChallenge : Data;
  clientSecret : Data;
  challengeRespHash : Data;
  result3 : string                   (* the pairingsecret text *)
}.

(** "Start pairing stage #1" (lines 268-293). *)
Definition gs_pair_stage1 (pin : string) : Op Stage1 :=
  server <- get_server ;;
  salt <- random 16 ;;
  data <- request_or_cleanup 1 (pair_url1 server salt) ;;
  result <- validate_or_cleanup data ;;
  when (negb (fst (xml_search data "plaincert" result) =? GS_OK))
    (return_cleanup (fst (xml_search data "plaincert" result))) ;;
  pure (mkStage1 (append salt pin) (snd (xml_search data "plaincert" result))).

(** Lines 300-308: Gen 7 servers use SHA256 to get the key. *)
Definition key_and_hash_length (server : SERVER_DATA) (salted : Data)
  : Data * Z :=
  if 7 <=? serverMajorVersion server
  then (create_AES_key_from_salt_SHA256 salted, 32)
  else (create_AES_key_from_salt_SHA1 salted, 20).

(** "Start pairing stage #2" (lines 295-334). *)
Definition gs_pair_stage2 (s1 : Stage1) : Op Stage2 :=
  server <- get_server ;;
  randomChallenge <- random 16 ;;
  data <- request_or_cleanup 2
            (pair_url2 server
               (aes_encrypt randomChallenge
                  (fst (key_and_hash_length server (salted_pin s1))))) ;;
  result <- validate_or_cleanup data ;;
  when (negb (fst (xml_search data "challengeresponse" result) =? GS_OK))
    (return_cleanup GS_INVALID) ;;
  pure (mkStage2 (result1 s1)
          (fst (key_and_hash_length server (salted_pin s1)))
          (snd (key_and_hash_length server (salted_pin s1)))
          randomChallenge
          (snd (xml_search data "challengeresponse" result))).

(** Lines 353-359 and 405-411: the hash of the challenge responses. *)
Definition hash_data (server : SERVER_DATA) (input : Data) : Data :=
  if 7 <=? serverMajorVersion server
  then SHA256_hash_data input
  else SHA1_hash_data input.

(** "Start pairing stage #3" (lines 336-383). *)
Definition gs_pair_stage3 (s2 : Stage2) : Op Stage3 :=
  server <- get_server ;;
  let decServerChallengeResp :=
    aes_decrypt (hex_to_bytes (result2 s2)) (aesKey s2) in
  let serverResponse := subdata decServerChallengeResp 0 (hashLength s2) in
  let serverChallenge := subdata decServerChallengeResp (hashLength s2) 16 in
  clientSecret <- random 16 ;;
  let challengeRespHash :=
    hash_data server
      (append (append serverChallenge (signature cert_data)) clientSecret) in
  data <- request_or_cleanup 3
            (pair_url3 server (aes_encrypt challengeRespHash (aesKey s2))) ;;
  result <- validate_or_cleanup data ;;
  when (negb (fst (xml_search data "pairingsecret" result) =? GS_OK))
    (return_cleanup GS_INVALID) ;;
  pure (mkStage3 serverResponse serverChallenge clientSecret challengeRespHash
          (snd (xml_search data "pairingsecret" result))).

Definition mitm_message : string := "MITM attack detected".

(** "Start pairing stage #4" (lines 385-430).  [serverChallengeRespHash] is
    computed and not used. *)
Definition gs_pair_stage4 (s2 : Stage2) (s3 : Stage3) : Op unit :=
  server <- get_server ;;
  let serverSecretResp := hex_to_bytes (result3 s3) in
  let serverSecret := subdata serverSecretResp 0 16 in
  let serverSignature := subdata serverSecretResp 16 256 in
  when (negb (verify_signature serverSecret serverSignature
                (hex_to_bytes (plainCert s2))))
    (gs_set_error mitm_message ;; return_cleanup GS_FAILED) ;;
  let serverChallengeRespHash :=
    hash_data server
      (append (append (randomChallenge s2)
                 (signature (hex_to_bytes (plainCert s2)))) serverSecret) in
  let clientPairingSecret :=
    append (clientSecret s3) (sign_data (clientSecret s3) key_data) in
  data <- request_or_cleanup 4 (pair_url4 server clientPairingSecret) ;;
  _ <- validate_or_cleanup data ;;
  pure tt.

(** "Start pairing stage #5" (lines 432-449).  After the last validation
    [ret] is 0, the truth value of the failed comparison. *)
Definition gs_pair_stage5 : Op Z :=
  server <- get_server ;;
  data <- request_or_cleanup 5 (pair_url5 server) ;;
  _ <- validate_or_cleanup data ;;
  update_server (set_paired true) ;;
  return_cleanup 0.

Definition already_paired : string := "Already paired".

Definition in_game : string :=
  "The computer is currently in a game. You must close the game before pairing".

Definition gs_pair (pin : string) : World -> Z * World :=
  body (
    server <- get_server ;;
    when (paired server) (gs_set_error already_paired ;; leave GS_WRONG_STATE) ;;
    when (negb (currentGame server =? 0))
      (gs_set_error in_game ;; leave GS_WRONG_STATE) ;;
    s1 <- gs_pair_stage1 pin ;;
    s2 <- gs_pair_stage2 s1 ;;
    s3 <- gs_pair_stage3 s2 ;;
    gs_pair_stage4 s2 s3 ;;
    gs_pair_stage5).

(** *** gs_start_app (lines 487-557) *)

Definition CHANNEL_COUNT_STEREO : Z := 2.
Definition CHANNEL_COUNT_51_SURROUND : Z := 6.
Definition CHANNEL_MASK_STEREO : Z := 0x3.
Definition CHANNEL_MASK_51_SURROUND : Z := 0xFC.

(** [int fps = sops && config->fps > 60 ? 60 : config->fps;] *)
Definition launch_fps (config : STREAM_CONFIGURATION) (sops : bool) : Z :=
  if sops && (60 <? fps config) then 60 else fps config.

Definition launch_text (server : SERVER_DATA) (config : STREAM_CONFIGURATION)
  (appId : Z) (sops localaudio : bool) (gamepad_mask : Z) (rand : Data)
  (rikeyid : Z) : string :=
  let channelCounnt :=
    if audioConfiguration config =? AUDIO_CONFIGURATION_STEREO
    then CHANNEL_COUNT_STEREO else CHANNEL_COUNT_51_SURROUND in
  let mask :=
    if audioConfiguration config =? AUDIO_CONFIGURATION_STEREO
    then CHANNEL_MASK_STEREO else CHANNEL_MASK_51_SURROUND in
  "https://" ++ si_address (serverInfo server) ++ ":" ++
  fmt_u (httpsPort server) ++ "/launch?uniqueid=" ++ unique_id ++
  "&appid=" ++ fmt_d appId ++
  "&mode=" ++ fmt_d (width config) ++ "x" ++ fmt_d (height config) ++ "x" ++
  fmt_d (launch_fps config sops) ++
  "&additionalStates=1&sops=" ++ fmt_b sops ++
  "&rikey=" ++ hex rand ++ "&rikeyid=" ++ fmt_d rikeyid ++
  "&localAudioPlayMode=" ++ fmt_b localaudio ++
  "&surroundAudioInfo=" ++ fmt_d (Z.shiftl mask 16 + channelCounnt) ++
  "&remoteControllersBitmap=" ++ fmt_d gamepad_mask ++
  "&gcmap=" ++ fmt_d gamepad_mask ++ LiGetLaunchUrlQueryParameters.

Definition resume_text (server : SERVER_DATA) (rand : Data) (rikeyid : Z)
  : string :=
  "https://" ++ si_address (serverInfo server) ++ ":" ++
  fmt_u (httpsPort server) ++ "/resume?uniqueid=" ++ unique_id ++
  "&rikey=" ++ hex rand ++ "&rikeyid=" ++ fmt_d rikeyid ++
  LiGetLaunchUrlQueryParameters.

Definition no_4k : string := "4K not supported".

(** Lines 505-528: which URL is written into [url], and by which branch. *)
Definition start_app_request (server : SERVER_DATA)
  (config : STREAM_CONFIGURATION) (appId : Z) (sops localaudio : bool)
  (gamepad_mask : Z) (rand : Data) (rikeyid : Z) : Endpoint * string :=
  if currentGame server =? 0 then
    (Launch,
     snprintf url_size
       (launch_text server config appId sops localaudio gamepad_mask rand
          rikeyid))
  else (Resume, snprintf url_size (resume_text server rand rikeyid)).

Definition gs_start_app (appId : Z) (sops localaudio : bool)
  (gamepad_mask : Z) : World -> Z * World :=
  body (
    server <- get_server ;;
    config <- get_config ;;
    when ((2160 <=? height config) && negb (supports4K server))
      (gs_set_error no_4k ;; leave GS_NOT_SUPPORTED_4K) ;;
    rand <- random 16 ;;
    update_config (set_remoteInputAesKey (subdata rand 0 16)) ;;
    let rikeyid := 0 in
    let url :=
      start_app_request server config appId sops localaudio gamepad_mask rand
        rikeyid in
    ' (ret, data) <- request (fst url) (snd url) HTTPRequestTimeoutLong ;;
    (if ret =? GS_OK then update_server (set_currentGame appId)
     else leave ret) ;;
    st <- status data ;;
    when (negb (ne st GS_OK =? 0)) (leave (ne st GS_OK)) ;;
    ' (ret, result) <- pure (xml_search data "gamesession" "") ;;
    when (negb (ret =? GS_OK)) (leave ret) ;;
    when (result =? "0")%string (leave GS_FAILED) ;;
    when (fst (xml_search data "sessionUrl0" result) =? GS_OK)
      (update_server
         (set_rtspSessionUrl
            (Some (snd (xml_search data "sessionUrl0" result))))) ;;
    pure ret).

End Client.

(** ** The rest of client.cpp *)

(** libc's [strtol(nptr, &endptr, 10)]: the value and the text [endptr] is
    left at. *)
Class Libc : Type := {
  strtol : string -> Z * string
}.

(** The reader of application lists: [xml_applist(data, &list)] gives its
    code and what [*list] is afterwards, given what it was. *)
Class AppListReader : Type := {
  PAPP_LIST : Type;
  xml_applist : Data -> PAPP_LIST -> Z * PAPP_LIST
}.

(** What [gs_init] meets at start: whether [CryptoManager] finds the
    persisted key pair, whether it can make a new one, and what
    [LiInitializeServerInformation] leaves in the structure. *)
Class Startup : Type := {
  load_cert_key_pair : bool;
  generate_new_cert_key_pair : bool;
  LiInitializeServerInformation : SERVER_INFORMATION -> SERVER_INFORMATION
}.

Definition set_address (v : string) (s : SERVER_DATA) :=
  mkSERVER_DATA v (serverInfoAppVersion s) (serverInfoGfeVersion s)
    (gpuType s) (gsVersion s) (hostname s) (mac s) (paired s) (supports4K s)
    (currentGame s) (serverMajorVersion s) (httpPort s) (httpsPort s)
    (serverInfo s).
Definition set_httpPort (v : Z) (s : SERVER_DATA) :=
  mkSERVER_DATA (address s) (serverInfoAppVersion s) (serverInfoGfeVersion s)
    (gpuType s) (gsVersion s) (hostname s) (mac s) (paired s) (supports4K s)
    (currentGame s) (serverMajorVersion s) v (httpsPort s) (serverInfo s).
Definition set_si_address (v : string) (s : SERVER_DATA) :=
  set_serverInfo
    (mkSERVER_INFORMATION v (si_rtspSessionUrl (serverInfo s))
       (si_serverCodecModeSupport (serverInfo s))) s.

(** The world with another descriptor. *)
Definition with_server (s : SERVER_DATA) (w : World) : World :=
  mkWorld s (w_config w) (w_error w) (w_trace w) (w_draws w).

(** The conversions [(int)] of a [long] and [unsigned short] of an
    [int]. *)
Definition int_of_long (z : Z) : Z := (z + 2 ^ 31) mod 2 ^ 32 - 2 ^ 31.
Definition unsigned_short (z : Z) : Z := z mod 2 ^ 16.

(** The delimiter of the address, [':']. *)
Definition colon : Ascii.ascii := Ascii.ascii_of_nat 58.

(** [while(std::getline(addressStream, segment, ':'))
       seglist.push_back(segment);]
    A call of [getline] takes the characters up to the next colon, which it
    drops, or up to the end; it fails, and the loop ends, when nothing is
    left to take.  [segment] is what the running call has taken so far. *)
Fixpoint segments_from (s : string) (segment : string) : list string :=
  match s with
  | EmptyString => [segment]
  | String c rest =>
      if Ascii.eqb c colon then
        segment ::
        match rest with
        | EmptyString => []
        | String _ _ => segments_from rest ""
        end
      else segments_from rest (segment ++ String c "")
  end.

Definition segments (address : string) : list string :=
  match address with
  | EmptyString => []
  | String _ _ => segments_from address ""
  end.

Section Session.

Context {codes : ErrorCodes} {ext : Externals} {libc : Libc}
  {reader : AppListReader} {startup : Startup}.

(** *** extractVersionQuadFromString and isSunshine (lines 41-64) *)

(** One round of the loop: the component, and [nextNumber] after the dot is
    skipped, unless it is at the terminator already.  The text is a C
    string: what is left of the version from [nextNumber] on. *)
Definition version_component (nextNumber : string) : Z * string :=
  (int_of_long (fst (strtol nextNumber)),
   match snd (strtol nextNumber) with
   | EmptyString => EmptyString
   | String _ rest => rest
   end).

(** [n] rounds: the components stored and [nextNumber] at the end. *)
Fixpoint version_components (n : nat) (nextNumber : string)
  : list Z * string :=
  match n with
  | O => ([], nextNumber)
  | S n' =>
      let later :=
        version_components n' (snd (version_component nextNumber)) in
      (fst (version_component nextNumber) :: fst later, snd later)
  end.

(** The returned [int] and [quad[0..3]]. *)
Definition extractVersionQuadFromString (text : string) : Z * list Z :=
  (0, fst (version_components 4 text)).

Definition isSunshine (server : SERVER_DATA) : bool :=
  nth 3 (snd (extractVersionQuadFromString (serverInfoAppVersion server))) 0
  <? 0.

(** *** gs_applist (lines 452-467) *)

Definition applist_url (server : SERVER_DATA) : string :=
  snprintf url_size
    ("https://" ++ si_address (serverInfo server) ++ ":" ++
     fmt_u (httpsPort server) ++ "/applist?uniqueid=" ++ unique_id).

(** The value is the returned [int] and [*list] afterwards. *)
Definition gs_applist (list : PAPP_LIST) : World -> (Z * PAPP_LIST) * World :=
  fun w =>
    let url := applist_url (w_server w) in
    let answer :=
      http_request (map req_url (w_trace w)) url HTTPRequestTimeoutMedium in
    let w1 := record Applist url HTTPRequestTimeoutMedium w in
    if negb (fst answer =? GS_OK) then ((GS_IO_ERROR, list), w1)
    else if fst (xml_status (snd answer)) =? GS_ERROR
    then ((GS_ERROR, list), heard (snd answer) w1)
    else if negb (fst (xml_applist (snd answer) list) =? GS_OK)
    then ((GS_INVALID, snd (xml_applist (snd answer) list)),
          heard (snd answer) w1)
    else ((GS_OK, snd (xml_applist (snd answer) list)), heard (snd answer) w1).

(** *** gs_app_boxart (lines 469-485) *)

Definition boxart_url (server : SERVER_DATA) (app_id : Z) : string :=
  snprintf url_size
    ("https://" ++ si_address (serverInfo server) ++ ":" ++
     fmt_u (httpsPort server) ++ "/appasset?uniqueid=" ++ unique_id ++
     "&appid=" ++ fmt_d app_id ++ "&AssetType=2&AssetIdx=0").

(** The value is the returned [int] and [*out] afterwards. *)
Definition gs_app_boxart (app_id : Z) (out : Data)
  : World -> (Z * Data) * World :=
  fun w =>
    let url := boxart_url (w_server w) app_id in
    let answer :=
      http_request (map req_url (w_trace w)) url HTTPRequestTimeoutMedium in
    let w1 := record Appasset url HTTPRequestTimeoutMedium w in
    if negb (fst answer =? GS_OK) then ((GS_IO_ERROR, out), w1)
    else ((GS_OK, snd answer), w1).

(** *** gs_quit_app (lines 559-583) *)

Definition cancel_url (server : SERVER_DATA) : string :=
  snprintf url_size
    ("https://" ++ si_address (serverInfo server) ++ ":" ++
     fmt_u (httpsPort server) ++ "/cancel?uniqueid=" ++ unique_id).

Definition gs_quit_app : World -> Z * World :=
  body (
    server <- get_server ;;
    ' (ret, data) <- request Cancel (cancel_url server)
                       HTTPRequestTimeoutMedium ;;
    when (negb (ret =? GS_OK)) (leave ret) ;;
    st <- status data ;;
    when (negb (ne st GS_OK =? 0)) (leave (ne st GS_OK)) ;;
    ' (ret, result) <- pure (xml_search data "cancel" "") ;;
    when (negb (ret =? GS_OK)) (leave ret) ;;
    when (result =? "0")%string (leave GS_FAILED) ;;
    pure ret).

(** *** gs_init (lines 585-624) *)

(** [unsigned short httpPort = 47989], overridden by the second segment. *)
Definition init_port (seglist : list string) : Z :=
  match seglist with
  | _ :: port :: _ => unsigned_short (atoi port)
  | _ => 47989
  end.

(** The descriptor as [gs_init] hands it to [load_server_status]. *)
Definition init_server (host : string) (port : Z) (server : SERVER_DATA)
  : SERVER_DATA :=
  set_httpsPort 0
    (set_httpPort port
       (set_si_address host
          (set_address host
             (set_serverInfo
                (LiInitializeServerInformation (serverInfo server))
                server)))).

(** [None] stands for [seglist[0]] on an empty vector.  [http_init] and
    the logger change nothing that client.cpp reads.  The two assignments
    after [load_server_status] make [serverInfo.serverInfoAppVersion] and
    [serverInfo.serverInfoGfeVersion] point into the descriptor's own
    strings: they hold no text of their own. *)
Definition gs_init (address : string) : World -> option (Z * World) :=
  fun w =>
    let seglist := segments address in
    let httpPort := init_port seglist in
    if negb load_cert_key_pair && negb generate_new_cert_key_pair
    then Some (GS_FAILED, w)
    else
      match seglist with
      | [] => None
      | host :: _ =>
          Some (load_server_status
                  (with_server (init_server host httpPort (w_server w)) w))
      end.

End Session.

(** ** A small world to run the functions in *)

Module Sample.

(** The values of libgamestream's errors.h. *)
#[export] Instance codes : ErrorCodes := {|
  GS_OK := 0;
  GS_FAILED := -1;
  GS_INVALID := -3;
  GS_WRONG_STATE := -4;
  GS_IO_ERROR := -5;
  GS_NOT_SUPPORTED_4K := -6;
  GS_UNSUPPORTED_VERSION := -7;
  GS_ERROR := -9
|}.

(** The text between the first [opening] and the next [closing]. *)
Definition between (opening closing : string) (d : string) : option string :=
  match index 0 opening d with
  | Some i =>
      let start := (i + String.length opening)%nat in
      match index start closing d with
      | Some j => Some (substring start (j - start) d)
      | None => None
      end
  | None => None
  end.

Definition element (name : string) (d : Data) : option string :=
  between ("<" ++ name ++ ">") "<" d.

(** The leading decimal digits of a text. *)
Fixpoint digits (s : string) (acc : Z) : Z :=
  match s with
  | EmptyString => acc
  | String c rest =>
      let n := Z.of_nat (Ascii.nat_of_ascii c) - 48 in
      if (0 <=? n) && (n <=? 9) then digits rest (10 * acc + n) else acc
  end.

(** Modelled from the spec: the XML reader is not among the sources.
    [xml_status] is [GS_OK] iff the [status_code] attribute is 200 and hands
    the [status_message] to the error channel otherwise; [xml_search] gives
    the text of the first element of that name, [GS_INVALID] when there is
    none.  The transport answers the n-th request of the process with the
    n-th entry of [script]; the cryptography is a stand-in in which a
    signature verifies when it is the certificate text itself. *)
Definition scripted (script : list (Z * Data)) : Externals := {|
  http_request := fun before _ _ => nth (List.length before) script (-5, "");
  xml_status := fun d =>
    match between "status_code='" "'" d with
    | Some "200" => (0, None)
    | _ => (-9, between "status_message='" "'" d)
    end;
  xml_search := fun d name old =>
    match element name d with
    | Some v => (0, v)
    | None => (-3, old)
    end;
  xml_search_int := fun d name old =>
    match element name d with
    | Some v => (0, digits v 0)
    | None => (-3, old)
    end;
  random_bytes := fun k n =>
    substring 0 (Z.to_nat n)
      (nth k ["0000000000000000"; "1111111111111111"; "2222222222222222"]
         "3333333333333333");
  hex := fun d => d;
  hex_to_bytes := fun d => d;
  cert_data := "CLIENTCERT";
  key_data := "CLIENTKEY";
  create_AES_key_from_salt_SHA256 := fun d => substring 0 16 ("sha256:" ++ d);
  create_AES_key_from_salt_SHA1 := fun d => substring 0 16 ("sha1:" ++ d);
  aes_encrypt := fun d k => d;
  aes_decrypt := fun d k => d;
  SHA256_hash_data := fun d => "sha256:" ++ d;
  SHA1_hash_data := fun d => "sha1:" ++ d;
  signature := fun cert => cert;
  sign_data := fun d key => "signed:" ++ d;
  verify_signature := fun secret sig cert => (sig =? cert)%string;
  atoi := fun s => digits s 0;
  AUDIO_CONFIGURATION_STEREO := 0;
  LiGetLaunchUrlQueryParameters := "&corever=1";
  MAX_SUPPORTED_GFE_VERSION := 7;
  MIN_SUPPORTED_GFE_VERSION := 3
|}.

Definition server : SERVER_DATA :=
  mkSERVER_DATA "192.168.1.2" "7.1.431.0" "3.20" "RTX" "3.20" "desk" "00:11"
    false false 0 7 47989 47984
    (mkSERVER_INFORMATION "192.168.1.2" None 0).

Definition config : STREAM_CONFIGURATION :=
  mkSTREAM_CONFIGURATION 1280 720 120 0 "".

Definition world (s : SERVER_DATA) (c : STREAM_CONFIGURATION) : World :=
  mkWorld s c "" [] 0.

(** Answers of a host to the five pairing requests. *)
Definition refused : Data :=
  "<root status_code='401' status_message='denied'></root>".
Definition no_paired_element : Data :=
  "<root status_code='200'><plaincert>CERT</plaincert></root>".
Definition answer1 : Data :=
  "<root status_code='200'><paired>1</paired><plaincert>CERT</plaincert></root>".
Definition answer2 : Data :=
  "<root status_code='200'><paired>1</paired><challengeresponse>aaaaaaaaaaaaaaaaaaaaaaaaaaaaaaaaSERVERCHALLENGE00</challengeresponse></root>".
Definition answer3 : Data :=
  "<root status_code='200'><paired>1</paired><pairingsecret>SECRETSECRETSECRCERT</pairingsecret></root>".
Definition forged3 : Data :=
  "<root status_code='200'><paired>1</paired><pairingsecret>SECRETSECRETSECRFORGED</pairingsecret></root>".
Definition answer4 : Data :=
  "<root status_code='200'><paired>1</paired></root>".

(** Answers to serverinfo: a complete one, and one that stops before
    [mac]. *)
Definition serverinfo_answer : Data :=
  "<root status_code='200'><hostname>tower</hostname><appversion>7.1.431.0</appversion><GfeVersion>3.23.0</GfeVersion><mac>aa:bb</mac><HttpsPort>47984</HttpsPort><ServerCodecModeSupport>3</ServerCodecModeSupport><gputype>GTX</gputype><GsVersion>3.23</GsVersion><PairStatus>1</PairStatus><currentgame>0</currentgame><state>SERVER_FREE</state></root>".
Definition serverinfo_cut : Data :=
  "<root status_code='200'><hostname>tower</hostname><appversion>9.9</appversion><GfeVersion>3.23.0</GfeVersion><HttpsPort>40000</HttpsPort><ServerCodecModeSupport>3</ServerCodecModeSupport><gputype>GTX</gputype><GsVersion>3.23</GsVersion><PairStatus>1</PairStatus><currentgame>12</currentgame><state>SERVER_FREE</state></root>".

(** Answers to launch: a refused session and a granted one. *)
Definition no_session : Data :=
  "<root status_code='200'><gamesession>0</gamesession></root>".
Definition session : Data :=
  "<root status_code='200'><gamesession>1</gamesession><sessionUrl0>rtsp://192.168.1.2:48010</sessionUrl0></root>".

(** The sample server seen before its HTTPS port is known, as paired, and
    with a game running; a 4K stream. *)
Definition fresh_server : SERVER_DATA := set_httpsPort 0 server.
Definition paired_server : SERVER_DATA := set_paired true server.
Definition busy_server : SERVER_DATA := set_currentGame 5 server.
Definition uhd : STREAM_CONFIGURATION :=
  mkSTREAM_CONFIGURATION 3840 2160 60 0 "".

(** A host that answers the first three pairing requests and signs its
    secret with something that is not its certificate; the run of the
    first three stages against it. *)
Definition forging_host : Externals :=
  scripted [(0, answer1); (0, answer2); (0, forged3); (0, answer4)].

Definition start : World := world server config.

Definition stage_locals {A : Type} (run : Flow A * World) (default : A) : A :=
  match fst run with
  | Next a => a
  | Return _ => default
  end.

Definition run1 : Flow Stage1 * World :=
  Eval vm_compute in @gs_pair_stage1 codes forging_host "1234" start.
Definition locals1 : Stage1 := stage_locals run1 (mkStage1 "" "").

Definition run2 : Flow Stage2 * World :=
  Eval vm_compute in @gs_pair_stage2 codes forging_host locals1 (snd run1).
Definition locals2 : Stage2 := stage_locals run2 (mkStage2 "" "" 0 "" "").

Definition run3 : Flow Stage3 * World :=
  Eval vm_compute in @gs_pair_stage3 codes forging_host locals2 (snd run2).
Definition locals3 : Stage3 := stage_locals run3 (mkStage3 "" "" "" "" "").

(** libc's [strtol] in base 10, as the C standard words it, for values that
    fit a [long]: white space, a sign, decimal digits; with no digit there
    is no conversion, the value is 0 and [endptr] is [nptr]. *)
Definition is_space (c : Ascii.ascii) : bool :=
  ((Ascii.nat_of_ascii c =? 32) ||
   ((9 <=? Ascii.nat_of_ascii c) && (Ascii.nat_of_ascii c <=? 13)))%nat.

Definition digit (c : Ascii.ascii) : option Z :=
  let n := Z.of_nat (Ascii.nat_of_ascii c) - 48 in
  if (0 <=? n) && (n <=? 9) then Some n else None.

Fixpoint skip_spaces (s : string) : string :=
  match s with
  | EmptyString => s
  | String c rest => if is_space c then skip_spaces rest else s
  end.

Fixpoint read_digits (s : string) (acc : Z) : Z * string :=
  match s with
  | EmptyString => (acc, s)
  | String c rest =>
      match digit c with
      | Some d => read_digits rest (10 * acc + d)
      | None => (acc, s)
      end
  end.

Definition starts_with_digit (s : string) : bool :=
  match s with
  | EmptyString => false
  | String c _ =>
      match digit c with
      | Some _ => true
      | None => false
      end
  end.

Definition c_strtol (nptr : string) : Z * string :=
  match skip_spaces nptr with
  | EmptyString => (0, nptr)
  | String c rest =>
      if Ascii.eqb c (Ascii.ascii_of_nat 45) then
        if starts_with_digit rest
        then (- fst (read_digits rest 0), snd (read_digits rest 0))
        else (0, nptr)
      else if Ascii.eqb c (Ascii.ascii_of_nat 43) then
        if starts_with_digit rest then read_digits rest 0 else (0, nptr)
      else if starts_with_digit (String c rest)
      then read_digits (String c rest) 0
      else (0, nptr)
  end.

#[export] Instance libc : Libc := {| strtol := c_strtol |}.

(** An application list is the texts of its [AppTitle] elements here; the
    reader takes the first. *)
#[export] Instance reader : AppListReader := {|
  PAPP_LIST := list string;
  xml_applist := fun d old =>
    match element "AppTitle" d with
    | Some title => (0, [title])
    | None => (-3, old)
    end
|}.

(** A start with a key pair on disk, and one with neither a key pair nor
    the means to make one. *)
Definition with_keys : Startup := {|
  load_cert_key_pair := true;
  generate_new_cert_key_pair := true;
  LiInitializeServerInformation := fun _ => mkSERVER_INFORMATION "" None 0
|}.

Definition without_keys : Startup := {|
  load_cert_key_pair := false;
  generate_new_cert_key_pair := false;
  LiInitializeServerInformation := fun _ => mkSERVER_INFORMATION "" None 0
|}.

Definition applist_answer : Data :=
  "<root status_code='200'><App><AppTitle>Steam</AppTitle><ID>7</ID></App></root>".
Definition cancel_answer : Data :=
  "<root status_code='200'><cancel>1</cancel></root>".

(** A host name that does not fit the URL buffer. *)
Fixpoint filler (n : nat) : string :=
  match n with
  | O => ""
  | S n' => String (Ascii.ascii_of_nat 97) (filler n')
  end.

Definition far_server : SERVER_DATA := set_si_address (filler 4096) server.
Definition far_busy_server : SERVER_DATA := set_currentGame 5 far_server.

End Sample.

(** ** Properties *)

(** Whether [needle] occurs in [text]. *)
Definition contains (needle text : string) : bool :=
  match index 0 needle text with
  | Some _ => true
  | None => false
  end.

(** The requests issued between two worlds, and the [unpair] calls among
    some requests. *)
Definition issued (before after : World) : list Request :=
  skipn (List.length (w_trace before)) (w_trace after).

Definition is_unpair (r : Request) : bool :=
  match req_by r with
  | Unpair => true
  | _ => false
  end.

Definition unpair_calls (requests : list Request) : nat :=
  List.length (filter is_unpair requests).

(** The fields of the descriptor that later decisions are taken on. *)
Definition same_decisions (a b : SERVER_DATA) : Prop :=
  paired a = paired b /\
  currentGame a = currentGame b /\
  supports4K a = supports4K b /\
  serverMajorVersion a = serverMajorVersion b /\
  httpsPort a = httpsPort b.


(** Unfolding of the statement combinators, and a case split on the next
    test of the program. *)
Ltac unfold_ops :=
  unfold body, bind, when, call, pure, leave, get_server, get_config,
    update_server, update_config, gs_set_error, request, record, status,
    heard, random, search_into, search_int_into in *.

Ltac plain c :=
  lazymatch c with
  | context [if _ then _ else _] => fail
  | context [match _ with (_, _) => _ end] => fail
  | context [match _ with Some _ => _ | None => _ end] => fail
  | context [match _ with Next _ => _ | Return _ => _ end] => fail
  | _ => idtac
  end.

Ltac next_test :=
  match goal with
  | |- context [if ?c then _ else _] => plain c; destruct c eqn:?
  | |- context [match ?x with (_, _) => _ end] => plain x; destruct x eqn:?
  | |- context [match ?x with Some _ => _ | None => _ end] =>
      plain x; destruct x eqn:?
  end.

(** The request [gs_unpair] issues. *)
Definition unpair_request (s : SERVER_DATA) : Request :=
  mkRequest Unpair (unpair_url s) HTTPRequestTimeoutLow.

(** Whether a text has a colon in it. *)
Fixpoint has_colon (s : string) : bool :=
  match s with
  | EmptyString => false
  | String c rest => Ascii.eqb c colon || has_colon rest
  end.

(** [rest] is what is left of [text] from some position on. *)
Definition ends_in (rest text : string) : Prop :=
  exists head : string, text = (head ++ rest)%string.

(** Whether a text begins with a decimal digit. *)
Definition begins_with_digit (s : string) : bool :=
  match s with
  | EmptyString => false
  | String c _ =>
      ((48 <=? Ascii.nat_of_ascii c) && (Ascii.nat_of_ascii c <=? 57))%nat
  end.

(** [a.b.c.d] as a version text. *)
Definition dotted (a b c d : Z) : string :=
  fmt_d a ++ "." ++ fmt_d b ++ "." ++ fmt_d c ++ "." ++ fmt_d d.

(** The values of an [int]. *)
Definition int_range (z : Z) : Prop := - 2 ^ 31 <= z < 2 ^ 31.

Section Properties.

Context {codes : ErrorCodes} {ext : Externals}.

(** A part of [gs_pair] went on to the next statement: the descriptor is as
    it was and no request of it was an unpair. *)
Definition went_on (w w' : World) : Prop :=
  w_server w' = w_server w /\
  exists l : list Request,
    w_trace w' = (w_trace w ++ l)%list /\ unpair_calls l = 0%nat.

(** A part of [gs_pair] returned [r] through [gs_pair_cleanup] after a
    failure: [r] is not [GS_OK], the descriptor is as it was, and the last
    request, and only the last, is the unpair. *)
Definition cleaned_up (w w' : World) (r : Z) : Prop :=
  r <> GS_OK /\ w_server w' = w_server w /\
  exists l : list Request,
    w_trace w' = (w_trace w ++ l ++ [unpair_request (w_server w)])%list /\
    unpair_calls l = 0%nat.

Definition pairing_step {A : Type} (m : Op A) : Prop :=
  forall w : World,
    match m w with
    | (Next _, w') => went_on w w'
    | (Return r, w') => cleaned_up w w' r
    end.

(** [gs_pair] succeeded: the descriptor says paired and no request was an
    unpair. *)
Definition now_paired (w w' : World) (r : Z) : Prop :=
  r = GS_OK /\ w_server w' = set_paired true (w_server w) /\
  exists l : list Request,
    w_trace w' = (w_trace w ++ l)%list /\ unpair_calls l = 0%nat.

Definition pairing_end (m : Op Z) : Prop :=
  forall w : World,
    match m w with
    | (Next r, w') | (Return r, w') => cleaned_up w w' r \/ now_paired w w' r
    end.

(** *** The blob operations against the laws the spec gives for them *)

Lemma substring_whole (s : string) : substring 0 (String.length s) s = s.
Proof. induction s as [| c s IH]; simpl; [| rewrite IH]; reflexivity. Qed.

Lemma subdata_append_head (a b : Data) :
  subdata (append a b) 0 (Z.of_nat (String.length a)) = a.
Proof.
  unfold subdata, append. rewrite Nat2Z.id. simpl Z.to_nat.
  induction a as [| c a IH]; simpl.
  - destruct b; reflexivity.
  - rewrite IH. reflexivity.
Qed.

Lemma subdata_append_tail (a b : Data) :
  subdata (append a b) (Z.of_nat (String.length a))
    (Z.of_nat (String.length b)) = b.
Proof.
  unfold subdata, append. rewrite !Nat2Z.id.
  induction a as [| c a IH]; simpl.
  - apply substring_whole.
  - exact IH.
Qed.

(** *** The state checks and the 4K gate *)

(** C8.  With [server->paired] set, or with it clear and a game running,
    [gs_pair] returns [GS_WRONG_STATE], issues no request, leaves the server
    descriptor as it is, and sets the error string to the message for the
    case at hand. *)
Theorem gs_pair_wrong_state (pin : string) (w : World) :
  paired (w_server w) = true \/
  (paired (w_server w) = false /\ currentGame (w_server w) <> 0) ->
  fst (gs_pair pin w) = GS_WRONG_STATE /\
  w_trace (snd (gs_pair pin w)) = w_trace w /\
  w_server (snd (gs_pair pin w)) = w_server w /\
  w_error (snd (gs_pair pin w)) =
    (if paired (w_server w) then "Already paired"
     else "The computer is currently in a game. You must close the game before pairing").
Proof.
  intros [Hp | [Hp Hg]]; unfold gs_pair, body, bind, get_server, when; simpl;
    rewrite Hp; simpl.
  - repeat split.
  - apply Z.eqb_neq in Hg. rewrite Hg. simpl. repeat split.
Qed.

(** C9.  A stream of height 2160 or more against a server without 4K
    support: [gs_start_app] returns [GS_NOT_SUPPORTED_4K], issues no
    request, and leaves the configuration (so also its
    [remoteInputAesKey]) and the server descriptor as they are. *)
Theorem gs_start_app_4k_gate (appId : Z) (sops localaudio : bool)
  (gamepad_mask : Z) (w : World) :
  2160 <= height (w_config w) ->
  supports4K (w_server w) = false ->
  fst (gs_start_app appId sops localaudio gamepad_mask w)
    = GS_NOT_SUPPORTED_4K /\
  w_trace (snd (gs_start_app appId sops localaudio gamepad_mask w))
    = w_trace w /\
  remoteInputAesKey
    (w_config (snd (gs_start_app appId sops localaudio gamepad_mask w)))
    = remoteInputAesKey (w_config w) /\
  w_config (snd (gs_start_app appId sops localaudio gamepad_mask w))
    = w_config w /\
  w_server (snd (gs_start_app appId sops localaudio gamepad_mask w))
    = w_server w.
Proof.
  intros Hh H4k.
  unfold gs_start_app, body, bind, get_server, get_config, when; simpl.
  apply Z.leb_le in Hh. rewrite Hh, H4k. simpl. repeat split.
Qed.


(** C7.  Past the 4K gate, when the request of [gs_start_app] is answered
    with [GS_OK], [server->currentGame] is [appId] at the return, whatever
    the XML checks that follow say; when the answer has [gamesession] "0"
    the result is [GS_FAILED], still with [currentGame = appId]; when the
    request fails, its code is returned and the server descriptor is as
    before. *)
Theorem gs_start_app_currentGame (appId : Z) (sops localaudio : bool)
  (gamepad_mask : Z) (w : World) :
  height (w_config w) < 2160 \/ supports4K (w_server w) = true ->
  let url :=
    start_app_request (w_server w) (w_config w) appId sops localaudio
      gamepad_mask (random_bytes (w_draws w) 16) 0 in
  let answer :=
    http_request (map req_url (w_trace w)) (snd url) HTTPRequestTimeoutLong in
  let run := gs_start_app appId sops localaudio gamepad_mask w in
  (fst answer = GS_OK -> currentGame (w_server (snd run)) = appId) /\
  (fst answer = GS_OK ->
   ne (fst (xml_status (snd answer))) GS_OK = 0 ->
   xml_search (snd answer) "gamesession" "" = (GS_OK, "0") ->
   fst run = GS_FAILED /\ currentGame (w_server (snd run)) = appId) /\
  (fst answer <> GS_OK ->
   fst run = fst answer /\ w_server (snd run) = w_server w).
Proof.
  intros Hgate url answer run.
  assert (Hg : (2160 <=? height (w_config w)) && negb (supports4K (w_server w))
               = false).
  { destruct Hgate as [Hh | Hs].
    - apply Z.leb_gt in Hh. rewrite Hh. reflexivity.
    - rewrite Hs. apply andb_false_r. }
  subst run answer url. unfold gs_start_app. unfold_ops. simpl. rewrite Hg.
  simpl.
  set (url := start_app_request _ _ _ _ _ _ _ _).
  destruct (http_request (map req_url (w_trace w)) (snd url)
              HTTPRequestTimeoutLong) as [ret data] eqn:Hreq.
  simpl. split; [| split].
  - intros Hok. rewrite Hok, Z.eqb_refl. simpl.
    repeat (next_test; simpl; try reflexivity).
  - intros Hok Hst Hsearch. rewrite Hok, Z.eqb_refl. simpl.
    rewrite Hst. simpl. rewrite Hsearch. simpl. rewrite Z.eqb_refl. simpl.
    destruct (snd (xml_status data)); split; reflexivity.
  - intros Hne. apply Z.eqb_neq in Hne. rewrite Hne. simpl.
    split; reflexivity.
Qed.


Lemma snprintf_fits (size : nat) (text : string) :
  (String.length text < size)%nat -> snprintf size text = text.
Proof.
  intros H. unfold snprintf. apply Nat.ltb_lt in H. rewrite H. reflexivity.
Qed.

Lemma gate_passed (w : World) :
  height (w_config w) < 2160 \/ supports4K (w_server w) = true ->
  (2160 <=? height (w_config w)) && negb (supports4K (w_server w)) = false.
Proof.
  intros [Hh | Hs].
  - apply Z.leb_gt in Hh. rewrite Hh. reflexivity.
  - rewrite Hs. apply andb_false_r.
Qed.

(** Past the 4K gate [gs_start_app] hands exactly one request to the
    transport: the one [start_app_request] builds. *)
Lemma gs_start_app_trace (appId : Z) (sops localaudio : bool)
  (gamepad_mask : Z) (w : World) :
  height (w_config w) < 2160 \/ supports4K (w_server w) = true ->
  let url :=
    start_app_request (w_server w) (w_config w) appId sops localaudio
      gamepad_mask (random_bytes (w_draws w) 16) 0 in
  w_trace (snd (gs_start_app appId sops localaudio gamepad_mask w)) =
  (w_trace w ++ [mkRequest (fst url) (snd url) HTTPRequestTimeoutLong])%list.
Proof.
  intros Hgate url. apply gate_passed in Hgate.
  unfold gs_start_app. unfold_ops. simpl. rewrite Hgate. simpl. fold url.
  destruct (http_request (map req_url (w_trace w)) (snd url)
              HTTPRequestTimeoutLong) as [ret data].
  simpl. repeat (next_test; simpl; try reflexivity).
Qed.

Lemma issued_app (w w' : World) (l : list Request) :
  w_trace w' = (w_trace w ++ l)%list -> issued w w' = l.
Proof.
  intros H. unfold issued. rewrite H, skipn_app, skipn_all, Nat.sub_diag.
  reflexivity.
Qed.

Lemma string_app_assoc (a b c : string) :
  ((a ++ b) ++ c = a ++ (b ++ c))%string.
Proof. induction a as [| x a IH]; simpl; [| rewrite IH]; reflexivity. Qed.

(** A text that has [needle] in it somewhere. *)
Lemma substring_here (needle post : string) :
  substring 0 (String.length needle) (needle ++ post) = needle.
Proof.
  induction needle as [| c needle IH]; simpl.
  - destruct post; reflexivity.
  - rewrite IH. reflexivity.
Qed.

Lemma substring_middle (pre needle post : string) :
  substring (String.length pre) (String.length needle)
    (pre ++ needle ++ post) = needle.
Proof.
  induction pre as [| c pre IH]; simpl.
  - apply substring_here.
  - exact IH.
Qed.

Lemma contains_middle (text pre needle post : string) :
  text = (pre ++ needle ++ post)%string -> needle <> "" ->
  contains needle text = true.
Proof.
  intros -> Hne. unfold contains.
  destruct (index 0 needle (pre ++ needle ++ post)) eqn:E; [reflexivity |].
  exfalso.
  apply (index_correct3 0 (String.length pre) _ _ E Hne (Nat.le_0_l _)).
  apply substring_middle.
Qed.

(** C6.  Past the 4K gate [gs_start_app] issues one request, and its URL is
    what [snprintf] leaves of the formatted text in the 4096-byte buffer.
    When the text fits the buffer: with [currentGame == 0] the request is a
    launch and its URL is the whole text of the format, so it has
    [&appid=<appId>&mode=<W>x<H>x<F>&] in it, where F is 60 when [sops] holds
    and [config->fps > 60], and [config->fps] otherwise; with
    [currentGame != 0] it is a resume, its URL is the whole text of the
    format, with [&rikey=<hex>&rikeyid=0] in it, and the request is the same
    whatever [appId] is. *)
Theorem gs_start_app_launch_or_resume (appId : Z) (sops localaudio : bool)
  (gamepad_mask : Z) (w : World) :
  height (w_config w) < 2160 \/ supports4K (w_server w) = true ->
  let server := w_server w in
  let config := w_config w in
  let rand := random_bytes (w_draws w) 16 in
  let run := gs_start_app appId sops localaudio gamepad_mask w in
  (currentGame server = 0 ->
   exists F : Z,
     (sops = true /\ 60 < fps config -> F = 60) /\
     (sops = false \/ fps config <= 60 -> F = fps config) /\
     let text :=
       "https://" ++ si_address (serverInfo server) ++ ":" ++
       fmt_u (httpsPort server) ++ "/launch?uniqueid=" ++ unique_id ++
       "&appid=" ++ fmt_d appId ++
       "&mode=" ++ fmt_d (width config) ++ "x" ++ fmt_d (height config) ++
       "x" ++ fmt_d F ++
       "&additionalStates=1&sops=" ++ fmt_b sops ++
       "&rikey=" ++ hex rand ++ "&rikeyid=0" ++
       "&localAudioPlayMode=" ++ fmt_b localaudio ++
       "&surroundAudioInfo=" ++
       fmt_d (if audioConfiguration config =? AUDIO_CONFIGURATION_STEREO
              then Z.shiftl CHANNEL_MASK_STEREO 16 + CHANNEL_COUNT_STEREO
              else Z.shiftl CHANNEL_MASK_51_SURROUND 16 +
                   CHANNEL_COUNT_51_SURROUND) ++
       "&remoteControllersBitmap=" ++ fmt_d gamepad_mask ++
       "&gcmap=" ++ fmt_d gamepad_mask ++ LiGetLaunchUrlQueryParameters in
     issued w (snd run) =
       [mkRequest Launch (snprintf url_size text) HTTPRequestTimeoutLong] /\
     ((String.length text < url_size)%nat ->
      issued w (snd run) = [mkRequest Launch text HTTPRequestTimeoutLong] /\
      contains
        ("&appid=" ++ fmt_d appId ++
         "&mode=" ++ fmt_d (width config) ++ "x" ++ fmt_d (height config) ++
         "x" ++ fmt_d F ++ "&") text = true)) /\
  (currentGame server <> 0 ->
   let text :=
     "https://" ++ si_address (serverInfo server) ++ ":" ++
     fmt_u (httpsPort server) ++ "/resume?uniqueid=" ++ unique_id ++
     "&rikey=" ++ hex rand ++ "&rikeyid=0" ++
     LiGetLaunchUrlQueryParameters in
   issued w (snd run) =
     [mkRequest Resume (snprintf url_size text) HTTPRequestTimeoutLong] /\
   ((String.length text < url_size)%nat ->
    issued w (snd run) = [mkRequest Resume text HTTPRequestTimeoutLong] /\
    contains ("&rikey=" ++ hex rand ++ "&rikeyid=0") text = true) /\
   forall appId' : Z,
     issued w (snd (gs_start_app appId' sops localaudio gamepad_mask w)) =
     issued w (snd run)).
Proof.
  intros Hgate server config rand run. split.
  - intros Hidle. exists (launch_fps config sops).
    split; [| split].
    + intros [Hs Hf]. unfold launch_fps. rewrite Hs.
      apply Z.ltb_lt in Hf. rewrite Hf. reflexivity.
    + intros [Hs | Hf]; unfold launch_fps.
      * rewrite Hs. reflexivity.
      * apply Z.ltb_ge in Hf. rewrite Hf, andb_false_r. reflexivity.
    + intros text.
      assert (Hrun : issued w (snd run) =
                [mkRequest Launch (snprintf url_size text)
                   HTTPRequestTimeoutLong]).
      { apply issued_app. subst run.
        rewrite (gs_start_app_trace _ _ _ _ _ Hgate).
        unfold start_app_request. fold server. rewrite Hidle. simpl.
        unfold launch_text. fold server config rand.
        subst text.
        destruct (audioConfiguration config =? AUDIO_CONFIGURATION_STEREO);
          reflexivity. }
      split; [exact Hrun |].
      intros Hfit. split.
      * rewrite Hrun, (snprintf_fits _ _ Hfit). reflexivity.
      * apply (contains_middle text
                 ("https://" ++ si_address (serverInfo server) ++ ":" ++
                  fmt_u (httpsPort server) ++ "/launch?uniqueid=" ++
                  unique_id)
                 ("&appid=" ++ fmt_d appId ++
                  "&mode=" ++ fmt_d (width config) ++ "x" ++
                  fmt_d (height config) ++ "x" ++
                  fmt_d (launch_fps config sops) ++ "&")
                 ("additionalStates=1&sops=" ++ fmt_b sops ++
                  "&rikey=" ++ hex rand ++ "&rikeyid=0" ++
                  "&localAudioPlayMode=" ++ fmt_b localaudio ++
                  "&surroundAudioInfo=" ++
                  fmt_d (if audioConfiguration config
                            =? AUDIO_CONFIGURATION_STEREO
                         then Z.shiftl CHANNEL_MASK_STEREO 16 +
                              CHANNEL_COUNT_STEREO
                         else Z.shiftl CHANNEL_MASK_51_SURROUND 16 +
                              CHANNEL_COUNT_51_SURROUND) ++
                  "&remoteControllersBitmap=" ++ fmt_d gamepad_mask ++
                  "&gcmap=" ++ fmt_d gamepad_mask ++
                  LiGetLaunchUrlQueryParameters));
          [| discriminate].
        subst text. rewrite !string_app_assoc. reflexivity.
  - intros Hbusy text. apply Z.eqb_neq in Hbusy.
    assert (Hrun : forall appId' : Z,
              issued w
                (snd (gs_start_app appId' sops localaudio gamepad_mask w)) =
              [mkRequest Resume (snprintf url_size text)
                 HTTPRequestTimeoutLong]).
    { intros appId'. apply issued_app.
      rewrite (gs_start_app_trace _ _ _ _ _ Hgate).
      unfold start_app_request. fold server. rewrite Hbusy. simpl.
      unfold resume_text. fold server rand. reflexivity. }
    split; [exact (Hrun appId) |]. split.
    + intros Hfit. split.
      * subst run. rewrite Hrun, (snprintf_fits _ _ Hfit). reflexivity.
      * apply (contains_middle text
                 ("https://" ++ si_address (serverInfo server) ++ ":" ++
                  fmt_u (httpsPort server) ++ "/resume?uniqueid=" ++
                  unique_id)
                 ("&rikey=" ++ hex rand ++ "&rikeyid=0")
                 LiGetLaunchUrlQueryParameters); [| discriminate].
        subst text. rewrite !string_app_assoc. reflexivity.
    + intros appId'. subst run. rewrite !Hrun. reflexivity.
Qed.


(** Every call of [load_serverinfo] is one exchange with the host. *)
Lemma load_serverinfo_trace (https : bool) (w : World) :
  w_trace (snd (load_serverinfo https w)) =
  (w_trace w ++
   [mkRequest (Serverinfo https) (serverinfo_url (w_server w) https)
      HTTPRequestTimeoutLow])%list.
Proof.
  unfold load_serverinfo. unfold_ops. simpl.
  repeat (next_test; simpl; try reflexivity).
Qed.

(** A call of [load_serverinfo] that does not return [GS_OK] has not
    assigned any of the decision fields. *)
Lemma load_serverinfo_frame (https : bool) (w : World) :
  fst (load_serverinfo https w) <> GS_OK ->
  same_decisions (w_server (snd (load_serverinfo https w))) (w_server w).
Proof.
  unfold load_serverinfo, same_decisions. unfold_ops. simpl.
  repeat (next_test; simpl; try (intros _; repeat split; reflexivity));
    intros H; exfalso; apply H; reflexivity.
Qed.


(** The loop of [load_server_status] ends within its two rounds: more fuel
    than that changes nothing. *)
Lemma serverinfo_attempts_fuel (n : nat) (ret : Z) (w : World) :
  serverinfo_attempts (2 + n) 0 ret w = serverinfo_attempts 2 0 ret w.
Proof.
  simpl. destruct (negb (ret =? GS_OK)); [| reflexivity].
  unfold bind, call. destruct (load_serverinfo true w) as [r1 w1].
  destruct (negb (r1 =? GS_OK)); [| destruct n; reflexivity].
  destruct (load_serverinfo false w1) as [r2 w2]. destruct n; reflexivity.
Qed.

(** The version check issues nothing and falls through. *)
Lemma check_version_run (ret : Z) (w : World) :
  exists r w',
    check_version ret w = (Next r, w') /\ w_trace w' = w_trace w /\
    w_server w' = w_server w /\ (ret <> GS_OK -> r = ret).
Proof.
  unfold check_version. unfold_ops.
  destruct (ret =? GS_OK) eqn:E; simpl.
  - apply Z.eqb_eq in E.
    repeat next_test; eexists; eexists; repeat split; congruence.
  - eexists; eexists; repeat split.
Qed.

(** [load_server_status], call by call. *)
Lemma load_server_status_run (w : World) :
  GS_INVALID <> GS_OK ->
  load_server_status w =
  let learn := (httpsPort (w_server w) =? 0) in
  let first := load_serverinfo false w in
  if learn && negb (fst first =? GS_OK) then first
  else
    let second := load_serverinfo true (if learn then snd first else w) in
    let last :=
      if fst second =? GS_OK then second
      else load_serverinfo false (snd second) in
    body (check_version (fst last)) (snd last).
Proof.
  intros Hinv. apply Z.eqb_neq in Hinv.
  unfold load_server_status, body, bind, get_server, when, call, pure, leave.
  unfold serverinfo_attempts, bind, call, pure. rewrite Hinv.
  change (0 <? 2) with true. change (0 + 1 <? 2) with true.
  change (0 =? 0) with true. change (0 + 1 =? 0) with false.
  change (0 + 1 + 1 <? 2) with false.
  cbv beta iota zeta. cbn [andb negb].
  destruct (httpsPort (w_server w) =? 0).
  - destruct (load_serverinfo false w) as [r1 wa]. cbn [fst snd andb].
    destruct (r1 =? GS_OK); cbn [negb]; cbv iota; [| reflexivity].
    destruct (load_serverinfo true wa) as [r2 wb]. cbn [fst snd].
    destruct (r2 =? GS_OK); cbn [negb]; cbv iota.
    + cbn [fst snd].
      destruct (check_version r2 wb) as [[r | r] wc]; reflexivity.
    + destruct (load_serverinfo false wb) as [r3 wc]. cbn [fst snd].
      destruct (check_version r3 wc) as [[r | r] wd]; reflexivity.
  - cbn [andb]. cbv iota.
    destruct (load_serverinfo true w) as [r2 wb]. cbn [fst snd].
    destruct (r2 =? GS_OK); cbn [negb]; cbv iota.
    + cbn [fst snd].
      destruct (check_version r2 wb) as [[r | r] wc]; reflexivity.
    + destruct (load_serverinfo false wb) as [r3 wc]. cbn [fst snd].
      destruct (check_version r3 wc) as [[r | r] wd]; reflexivity.
Qed.

Lemma checked_trace (last : Z * World) :
  w_trace (snd (body (check_version (fst last)) (snd last))) =
  w_trace (snd last).
Proof.
  unfold body.
  destruct (check_version_run (fst last) (snd last))
    as (r & w' & -> & Ht & _).
  exact Ht.
Qed.

(** C5.  [load_server_status] first asks over HTTP when [httpsPort] is 0
    and returns what that call returned at once when it fails; then it asks
    over HTTPS and, only when that did not return [GS_OK], over HTTP.  These
    are all its requests: at most three, each a serverinfo exchange. *)
Theorem load_server_status_exchanges (w : World) :
  GS_INVALID <> GS_OK ->
  let learn := (httpsPort (w_server w) =? 0) in
  let first := load_serverinfo false w in
  let second := load_serverinfo true (if learn then snd first else w) in
  let run := load_server_status w in
  map req_by (issued w (snd run)) =
    ((if learn then [Serverinfo false] else []) ++
     (if learn && negb (fst first =? GS_OK) then []
      else Serverinfo true ::
           (if fst second =? GS_OK then [] else [Serverinfo false])))%list /\
  (learn = true -> fst first <> GS_OK -> run = first) /\
  (List.length (issued w (snd run)) <= 3)%nat.
Proof.
  intros Hinv learn first second run.
  assert (Hshape :
    map req_by (issued w (snd run)) =
    ((if learn then [Serverinfo false] else []) ++
     (if learn && negb (fst first =? GS_OK) then []
      else Serverinfo true ::
           (if fst second =? GS_OK then [] else [Serverinfo false])))%list /\
    (learn = true -> fst first <> GS_OK -> run = first)).
  { subst run. rewrite (load_server_status_run w Hinv).
    cbv zeta. fold learn first second.
    pose proof (load_serverinfo_trace false w) as Ht1. fold first in Ht1.
    pose proof (load_serverinfo_trace true (if learn then snd first else w))
      as Ht2. fold second in Ht2.
    pose proof (load_serverinfo_trace false (snd second)) as Ht3.
    destruct learn; cbn [andb app].
    - destruct (fst first =? GS_OK) eqn:Hr1; cbn [negb].
      + split; [| intros _ Hne; apply Z.eqb_eq in Hr1; contradiction].
        destruct (fst second =? GS_OK).
        * erewrite issued_app;
            [| rewrite checked_trace, Ht2, Ht1, <- app_assoc; reflexivity].
          reflexivity.
        * erewrite issued_app;
            [| rewrite checked_trace, Ht3, Ht2, Ht1, <- !app_assoc;
               reflexivity].
          reflexivity.
      + split; [| reflexivity].
        erewrite issued_app; [| exact Ht1]. reflexivity.
    - split; [| discriminate].
      destruct (fst second =? GS_OK).
      + erewrite issued_app; [| rewrite checked_trace, Ht2; reflexivity].
        reflexivity.
      + erewrite issued_app;
          [| rewrite checked_trace, Ht3, Ht2, <- !app_assoc; reflexivity].
        reflexivity. }
  destruct Hshape as [Hshape Hfail]. split; [exact Hshape |].
  split; [exact Hfail |].
  rewrite <- (length_map req_by), Hshape.
  destruct learn; destruct (negb (fst first =? GS_OK));
    destruct (fst second =? GS_OK); simpl; lia.
Qed.


(** *** The parts of [gs_pair] *)

Lemma return_cleanup_run {A : Type} (ret : Z) (w : World) :
  @return_cleanup _ _ A ret w =
  (Return ret,
   if ret =? GS_OK then w
   else record Unpair (unpair_url (w_server w)) HTTPRequestTimeoutLow w).
Proof.
  unfold return_cleanup, gs_pair_cleanup, gs_unpair. unfold_ops. simpl.
  destruct (ret =? GS_OK); simpl; [reflexivity |].
  destruct (http_request _ _ _); reflexivity.
Qed.

Lemma request_or_cleanup_run (stage : nat) (url : string) (w : World) :
  request_or_cleanup stage url w =
  let answer :=
    http_request (map req_url (w_trace w)) url HTTPRequestTimeoutLong in
  let w' := record (Pair stage) url HTTPRequestTimeoutLong w in
  if fst answer =? GS_OK then (Next (snd answer), w')
  else (Return (fst answer),
        record Unpair (unpair_url (w_server w)) HTTPRequestTimeoutLow w').
Proof.
  unfold request_or_cleanup. unfold bind at 1. unfold request at 1.
  cbv zeta.
  destruct (http_request _ _ _) as [ret data]. cbn [fst snd].
  unfold bind, when.
  destruct (ret =? GS_OK) eqn:E; cbn [negb]; [reflexivity |].
  rewrite return_cleanup_run, E. reflexivity.
Qed.

Lemma validate_or_cleanup_run (data : Data) (w : World) :
  validate_or_cleanup data w =
  let v :=
    if negb (ne (fst (xml_status data)) GS_OK =? 0)
    then (ne (fst (xml_status data)) GS_OK, "")
    else xml_search data "paired" "" in
  if ne (fst v) GS_OK =? 0 then (Next (snd v), heard data w)
  else (Return (ne (fst v) GS_OK),
        if ne (fst v) GS_OK =? GS_OK then heard data w
        else record Unpair (unpair_url (w_server (heard data w)))
               HTTPRequestTimeoutLow (heard data w)).
Proof.
  unfold validate_or_cleanup, gs_pair_validate.
  unfold bind at 1. unfold bind at 1. unfold status at 1. cbv zeta.
  destruct (negb (ne (fst (xml_status data)) GS_OK =? 0)).
  - unfold pure at 1. cbn [fst snd]. unfold bind, when.
    destruct (ne (ne (fst (xml_status data)) GS_OK) GS_OK =? 0);
      cbn [negb]; [reflexivity |].
    rewrite return_cleanup_run. reflexivity.
  - unfold pure at 1. destruct (xml_search data "paired" "") as [c result].
    cbn [fst snd]. unfold bind, when.
    destruct (ne c GS_OK =? 0); cbn [negb]; [reflexivity |].
    rewrite return_cleanup_run. reflexivity.
Qed.


Lemma unpair_calls_app (l l' : list Request) :
  unpair_calls (l ++ l') = (unpair_calls l + unpair_calls l')%nat.
Proof. unfold unpair_calls. rewrite filter_app, length_app. reflexivity. Qed.

Lemma went_on_refl (w : World) : went_on w w.
Proof.
  split; [reflexivity |]. exists []. rewrite app_nil_r. split; reflexivity.
Qed.

Lemma went_on_trans (w w1 w2 : World) :
  went_on w w1 -> went_on w1 w2 -> went_on w w2.
Proof.
  intros [Hs1 (l1 & Ht1 & Hu1)] [Hs2 (l2 & Ht2 & Hu2)].
  split; [congruence |]. exists (l1 ++ l2)%list. split.
  - rewrite Ht2, Ht1, app_assoc. reflexivity.
  - rewrite unpair_calls_app, Hu1, Hu2. reflexivity.
Qed.

Lemma cleaned_up_later (w w1 w2 : World) (r : Z) :
  went_on w w1 -> cleaned_up w1 w2 r -> cleaned_up w w2 r.
Proof.
  intros [Hs1 (l1 & Ht1 & Hu1)] (Hr & Hs2 & l2 & Ht2 & Hu2).
  split; [exact Hr |]. split; [congruence |].
  exists (l1 ++ l2)%list. split.
  - rewrite Ht2, Ht1, Hs1, <- !app_assoc. reflexivity.
  - rewrite unpair_calls_app, Hu1, Hu2. reflexivity.
Qed.

Lemma step_bind {A B : Type} (m : Op A) (k : A -> Op B) :
  pairing_step m -> (forall a, pairing_step (k a)) -> pairing_step (bind m k).
Proof.
  intros Hm Hk w. unfold bind. specialize (Hm w).
  destruct (m w) as [[a | r] w1]; [| exact Hm].
  specialize (Hk a w1). destruct (k a w1) as [[b | r] w2].
  - eapply went_on_trans; eassumption.
  - eapply cleaned_up_later; eassumption.
Qed.

Lemma step_pure {A : Type} (a : A) : pairing_step (pure a).
Proof. intros w. apply went_on_refl. Qed.

Lemma step_get_server : pairing_step get_server.
Proof. intros w. apply went_on_refl. Qed.

Lemma step_random (n : Z) : pairing_step (random n).
Proof.
  intros w. split; [reflexivity |]. exists []. simpl. rewrite app_nil_r.
  split; reflexivity.
Qed.

Lemma step_gs_set_error (e : string) : pairing_step (gs_set_error e).
Proof.
  intros w. split; [reflexivity |]. exists []. simpl. rewrite app_nil_r.
  split; reflexivity.
Qed.

Lemma step_when (c : bool) (m : Op unit) :
  pairing_step m -> pairing_step (when c m).
Proof. intros H. destruct c; [exact H | apply step_pure]. Qed.

Lemma heard_went_on (data : Data) (w : World) : went_on w (heard data w).
Proof.
  unfold heard. destruct (snd (xml_status data)); [| apply went_on_refl].
  split; [reflexivity |]. exists []. simpl. rewrite app_nil_r.
  split; reflexivity.
Qed.

Lemma unpair_cleans_up (w : World) (r : Z) :
  r <> GS_OK ->
  cleaned_up w
    (record Unpair (unpair_url (w_server w)) HTTPRequestTimeoutLow w) r.
Proof.
  intros Hr. split; [exact Hr |]. split; [reflexivity |].
  exists []. split; reflexivity.
Qed.

Lemma step_return_cleanup {A : Type} (r : Z) :
  r <> GS_OK -> pairing_step (@return_cleanup _ _ A r).
Proof.
  intros Hr w. rewrite return_cleanup_run.
  apply Z.eqb_neq in Hr. rewrite Hr. apply unpair_cleans_up.
  apply Z.eqb_neq. exact Hr.
Qed.

Lemma record_pair_went_on (stage : nat) (url : string) (w : World) :
  went_on w (record (Pair stage) url HTTPRequestTimeoutLong w).
Proof.
  split; [reflexivity |]. eexists. split; reflexivity.
Qed.

Lemma step_request_or_cleanup (stage : nat) (url : string) :
  pairing_step (request_or_cleanup stage url).
Proof.
  intros w. rewrite request_or_cleanup_run. cbv zeta.
  destruct (fst (http_request _ _ _) =? GS_OK) eqn:E.
  - apply record_pair_went_on.
  - eapply cleaned_up_later; [apply record_pair_went_on |].
    apply (unpair_cleans_up (record (Pair stage) url HTTPRequestTimeoutLong w)).
    apply Z.eqb_neq. exact E.
Qed.

Lemma ne_cases (a b : Z) : ne a b = 0 \/ ne a b = 1.
Proof. unfold ne. destruct (a =? b); auto. Qed.

Lemma step_validate_or_cleanup (data : Data) :
  conventional codes -> pairing_step (validate_or_cleanup data).
Proof.
  intros Hc w. rewrite validate_or_cleanup_run. cbv zeta.
  set (v := if negb (ne (fst (xml_status data)) GS_OK =? 0) then _ else _).
  destruct (ne_cases (fst v) GS_OK) as [E | E]; rewrite E.
  - apply heard_went_on.
  - assert (H1 : 1 <> GS_OK) by (destruct Hc as [-> _]; discriminate).
    change (1 =? 0) with false. cbv iota.
    destruct (1 =? GS_OK) eqn:E1; [apply Z.eqb_eq in E1; contradiction |].
    eapply cleaned_up_later; [apply heard_went_on |].
    apply unpair_cleans_up. exact H1.
Qed.


Lemma when_failed_cleanup (c : Z) (r : Z) :
  r <> GS_OK ->
  pairing_step (when (negb (c =? GS_OK)) (@return_cleanup _ _ unit r)).
Proof. intros Hr. apply step_when, step_return_cleanup, Hr. Qed.

Lemma when_failed_cleanup_same (c : Z) :
  pairing_step (when (negb (c =? GS_OK)) (@return_cleanup _ _ unit c)).
Proof.
  destruct (c =? GS_OK) eqn:E; [apply step_pure |].
  apply step_return_cleanup, Z.eqb_neq, E.
Qed.

Create HintDb pairing.

#[local] Hint Resolve step_pure step_get_server step_random step_gs_set_error
  step_request_or_cleanup step_validate_or_cleanup when_failed_cleanup
  when_failed_cleanup_same : pairing.

Ltac steps :=
  repeat (lazymatch goal with
          | |- pairing_step (bind _ _) =>
              apply step_bind; [auto with pairing | intro]
          end);
  auto with pairing.

Lemma conventional_invalid : conventional codes -> GS_INVALID <> GS_OK.
Proof. intros (-> & _ & H & _). lia. Qed.

Lemma conventional_failed : conventional codes -> GS_FAILED <> GS_OK.
Proof. intros (-> & H & _). lia. Qed.

Lemma step_stage1 (pin : string) :
  conventional codes -> pairing_step (gs_pair_stage1 pin).
Proof. intros Hc. unfold gs_pair_stage1. steps. Qed.

Lemma step_stage2 (s1 : Stage1) :
  conventional codes -> pairing_step (gs_pair_stage2 s1).
Proof.
  intros Hc. pose proof (conventional_invalid Hc).
  unfold gs_pair_stage2. steps.
Qed.

Lemma step_stage3 (s2 : Stage2) :
  conventional codes -> pairing_step (gs_pair_stage3 s2).
Proof.
  intros Hc. pose proof (conventional_invalid Hc).
  unfold gs_pair_stage3. steps.
Qed.

Lemma step_stage4 (s2 : Stage2) (s3 : Stage3) :
  conventional codes -> pairing_step (gs_pair_stage4 s2 s3).
Proof.
  intros Hc. pose proof (conventional_failed Hc).
  unfold gs_pair_stage4. steps.
  apply step_when. steps. apply step_return_cleanup. assumption.
Qed.

Lemma end_bind {A : Type} (m : Op A) (k : A -> Op Z) :
  pairing_step m -> (forall a, pairing_end (k a)) -> pairing_end (bind m k).
Proof.
  intros Hm Hk w. unfold bind. specialize (Hm w).
  destruct (m w) as [[a | r] w1]; [| left; exact Hm].
  specialize (Hk a w1).
  assert (Hjoin : forall r w2,
            cleaned_up w1 w2 r \/ now_paired w1 w2 r ->
            cleaned_up w w2 r \/ now_paired w w2 r).
  { intros r w2 [Hf | (Hr & Hs & l & Ht & Hu)].
    - left. eapply cleaned_up_later; eassumption.
    - right. destruct Hm as [Hs1 (l1 & Ht1 & Hu1)].
      split; [exact Hr |]. split; [congruence |].
      exists (l1 ++ l)%list. split.
      + rewrite Ht, Ht1, app_assoc. reflexivity.
      + rewrite unpair_calls_app, Hu1, Hu. reflexivity. }
  destruct (k a w1) as [[r | r] w2]; apply Hjoin; exact Hk.
Qed.

Lemma end_stage5 : conventional codes -> pairing_end gs_pair_stage5.
Proof.
  intros Hc w. unfold gs_pair_stage5. unfold bind at 1. unfold get_server.
  unfold bind at 1. rewrite request_or_cleanup_run. cbv zeta.
  destruct (fst (http_request _ _ _) =? GS_OK) eqn:E.
  - unfold bind at 1. rewrite validate_or_cleanup_run. cbv zeta.
    set (w1 := record (Pair 5) _ _ w).
    match goal with
    | |- context [ne (fst ?v) GS_OK] =>
        destruct (ne_cases (fst v) GS_OK) as [E1 | E1]; rewrite E1
    end.
    + change (0 =? 0) with true. cbv iota. unfold bind, update_server.
      rewrite return_cleanup_run.
      destruct Hc as [Hok _]. rewrite Hok. change (0 =? 0) with true.
      cbv iota. right. split; [symmetry; exact Hok |].
      pose proof (heard_went_on
                    (snd (http_request (map req_url (w_trace w))
                            (pair_url5 (w_server w)) HTTPRequestTimeoutLong))
                    w1) as [Hs (l & Ht & Hu)].
      cbn [w_server w_trace]. split; [rewrite Hs; reflexivity |].
      exists ([mkRequest (Pair 5) (pair_url5 (w_server w))
                 HTTPRequestTimeoutLong] ++ l)%list.
      split; [rewrite Ht; unfold w1, record; cbn [w_trace];
              rewrite app_assoc; reflexivity |].
      rewrite unpair_calls_app, Hu. reflexivity.
    + change (1 =? 0) with false. cbv iota. left.
      assert (H1 : 1 <> GS_OK) by (destruct Hc as [-> _]; discriminate).
      destruct (1 =? GS_OK) eqn:E2; [apply Z.eqb_eq in E2; contradiction |].
      eapply cleaned_up_later; [apply record_pair_went_on |].
      eapply cleaned_up_later; [apply heard_went_on |].
      apply unpair_cleans_up. exact H1.
  - left. eapply cleaned_up_later; [apply record_pair_went_on |].
    apply (unpair_cleans_up (record (Pair 5) _ HTTPRequestTimeoutLong w)).
    apply Z.eqb_neq. exact E.
Qed.

(** Past its two state checks [gs_pair] is its five stages in a row. *)
Lemma gs_pair_past_checks (pin : string) (w : World) :
  paired (w_server w) = false ->
  currentGame (w_server w) = 0 ->
  gs_pair pin w =
  body (s1 <- gs_pair_stage1 pin ;;
        s2 <- gs_pair_stage2 s1 ;;
        s3 <- gs_pair_stage3 s2 ;;
        gs_pair_stage4 s2 s3 ;;
        gs_pair_stage5) w.
Proof.
  intros Hp Hg. unfold gs_pair, body, bind, get_server, when.
  rewrite Hp, Hg. reflexivity.
Qed.

(** Past its two state checks [gs_pair] either fails and cleans up with one
    final unpair, or returns [GS_OK] with the descriptor set to paired and
    no unpair at all. *)
Lemma gs_pair_outcome (pin : string) (w : World) :
  conventional codes ->
  paired (w_server w) = false ->
  currentGame (w_server w) = 0 ->
  cleaned_up w (snd (gs_pair pin w)) (fst (gs_pair pin w)) \/
  now_paired w (snd (gs_pair pin w)) (fst (gs_pair pin w)).
Proof.
  intros Hc Hp Hg. rewrite (gs_pair_past_checks pin w Hp Hg).
  assert (Hend : pairing_end
            (s1 <- gs_pair_stage1 pin ;;
             s2 <- gs_pair_stage2 s1 ;;
             s3 <- gs_pair_stage3 s2 ;;
             gs_pair_stage4 s2 s3 ;;
             gs_pair_stage5)).
  { apply end_bind; [apply step_stage1, Hc | intros s1].
    apply end_bind; [apply step_stage2, Hc | intros s2].
    apply end_bind; [apply step_stage3, Hc | intros s3].
    apply end_bind; [apply step_stage4, Hc | intros _].
    apply end_stage5, Hc. }
  specialize (Hend w). unfold body.
  destruct (bind (gs_pair_stage1 pin) _ w) as [[r | r] w']; exact Hend.
Qed.

Lemma heard_server (data : Data) (w : World) :
  w_server (heard data w) = w_server w.
Proof. unfold heard. destruct (snd (xml_status data)); reflexivity. Qed.

Lemma heard_trace (data : Data) (w : World) :
  w_trace (heard data w) = w_trace w.
Proof. unfold heard. destruct (snd (xml_status data)); reflexivity. Qed.

Lemma heard_draws (data : Data) (w : World) :
  w_draws (heard data w) = w_draws w.
Proof. unfold heard. destruct (snd (xml_status data)); reflexivity. Qed.

(** What is known when stage #1 went on to stage #2. *)
Lemma stage1_next (pin : string) (w : World) (s1 : Stage1) (w1 : World) :
  gs_pair_stage1 pin w = (Next s1, w1) ->
  salted_pin s1 = append (random_bytes (w_draws w) 16) pin /\
  w_server w1 = w_server w /\
  w_draws w1 = S (w_draws w) /\
  w_trace w1 =
    (w_trace w ++
     [mkRequest (Pair 1)
        (pair_url1 (w_server w) (random_bytes (w_draws w) 16))
        HTTPRequestTimeoutLong])%list.
Proof.
  unfold gs_pair_stage1. unfold bind at 1. unfold get_server.
  unfold bind at 1. unfold random. unfold bind at 1.
  rewrite request_or_cleanup_run. cbv zeta.
  destruct (fst (http_request _ _ _) =? GS_OK); [| discriminate].
  unfold bind at 1. rewrite validate_or_cleanup_run. cbv zeta.
  destruct (ne (fst _) GS_OK =? 0); [| discriminate].
  unfold bind, when.
  destruct (negb (fst (xml_search _ "plaincert" _) =? GS_OK)).
  - rewrite return_cleanup_run. discriminate.
  - unfold pure. intros H. inversion H; subst; clear H. cbn [salted_pin].
    rewrite heard_server, heard_draws, heard_trace.
    repeat split.
Qed.

(** What is known when stage #2 went on to stage #3. *)
Lemma stage2_next (s1 : Stage1) (w1 : World) (s2 : Stage2) (w2 : World) :
  gs_pair_stage2 s1 w1 = (Next s2, w2) ->
  plainCert s2 = result1 s1 /\
  aesKey s2 = fst (key_and_hash_length (w_server w1) (salted_pin s1)) /\
  hashLength s2 = snd (key_and_hash_length (w_server w1) (salted_pin s1)) /\
  randomChallenge s2 = random_bytes (w_draws w1) 16 /\
  w_server w2 = w_server w1 /\
  w_draws w2 = S (w_draws w1) /\
  w_trace w2 =
    (w_trace w1 ++
     [mkRequest (Pair 2)
        (pair_url2 (w_server w1)
           (aes_encrypt (random_bytes (w_draws w1) 16)
              (fst (key_and_hash_length (w_server w1) (salted_pin s1)))))
        HTTPRequestTimeoutLong])%list.
Proof.
  unfold gs_pair_stage2. unfold bind at 1. unfold get_server.
  unfold bind at 1. unfold random. unfold bind at 1.
  rewrite request_or_cleanup_run. cbv zeta.
  destruct (fst (http_request _ _ _) =? GS_OK); [| discriminate].
  unfold bind at 1. rewrite validate_or_cleanup_run. cbv zeta.
  destruct (ne (fst _) GS_OK =? 0); [| discriminate].
  unfold bind, when.
  destruct (negb (fst (xml_search _ "challengeresponse" _) =? GS_OK)).
  - rewrite return_cleanup_run. discriminate.
  - unfold pure. intros H. inversion H; subst; clear H.
    cbn [plainCert aesKey hashLength randomChallenge].
    rewrite heard_server, heard_draws, heard_trace.
    repeat split.
Qed.

(** The request of stage #3, whether or not the stage goes on, and its
    locals when it does. *)
Lemma stage3_run (s2 : Stage2) (w2 : World) (o3 : Flow Stage3) (w3 : World) :
  gs_pair_stage3 s2 w2 = (o3, w3) ->
  let decoded := aes_decrypt (hex_to_bytes (result2 s2)) (aesKey s2) in
  let secret := random_bytes (w_draws w2) 16 in
  let hash :=
    hash_data (w_server w2)
      (append
         (append (subdata decoded (hashLength s2) 16) (signature cert_data))
         secret) in
  let asked :=
    mkRequest (Pair 3)
      (pair_url3 (w_server w2) (aes_encrypt hash (aesKey s2)))
      HTTPRequestTimeoutLong in
  (exists rest : list Request,
     w_trace w3 = (w_trace w2 ++ asked :: rest)%list) /\
  forall s3 : Stage3,
    o3 = Next s3 ->
    serverResponse s3 = subdata decoded 0 (hashLength s2) /\
    serverChallenge s3 = subdata decoded (hashLength s2) 16 /\
    clientSecret s3 = secret /\
    challengeRespHash s3 = hash /\
    w_server w3 = w_server w2 /\
    w_trace w3 = (w_trace w2 ++ [asked])%list.
Proof.
  unfold gs_pair_stage3. unfold bind at 1. unfold get_server.
  unfold bind at 1. unfold random. unfold bind at 1.
  rewrite request_or_cleanup_run. cbv zeta.
  set (url := pair_url3 _ _).
  destruct (fst (http_request _ _ _) =? GS_OK).
  - unfold bind at 1. rewrite validate_or_cleanup_run. cbv zeta.
    destruct (ne (fst _) GS_OK =? 0).
    + unfold bind, when.
      destruct (negb (fst (xml_search _ "pairingsecret" _) =? GS_OK)).
      * rewrite return_cleanup_run.
        intros H. inversion H; subst; clear H. split; [| discriminate].
        destruct (GS_INVALID =? GS_OK); cbn [record w_trace];
          rewrite ?heard_trace; cbn [record w_trace];
          rewrite <- ?app_assoc; eexists; reflexivity.
      * unfold pure. intros H. inversion H; subst; clear H.
        rewrite heard_trace, heard_server. cbn [record w_trace w_server].
        split; [eexists; reflexivity |].
        intros s3 H. inversion H; subst; clear H.
        cbn [serverResponse serverChallenge clientSecret challengeRespHash].
        repeat split.
    + intros H. inversion H; subst; clear H. split; [| discriminate].
      destruct (ne (fst _) GS_OK =? GS_OK); cbn [record w_trace];
        rewrite ?heard_trace; cbn [record w_trace];
        rewrite <- ?app_assoc; eexists; reflexivity.
  - intros H. inversion H; subst; clear H. split; [| discriminate].
    cbn [record w_trace]. rewrite <- ?app_assoc. eexists. reflexivity.
Qed.

(** The run of [gs_pair] from the end of stage #3 on. *)
Lemma gs_pair_from_stage3 (pin : string) (w : World) (s1 : Stage1)
  (w1 : World) (s2 : Stage2) (w2 : World) (o3 : Flow Stage3) (w3 : World) :
  paired (w_server w) = false ->
  currentGame (w_server w) = 0 ->
  gs_pair_stage1 pin w = (Next s1, w1) ->
  gs_pair_stage2 s1 w1 = (Next s2, w2) ->
  gs_pair_stage3 s2 w2 = (o3, w3) ->
  gs_pair pin w =
  body (match o3 with
        | Next s3 => gs_pair_stage4 s2 s3 ;; gs_pair_stage5
        | Return r => leave r
        end) w3.
Proof.
  intros Hp Hg H1 H2 H3. rewrite (gs_pair_past_checks pin w Hp Hg).
  unfold body. unfold bind at 1. rewrite H1. unfold bind at 1. rewrite H2.
  unfold bind at 1. rewrite H3. destruct o3; reflexivity.
Qed.

(** C4.  In a run of [gs_pair] that comes to its third request, with a
    server of major version 7 or more the AES key is the SHA-256 one of the
    salted PIN, the challenge response is hashed with SHA-256 and the
    decrypted server answer is cut at 32; below 7 it is SHA-1 and 20
    everywhere.  [serverResponse] is the first [hashLength] bytes of the
    decrypted answer and [serverChallenge] the 16 bytes after them; the
    second and third request carry the challenge encrypted under that key
    and the encrypted hash over that [serverChallenge]. *)
Theorem gs_pair_hash_by_version (pin : string) (w : World) (s1 : Stage1)
  (w1 : World) (s2 : Stage2) (w2 : World) (o3 : Flow Stage3) (w3 : World) :
  paired (w_server w) = false ->
  currentGame (w_server w) = 0 ->
  gs_pair_stage1 pin w = (Next s1, w1) ->
  gs_pair_stage2 s1 w1 = (Next s2, w2) ->
  gs_pair_stage3 s2 w2 = (o3, w3) ->
  let gen7 := (7 <=? serverMajorVersion (w_server w)) in
  let salted := append (random_bytes (w_draws w) 16) pin in
  let key :=
    if gen7 then create_AES_key_from_salt_SHA256 salted
    else create_AES_key_from_salt_SHA1 salted in
  let cut := if gen7 then 32 else 20 in
  let decoded := aes_decrypt (hex_to_bytes (result2 s2)) key in
  let input :=
    append (append (subdata decoded cut 16) (signature cert_data))
      (random_bytes (w_draws w2) 16) in
  let hash :=
    if gen7 then SHA256_hash_data input else SHA1_hash_data input in
  gs_pair pin w =
    body (match o3 with
          | Next s3 => gs_pair_stage4 s2 s3 ;; gs_pair_stage5
          | Return r => leave r
          end) w3 /\
  aesKey s2 = key /\
  hashLength s2 = cut /\
  (exists rest : list Request,
     w_trace w3 =
       (w_trace w1 ++
        mkRequest (Pair 2)
          (pair_url2 (w_server w)
             (aes_encrypt (random_bytes (w_draws w1) 16) key))
          HTTPRequestTimeoutLong ::
        mkRequest (Pair 3) (pair_url3 (w_server w) (aes_encrypt hash key))
          HTTPRequestTimeoutLong :: rest)%list) /\
  forall s3 : Stage3,
    o3 = Next s3 ->
    serverResponse s3 = subdata decoded 0 cut /\
    serverChallenge s3 = subdata decoded cut 16 /\
    challengeRespHash s3 = hash.
Proof.
  intros Hp Hg H1 H2 H3 gen7 salted key cut decoded input hash.
  destruct (stage1_next _ _ _ _ H1) as (Hsalt & Hs1 & Hd1 & Ht1).
  destruct (stage2_next _ _ _ _ H2)
    as (Hcert & Hkey & Hlen & Hrc & Hs2 & Hd2 & Ht2).
  destruct (stage3_run _ _ _ _ H3) as [[rest Hreq3] Hloc3].
  assert (Hk : aesKey s2 = key).
  { rewrite Hkey, Hs1, Hsalt. unfold key_and_hash_length. fold gen7.
    subst key salted. destruct gen7; reflexivity. }
  assert (Hl : hashLength s2 = cut).
  { rewrite Hlen, Hs1. unfold key_and_hash_length. fold gen7.
    subst cut. destruct gen7; reflexivity. }
  assert (Hh : hash_data (w_server w2)
                 (append
                    (append
                       (subdata
                          (aes_decrypt (hex_to_bytes (result2 s2)) (aesKey s2))
                          (hashLength s2) 16) (signature cert_data))
                    (random_bytes (w_draws w2) 16)) = hash).
  { rewrite Hk, Hl. unfold hash_data. rewrite Hs2, Hs1. fold gen7.
    reflexivity. }
  split; [eapply gs_pair_from_stage3; eassumption |].
  split; [exact Hk |]. split; [exact Hl |]. split.
  - exists rest. rewrite Hreq3, Ht2, <- app_assoc. cbn [app].
    rewrite Hh, Hk, Hs2, Hs1, <- Hk, Hkey, Hs1. reflexivity.
  - intros s3 Hs3. destruct (Hloc3 s3 Hs3) as (Hr & Hc & _ & Hhash & _).
    rewrite Hr, Hc, Hhash, Hh, Hk, Hl. repeat split.
Qed.

(** Stage #4 when the signature of the server secret does not verify. *)
Lemma stage4_mitm (s2 : Stage2) (s3 : Stage3) (w3 : World) :
  GS_FAILED <> GS_OK ->
  verify_signature (subdata (hex_to_bytes (result3 s3)) 0 16)
    (subdata (hex_to_bytes (result3 s3)) 16 256)
    (hex_to_bytes (plainCert s2)) = false ->
  gs_pair_stage4 s2 s3 w3 =
  (Return GS_FAILED,
   record Unpair (unpair_url (w_server w3)) HTTPRequestTimeoutLow
     (mkWorld (w_server w3) (w_config w3) mitm_message (w_trace w3)
        (w_draws w3))).
Proof.
  intros Hne Hv. apply Z.eqb_neq in Hne.
  unfold gs_pair_stage4. unfold bind at 1. unfold get_server. cbv zeta.
  unfold bind at 1. rewrite Hv. unfold when, negb. unfold bind at 1.
  unfold gs_set_error. rewrite return_cleanup_run, Hne. reflexivity.
Qed.

(** C3.  A run of [gs_pair] that has its pairing secret and finds that the
    signature (bytes 16..272 of the decoded secret) over the server secret
    (bytes 0..16) does not verify under the certificate of stage #1 returns
    [GS_FAILED], leaves "MITM attack detected" as the error string, and
    issues one unpair, as its last request. *)
Theorem gs_pair_mitm (pin : string) (w : World) (s1 : Stage1) (w1 : World)
  (s2 : Stage2) (w2 : World) (s3 : Stage3) (w3 : World) :
  conventional codes ->
  paired (w_server w) = false ->
  currentGame (w_server w) = 0 ->
  gs_pair_stage1 pin w = (Next s1, w1) ->
  gs_pair_stage2 s1 w1 = (Next s2, w2) ->
  gs_pair_stage3 s2 w2 = (Next s3, w3) ->
  verify_signature (subdata (hex_to_bytes (result3 s3)) 0 16)
    (subdata (hex_to_bytes (result3 s3)) 16 256)
    (hex_to_bytes (result1 s1)) = false ->
  fst (gs_pair pin w) = GS_FAILED /\
  w_error (snd (gs_pair pin w)) = "MITM attack detected" /\
  contains "MITM" (gs_error (snd (gs_pair pin w))) = true /\
  unpair_calls (issued w (snd (gs_pair pin w))) = 1%nat /\
  w_trace (snd (gs_pair pin w)) =
    (w_trace w3 ++ [unpair_request (w_server w)])%list.
Proof.
  intros Hc Hp Hg H1 H2 H3 Hv.
  destruct (stage1_next _ _ _ _ H1) as (_ & Hs1 & _ & Ht1).
  destruct (stage2_next _ _ _ _ H2) as (Hcert & _ & _ & _ & Hs2 & _ & Ht2).
  destruct (stage3_run _ _ _ _ H3) as [_ Hloc3].
  destruct (Hloc3 s3 eq_refl) as (_ & _ & _ & _ & Hs3 & Ht3).
  rewrite <- Hcert in Hv.
  assert (Hrun :
    gs_pair pin w =
    (GS_FAILED,
     record Unpair (unpair_url (w_server w3)) HTTPRequestTimeoutLow
       (mkWorld (w_server w3) (w_config w3) mitm_message (w_trace w3)
          (w_draws w3)))).
  { rewrite (gs_pair_from_stage3 pin w s1 w1 s2 w2 _ w3 Hp Hg H1 H2 H3).
    unfold body, bind.
    rewrite (stage4_mitm s2 s3 w3 (conventional_failed Hc) Hv).
    reflexivity. }
  rewrite Hrun. cbn [fst snd record w_error w_trace w_server].
  split; [reflexivity |]. split; [reflexivity |]. split; [reflexivity |].
  split.
  - erewrite issued_app;
      [| simpl; rewrite Ht3, Ht2, Ht1, <- !app_assoc; reflexivity].
    reflexivity.
  - unfold unpair_request. rewrite Hs3, Hs2, Hs1. reflexivity.
Qed.

(** The stage validation when it fails: whatever failed, the status or the
    missing [paired] element, what goes back to the caller of [gs_pair] is
    1, the truth value of the comparison. *)
Lemma validation_failure_is_one (data : Data) (w : World) :
  conventional codes ->
  fst (xml_status data) <> GS_OK \/
  fst (xml_search data "paired" "") <> GS_OK ->
  fst (validate_or_cleanup data w) = Return 1.
Proof.
  intros Hc Hfail. rewrite validate_or_cleanup_run. cbv zeta.
  assert (H0 : GS_OK = 0) by apply Hc.
  set (v := if negb (ne (fst (xml_status data)) GS_OK =? 0) then _ else _).
  assert (Hv : ne (fst v) GS_OK = 1).
  { subst v. unfold ne at 2 3.
    destruct (fst (xml_status data) =? GS_OK) eqn:Est.
    - change (negb (0 =? 0)) with false. cbv iota.
      destruct Hfail as [Hst | Hsearch];
        [apply Z.eqb_eq in Est; contradiction |].
      apply Z.eqb_neq in Hsearch. unfold ne. rewrite Hsearch. reflexivity.
    - change (negb (1 =? 0)) with true. cbv iota. cbn [fst].
      unfold ne. rewrite H0. reflexivity. }
  rewrite Hv. reflexivity.
Qed.

(** [gs_pair] when the answer to its first request does not validate. *)
Lemma gs_pair_stage1_invalid (pin : string) (w : World) :
  conventional codes ->
  paired (w_server w) = false ->
  currentGame (w_server w) = 0 ->
  let answer :=
    http_request (map req_url (w_trace w))
      (pair_url1 (w_server w) (random_bytes (w_draws w) 16))
      HTTPRequestTimeoutLong in
  fst answer = GS_OK ->
  fst (xml_status (snd answer)) <> GS_OK \/
  fst (xml_search (snd answer) "paired" "") <> GS_OK ->
  fst (gs_pair pin w) = 1.
Proof.
  intros Hc Hp Hg answer Hok Hfail.
  rewrite (gs_pair_past_checks pin w Hp Hg).
  unfold body. unfold bind at 1. unfold gs_pair_stage1.
  unfold bind at 1. unfold get_server. unfold bind at 1. unfold random.
  unfold bind at 1. rewrite request_or_cleanup_run. cbv zeta.
  cbn [w_trace w_server]. fold answer. rewrite Hok, Z.eqb_refl.
  unfold bind at 1.
  match goal with
  | |- context [validate_or_cleanup ?d ?w0] =>
      pose proof (validation_failure_is_one d w0 Hc Hfail) as Hv;
      destruct (validate_or_cleanup d w0) as [o w']
  end.
  cbn [fst] in Hv. rewrite Hv. reflexivity.
Qed.

(** A failed [gs_pair] has issued exactly one unpair, last, and has left
    the descriptor alone; a [gs_pair] that returns [GS_OK] has set
    [server->paired] and issued no unpair. *)
Lemma gs_pair_unpairs_on_failure (pin : string) (w : World) :
  conventional codes ->
  paired (w_server w) = false ->
  currentGame (w_server w) = 0 ->
  (fst (gs_pair pin w) <> GS_OK ->
   unpair_calls (issued w (snd (gs_pair pin w))) = 1%nat /\
   (exists l : list Request,
      issued w (snd (gs_pair pin w)) =
        (l ++ [unpair_request (w_server w)])%list) /\
   w_server (snd (gs_pair pin w)) = w_server w) /\
  (fst (gs_pair pin w) = GS_OK ->
   paired (w_server (snd (gs_pair pin w))) = true /\
   unpair_calls (issued w (snd (gs_pair pin w))) = 0%nat).
Proof.
  intros Hc Hp Hg.
  destruct (gs_pair_outcome pin w Hc Hp Hg)
    as [(Hr & Hs & l & Ht & Hu) | (Hr & Hs & l & Ht & Hu)].
  - split; [intros _ | intros Hok; contradiction].
    rewrite (issued_app _ _ _ Ht). split; [| split].
    + rewrite unpair_calls_app, Hu. reflexivity.
    + exists l. reflexivity.
    + exact Hs.
  - split; [intros Hne; contradiction | intros _].
    rewrite (issued_app _ _ _ Ht), Hs. split; [reflexivity | exact Hu].
Qed.

(** C1 (the code departs from it).  When the answer to the first pairing
    request has status 200 and no [paired] element, [gs_pair_validate]
    returns the code of the search, and [gs_pair] returns 1 instead: the
    assignment in [(ret = gs_pair_validate(data, &result) != GS_OK)] takes
    the truth value of the comparison.  The unpair is issued all the
    same. *)
Theorem gs_pair_loses_validation_code (pin : string) (w : World)
  (failure : Z) :
  conventional codes ->
  paired (w_server w) = false ->
  currentGame (w_server w) = 0 ->
  let answer :=
    http_request (map req_url (w_trace w))
      (pair_url1 (w_server w) (random_bytes (w_draws w) 16))
      HTTPRequestTimeoutLong in
  fst answer = GS_OK ->
  fst (xml_status (snd answer)) = GS_OK ->
  fst (xml_search (snd answer) "paired" "") = failure ->
  failure < 0 ->
  (forall w0 : World,
     fst (gs_pair_validate (snd answer) w0)
     = Next (failure, snd (xml_search (snd answer) "paired" ""))) /\
  fst (gs_pair pin w) = 1 /\
  fst (gs_pair pin w) <> failure /\
  unpair_calls (issued w (snd (gs_pair pin w))) = 1%nat.
Proof.
  intros Hc Hp Hg answer Hok Hst Hsearch Hneg.
  assert (H0 : GS_OK = 0) by apply Hc.
  assert (Hone : fst (gs_pair pin w) = 1).
  { apply gs_pair_stage1_invalid; try assumption.
    right. fold answer. rewrite Hsearch, H0. lia. }
  split; [| split; [exact Hone | split]].
  - intros w0. unfold gs_pair_validate, bind, status, pure.
    rewrite Hst. unfold ne. rewrite Z.eqb_refl. cbn [negb Z.eqb].
    cbn [fst]. rewrite <- Hsearch.
    destruct (xml_search (snd answer) "paired" ""). reflexivity.
  - rewrite Hone. lia.
  - apply gs_pair_unpairs_on_failure; try assumption.
    rewrite Hone, H0. discriminate.
Qed.

(** C2 (the code departs from it).  When [xml_status] says [GS_ERROR] of
    the answer to a pairing request, the stage validation sends 1 back to
    the caller of [gs_pair], not [GS_ERROR]: in
    [(ret = xml_status(data) != GS_OK)] and again in
    [(ret = gs_pair_validate(data, &result) != GS_OK)] the assignment takes
    the truth value of the comparison.  So at every stage, and so for
    [gs_pair] at its first. *)
Theorem gs_pair_status_error_is_one (pin : string) (w : World) :
  conventional codes ->
  paired (w_server w) = false ->
  currentGame (w_server w) = 0 ->
  let answer :=
    http_request (map req_url (w_trace w))
      (pair_url1 (w_server w) (random_bytes (w_draws w) 16))
      HTTPRequestTimeoutLong in
  fst answer = GS_OK ->
  fst (xml_status (snd answer)) = GS_ERROR ->
  (forall (data : Data) (w0 : World),
     fst (xml_status data) = GS_ERROR ->
     fst (validate_or_cleanup data w0) = Return 1) /\
  fst (gs_pair pin w) = 1 /\
  fst (gs_pair pin w) <> GS_ERROR.
Proof.
  intros Hc Hp Hg answer Hok Hst.
  assert (Herr : GS_ERROR <> GS_OK).
  { destruct Hc as (-> & _ & _ & _ & _ & _ & _ & H). lia. }
  assert (Hone : fst (gs_pair pin w) = 1).
  { apply gs_pair_stage1_invalid; try assumption.
    left. fold answer. rewrite Hst. exact Herr. }
  split; [| split; [exact Hone |]].
  - intros data w0 Hd. apply validation_failure_is_one; [exact Hc |].
    left. rewrite Hd. exact Herr.
  - rewrite Hone. destruct Hc as (_ & _ & _ & _ & _ & _ & _ & H). lia.
Qed.


End Properties.

(** ** The frame of a failed [load_serverinfo], and runs in the sample world *)

(** C10.  A [load_serverinfo] that returns anything but [GS_OK] leaves
    [paired], [currentGame], [supports4K], [serverMajorVersion] and
    [httpsPort] as they were; other fields may already hold what the
    answer said: with the sample answer that stops before [mac] the call
    fails and [serverInfoAppVersion], [gpuType], [gsVersion], [hostname],
    [serverInfoGfeVersion] and the codec support are overwritten. *)
Theorem load_serverinfo_failure_frame :
  (forall (codes : ErrorCodes) (ext : Externals) (https : bool) (w : World),
     fst (load_serverinfo https w) <> GS_OK ->
     paired (w_server (snd (load_serverinfo https w))) = paired (w_server w) /\
     currentGame (w_server (snd (load_serverinfo https w)))
       = currentGame (w_server w) /\
     supports4K (w_server (snd (load_serverinfo https w)))
       = supports4K (w_server w) /\
     serverMajorVersion (w_server (snd (load_serverinfo https w)))
       = serverMajorVersion (w_server w) /\
     httpsPort (w_server (snd (load_serverinfo https w)))
       = httpsPort (w_server w)) /\
  (let ext := Sample.scripted [(0, Sample.serverinfo_cut)] in
   let w := Sample.world Sample.server Sample.config in
   let after := w_server (snd (@load_serverinfo Sample.codes ext true w)) in
   fst (@load_serverinfo Sample.codes ext true w) = @GS_INVALID Sample.codes /\
   serverInfoAppVersion after = "9.9" /\
   gpuType after = "GTX" /\
   gsVersion after = "3.23" /\
   hostname after = "tower" /\
   serverInfoGfeVersion after = "3.23.0" /\
   si_serverCodecModeSupport (serverInfo after) = 3 /\
   mac after = mac Sample.server /\
   after <> Sample.server).
Proof.
  split.
  - intros codes ext https w H. apply load_serverinfo_frame. exact H.
  - vm_compute. repeat split. discriminate.
Qed.

Lemma load_serverinfo_failure_frame_witness :
  let ext := Sample.scripted [(0, Sample.serverinfo_cut)] in
  let w := Sample.world Sample.server Sample.config in
  fst (@load_serverinfo Sample.codes ext true w) <> @GS_OK Sample.codes /\
  paired (w_server (snd (@load_serverinfo Sample.codes ext true w))) = false /\
  httpsPort (w_server (snd (@load_serverinfo Sample.codes ext true w)))
    = 47984.
Proof.
  intros ext w.
  assert (H : fst (@load_serverinfo Sample.codes ext true w)
              <> @GS_OK Sample.codes) by (vm_compute; discriminate).
  split; [exact H |].
  destruct (proj1 load_serverinfo_failure_frame Sample.codes ext true w H)
    as (Hp & _ & _ & _ & Hport).
  split; [exact Hp | exact Hport].
Defined.

Lemma sample_codes_conventional : conventional Sample.codes.
Proof. unfold conventional. simpl. lia. Defined.

Lemma gs_pair_wrong_state_witness :
  let host := Sample.scripted [] in
  let w := Sample.world Sample.paired_server Sample.config in
  let w' := Sample.world Sample.busy_server Sample.config in
  (paired (w_server w) = true /\
   fst (@gs_pair Sample.codes host "1234" w) = -4 /\
   w_trace (snd (@gs_pair Sample.codes host "1234" w)) = [] /\
   w_error (snd (@gs_pair Sample.codes host "1234" w)) = "Already paired") /\
  (paired (w_server w') = false /\ currentGame (w_server w') <> 0 /\
   fst (@gs_pair Sample.codes host "1234" w') = -4 /\
   w_server (snd (@gs_pair Sample.codes host "1234" w')) = w_server w').
Proof.
  intros host w w'. split.
  - destruct (@gs_pair_wrong_state Sample.codes host "1234" w
                (or_introl eq_refl)) as (Hr & Ht & _ & He).
    split; [reflexivity |]. split; [exact Hr |]. split; [exact Ht | exact He].
  - assert (Hg : currentGame (w_server w') <> 0) by discriminate.
    destruct (@gs_pair_wrong_state Sample.codes host "1234" w'
                (or_intror (conj eq_refl Hg))) as (Hr & _ & Hs & _).
    split; [reflexivity |]. split; [exact Hg |]. split; [exact Hr | exact Hs].
Defined.

Lemma gs_start_app_4k_gate_witness :
  let host := Sample.scripted [(0, Sample.session)] in
  let w := Sample.world Sample.server Sample.uhd in
  2160 <= height (w_config w) /\ supports4K (w_server w) = false /\
  fst (@gs_start_app Sample.codes host 42 true false 1 w) = -6 /\
  w_trace (snd (@gs_start_app Sample.codes host 42 true false 1 w)) = [] /\
  w_config (snd (@gs_start_app Sample.codes host 42 true false 1 w))
    = Sample.uhd.
Proof.
  intros host w.
  assert (Hh : 2160 <= height (w_config w)) by (simpl; lia).
  destruct (@gs_start_app_4k_gate Sample.codes host 42 true false 1 w Hh
              eq_refl) as (Hr & Ht & _ & Hc & _).
  split; [exact Hh |]. split; [reflexivity |]. split; [exact Hr |].
  split; [exact Ht | exact Hc].
Defined.

Lemma gs_start_app_currentGame_witness :
  let host := Sample.scripted [(0, Sample.no_session)] in
  let w := Sample.world Sample.server Sample.config in
  height (w_config w) < 2160 /\
  fst (@gs_start_app Sample.codes host 42 true false 1 w) = -1 /\
  currentGame (w_server (snd (@gs_start_app Sample.codes host 42 true false 1 w)))
    = 42.
Proof.
  intros host w.
  assert (Hh : height (w_config w) < 2160) by (simpl; lia).
  destruct (@gs_start_app_currentGame Sample.codes host 42 true false 1 w
              (or_introl Hh)) as (_ & Hfailed & _).
  split; [exact Hh |].
  apply Hfailed; reflexivity.
Defined.

Lemma gs_start_app_launch_or_resume_witness :
  let host := Sample.scripted [(0, Sample.session)] in
  let w := Sample.world Sample.server Sample.config in
  let w' := Sample.world Sample.busy_server Sample.config in
  height (w_config w) < 2160 /\
  issued w (snd (@gs_start_app Sample.codes host 42 true false 1 w)) =
    [mkRequest Launch
       "https://192.168.1.2:47984/launch?uniqueid=0123456789ABCDEF&appid=42&mode=1280x720x60&additionalStates=1&sops=1&rikey=0000000000000000&rikeyid=0&localAudioPlayMode=0&surroundAudioInfo=196610&remoteControllersBitmap=1&gcmap=1&corever=1"
       HTTPRequestTimeoutLong] /\
  issued w' (snd (@gs_start_app Sample.codes host 42 true false 1 w')) =
    [mkRequest Resume
       "https://192.168.1.2:47984/resume?uniqueid=0123456789ABCDEF&rikey=0000000000000000&rikeyid=0&corever=1"
       HTTPRequestTimeoutLong].
Proof.
  intros host w w'.
  assert (Hh : height (w_config w) < 2160) by (simpl; lia).
  split; [exact Hh |]. split.
  - destruct (@gs_start_app_launch_or_resume Sample.codes host 42 true false
                1 w (or_introl Hh)) as [Hlaunch _].
    destruct (Hlaunch eq_refl) as (F & HF & _ & Hrun).
    cbv zeta in Hrun. destruct Hrun as [_ Hfit].
    assert (HF60 : F = 60) by (apply HF; split; [reflexivity | simpl; lia]).
    subst F.
    destruct Hfit as [Hurl _]; [apply Nat.ltb_lt; vm_compute; reflexivity |].
    rewrite Hurl. vm_compute. reflexivity.
  - assert (Hh' : height (w_config w') < 2160) by (simpl; lia).
    destruct (@gs_start_app_launch_or_resume Sample.codes host 42 true false
                1 w' (or_introl Hh')) as [_ Hresume].
    assert (Hbusy : currentGame (w_server w') <> 0) by discriminate.
    destruct (Hresume Hbusy) as (_ & Hfit & _).
    destruct Hfit as [Hurl _]; [apply Nat.ltb_lt; vm_compute; reflexivity |].
    rewrite Hurl. vm_compute. reflexivity.
Defined.

(** With a host name of 4096 characters the buffer holds nothing past the
    name: the launch URL issued has no [appid] and no [mode=] in it, the
    resume URL no [rikey]. *)
Lemma gs_start_app_url_cut :
  let host := Sample.scripted [(0, Sample.session)] in
  let idle := Sample.world Sample.far_server Sample.config in
  let busy := Sample.world Sample.far_busy_server Sample.config in
  height (w_config idle) < 2160 /\
  currentGame (w_server idle) = 0 /\
  currentGame (w_server busy) <> 0 /\
  (exists url : string,
     issued idle (snd (@gs_start_app Sample.codes host 42 true false 1 idle))
       = [mkRequest Launch url HTTPRequestTimeoutLong] /\
     contains "appid" url = false /\ contains "mode=" url = false) /\
  (exists url : string,
     issued busy (snd (@gs_start_app Sample.codes host 42 true false 1 busy))
       = [mkRequest Resume url HTTPRequestTimeoutLong] /\
     contains "rikey" url = false).
Proof.
  intros host idle busy.
  split; [simpl; lia |]. split; [reflexivity |]. split; [discriminate |].
  split; eexists; (split; [vm_compute; reflexivity |]);
    repeat split; vm_compute; reflexivity.
Defined.

Lemma load_server_status_exchanges_witness :
  let host :=
    Sample.scripted
      [(0, Sample.serverinfo_answer); (-5, ""); (0, Sample.serverinfo_answer)] in
  let w := Sample.world Sample.fresh_server Sample.config in
  @GS_INVALID Sample.codes <> @GS_OK Sample.codes /\
  map req_by (issued w (snd (@load_server_status Sample.codes host w))) =
    [Serverinfo false; Serverinfo true; Serverinfo false] /\
  (List.length (issued w (snd (@load_server_status Sample.codes host w)))
   <= 3)%nat.
Proof.
  intros host w.
  assert (H : @GS_INVALID Sample.codes <> @GS_OK Sample.codes)
    by discriminate.
  destruct (@load_server_status_exchanges Sample.codes host w H)
    as (Hshape & _ & Hlen).
  split; [exact H |]. split; [| exact Hlen].
  rewrite Hshape. vm_compute. reflexivity.
Defined.

Lemma gs_pair_hash_by_version_witness :
  paired (w_server Sample.start) = false /\
  currentGame (w_server Sample.start) = 0 /\
  aesKey Sample.locals2 = "sha256:000000000" /\
  hashLength Sample.locals2 = 32 /\
  serverResponse Sample.locals3 = "aaaaaaaaaaaaaaaaaaaaaaaaaaaaaaaa" /\
  serverChallenge Sample.locals3 = "SERVERCHALLENGE0" /\
  challengeRespHash Sample.locals3
    = "sha256:SERVERCHALLENGE0CLIENTCERT2222222222222222".
Proof.
  destruct (@gs_pair_hash_by_version Sample.codes Sample.forging_host "1234"
              Sample.start Sample.locals1 (snd Sample.run1) Sample.locals2
              (snd Sample.run2) (fst Sample.run3) (snd Sample.run3)
              eq_refl eq_refl eq_refl eq_refl eq_refl)
    as (_ & Hkey & Hcut & _ & Hlocals).
  destruct (Hlocals Sample.locals3 eq_refl) as (Hr & Hc & Hh).
  split; [reflexivity |]. split; [reflexivity |].
  split; [exact Hkey |]. split; [exact Hcut |].
  split; [exact Hr |]. split; [exact Hc | exact Hh].
Defined.

Lemma gs_pair_mitm_witness :
  conventional Sample.codes /\
  @verify_signature Sample.forging_host
    (subdata (@hex_to_bytes Sample.forging_host (result3 Sample.locals3)) 0 16)
    (subdata (@hex_to_bytes Sample.forging_host (result3 Sample.locals3)) 16
       256)
    (@hex_to_bytes Sample.forging_host (result1 Sample.locals1)) = false /\
  fst (@gs_pair Sample.codes Sample.forging_host "1234" Sample.start) = -1 /\
  gs_error (snd (@gs_pair Sample.codes Sample.forging_host "1234" Sample.start))
    = "MITM attack detected" /\
  unpair_calls
    (issued Sample.start
       (snd (@gs_pair Sample.codes Sample.forging_host "1234" Sample.start)))
    = 1%nat.
Proof.
  destruct (@gs_pair_mitm Sample.codes Sample.forging_host "1234"
              Sample.start Sample.locals1 (snd Sample.run1) Sample.locals2
              (snd Sample.run2) Sample.locals3 (snd Sample.run3)
              sample_codes_conventional eq_refl eq_refl eq_refl eq_refl
              eq_refl eq_refl)
    as (Hr & He & _ & Hu & _).
  split; [exact sample_codes_conventional |]. split; [reflexivity |].
  split; [exact Hr |]. split; [| exact Hu].
  unfold gs_error. rewrite He. reflexivity.
Defined.

Lemma gs_pair_loses_validation_code_witness :
  let host := Sample.scripted [(0, Sample.no_paired_element)] in
  conventional Sample.codes /\
  fst (@gs_pair Sample.codes host "1234" Sample.start) = 1 /\
  fst (@gs_pair Sample.codes host "1234" Sample.start)
    <> @GS_INVALID Sample.codes /\
  unpair_calls
    (issued Sample.start (snd (@gs_pair Sample.codes host "1234" Sample.start)))
    = 1%nat.
Proof.
  intros host.
  assert (Hneg : @GS_INVALID Sample.codes < 0) by reflexivity.
  destruct (@gs_pair_loses_validation_code Sample.codes host "1234"
              Sample.start (@GS_INVALID Sample.codes)
              sample_codes_conventional eq_refl eq_refl eq_refl eq_refl
              eq_refl Hneg)
    as (_ & Hone & Hne & Hu).
  split; [exact sample_codes_conventional |].
  split; [exact Hone |]. split; [exact Hne | exact Hu].
Defined.

Lemma gs_pair_status_error_is_one_witness :
  let host := Sample.scripted [(0, Sample.refused)] in
  conventional Sample.codes /\
  fst (@xml_status host Sample.refused) = @GS_ERROR Sample.codes /\
  fst (@gs_pair Sample.codes host "1234" Sample.start) = 1 /\
  fst (@gs_pair Sample.codes host "1234" Sample.start)
    <> @GS_ERROR Sample.codes.
Proof.
  intros host.
  destruct (@gs_pair_status_error_is_one Sample.codes host "1234"
              Sample.start sample_codes_conventional eq_refl eq_refl eq_refl
              eq_refl)
    as (_ & Hone & Hne).
  split; [exact sample_codes_conventional |]. split; [reflexivity |].
  split; [exact Hone | exact Hne].
Defined.

(** A pairing that goes through: five requests, no unpair, [GS_OK], and the
    descriptor says paired. *)
Example pairing_goes_through :
  let host :=
    Sample.scripted
      [(0, Sample.answer1); (0, Sample.answer2); (0, Sample.answer3);
       (0, Sample.answer4); (0, Sample.answer4)] in
  let run := @gs_pair Sample.codes host "1234" Sample.start in
  fst run = 0 /\
  paired (w_server (snd run)) = true /\
  map req_by (w_trace (snd run)) = [Pair 1; Pair 2; Pair 3; Pair 4; Pair 5].
Proof. vm_compute. repeat split. Qed.

(** A transport failure at the first request: its code comes back and the
    unpair follows. *)
Example pairing_without_host :
  let run := @gs_pair Sample.codes (Sample.scripted []) "1234" Sample.start in
  fst run = -5 /\ map req_by (w_trace (snd run)) = [Pair 1; Unpair].
Proof. vm_compute. split; reflexivity. Qed.

(** Launch, then resume on the descriptor the launch left. *)
Example launch_then_resume :
  let host :=
    Sample.scripted [(0, Sample.session); (0, Sample.session)] in
  let first := @gs_start_app Sample.codes host 42 false false 1 Sample.start in
  let second := @gs_start_app Sample.codes host 42 false false 1 (snd first) in
  fst first = 0 /\
  currentGame (w_server (snd first)) = 42 /\
  si_rtspSessionUrl (serverInfo (w_server (snd first)))
    = Some "rtsp://192.168.1.2:48010" /\
  map req_by (w_trace (snd second)) = [Launch; Resume] /\
  contains "appid"
    (req_url (last (w_trace (snd second))
                (mkRequest Unpair "" HTTPRequestTimeoutLow))) = false.
Proof. vm_compute. repeat split. Qed.

(** A first contact: the port is learnt over HTTP, HTTPS is refused, HTTP
    answers. *)
Example first_contact :
  let host :=
    Sample.scripted
      [(0, Sample.serverinfo_answer); (-5, ""); (0, Sample.serverinfo_answer)] in
  let run :=
    @load_server_status Sample.codes host
      (Sample.world Sample.fresh_server Sample.config) in
  fst run = 0 /\
  httpsPort (w_server (snd run)) = 47984 /\
  paired (w_server (snd run)) = true /\
  supports4K (w_server (snd run)) = true /\
  serverMajorVersion (w_server (snd run)) = 7.
Proof. vm_compute. repeat split. Qed.

(** ** The rest of client.cpp: properties *)

Section VersionQuad.

Context {libc : Libc}.

Lemma version_components_app (n m : nat) (text : string) :
  version_components (n + m) text =
  ((fst (version_components n text) ++
    fst (version_components m (snd (version_components n text))))%list,
   snd (version_components m (snd (version_components n text)))).
Proof.
  revert text. induction n as [| n IH]; intros text.
  - simpl. destruct (version_components m text); reflexivity.
  - simpl. rewrite IH. reflexivity.
Qed.

Lemma version_components_length (n : nat) (text : string) :
  List.length (fst (version_components n text)) = n.
Proof.
  revert text. induction n as [| n IH]; intros text; simpl;
    [| rewrite IH]; reflexivity.
Qed.

Lemma version_components_empty (n : nat) :
  strtol "" = (0, "") ->
  version_components n "" = (repeat 0 n, "").
Proof.
  intros H. induction n as [| n IH]; [reflexivity |].
  simpl. unfold version_component. rewrite H. simpl. rewrite IH.
  reflexivity.
Qed.

(** X1.  Once [nextNumber] has come to the end of the text, every later
    component of the quad is 0: a version of [k] components gives those
    [k] and then zeros.  (With a libc whose [strtol] converts nothing of an
    empty text.) *)
Theorem version_quad_zero_fill (k : nat) (text : string) :
  strtol "" = (0, "") ->
  (k <= 4)%nat ->
  snd (version_components k text) = "" ->
  snd (extractVersionQuadFromString text) =
    (fst (version_components k text) ++ repeat 0 (4 - k))%list /\
  fst (extractVersionQuadFromString text) = 0 /\
  List.length (snd (extractVersionQuadFromString text)) = 4%nat.
Proof.
  intros Hempty Hk Hend. unfold extractVersionQuadFromString. cbn [fst snd].
  split; [| split; [reflexivity | apply version_components_length]].
  replace 4%nat with (k + (4 - k))%nat at 1 by lia.
  rewrite version_components_app. cbn [fst]. rewrite Hend.
  rewrite (version_components_empty _ Hempty). reflexivity.
Qed.

Lemma ends_in_refl (s : string) : ends_in s s.
Proof. exists "". reflexivity. Qed.

Lemma ends_in_trans (a b c : string) :
  ends_in a b -> ends_in b c -> ends_in a c.
Proof.
  intros [h1 H1] [h2 H2]. exists (h2 ++ h1)%string.
  rewrite H2, H1, string_app_assoc. reflexivity.
Qed.

Lemma ends_in_tail (c : Ascii.ascii) (s : string) : ends_in s (String c s).
Proof. exists (String c ""). reflexivity. Qed.

(** X2.  [nextNumber] never leaves the text: when [strtol] leaves
    [endptr] inside the text it was given, then after any number of rounds
    [nextNumber] still points into the version text, at the terminator at
    the latest; the step over the dot is not taken at the terminator. *)
Theorem version_cursor_stays_inside (n : nat) (text : string) :
  (forall s : string, ends_in (snd (strtol s)) s) ->
  ends_in (snd (version_components n text)) text /\
  (String.length (snd (version_components n text)) <= String.length text)%nat.
Proof.
  intros Hin.
  assert (H : ends_in (snd (version_components n text)) text).
  { revert text. induction n as [| n IH]; intros text.
    - apply ends_in_refl.
    - simpl. eapply ends_in_trans; [apply IH |].
      unfold version_component. cbn [snd].
      eapply ends_in_trans; [| apply Hin].
      destruct (snd (strtol text)) as [| c rest];
        [apply ends_in_refl | apply ends_in_tail]. }
  split; [exact H |].
  destruct H as [head Hhead].
  rewrite Hhead at 2. generalize (snd (version_components n text)).
  intros rest. clear. induction head as [| c head IH]; simpl; lia.
Qed.

Lemma int_of_long_id (z : Z) : int_range z -> int_of_long z = z.
Proof.
  unfold int_range, int_of_long.
  change (2 ^ 31) with 2147483648. change (2 ^ 32) with 4294967296.
  intros H. rewrite Z.mod_small by lia. lia.
Qed.

(** One round on a printed [int] followed by a dot, and on a printed
    [int] at the end of the text. *)
Lemma round_before_dot (n : Z) (rest : string) :
  (forall (n : Z) (rest : string),
     int_range n -> begins_with_digit rest = false ->
     strtol (fmt_d n ++ rest) = (n, rest)) ->
  int_range n ->
  version_component (fmt_d n ++ String (Ascii.ascii_of_nat 46) rest)
  = (n, rest).
Proof.
  intros Hread Hn. unfold version_component.
  rewrite (Hread n (String (Ascii.ascii_of_nat 46) rest) Hn eq_refl).
  cbn [fst snd]. rewrite (int_of_long_id n Hn). reflexivity.
Qed.

Lemma string_app_nil (s : string) : (s ++ "")%string = s.
Proof. induction s as [| x s IH]; simpl; [| rewrite IH]; reflexivity. Qed.

Lemma round_at_end (n : Z) :
  (forall (n : Z) (rest : string),
     int_range n -> begins_with_digit rest = false ->
     strtol (fmt_d n ++ rest) = (n, rest)) ->
  int_range n ->
  version_component (fmt_d n) = (n, "").
Proof.
  intros Hread Hn. unfold version_component.
  pose proof (Hread n "" Hn eq_refl) as H. rewrite string_app_nil in H.
  rewrite H. cbn [fst snd]. rewrite (int_of_long_id n Hn). reflexivity.
Qed.

(** The four rounds on a text [a.b.c.d]. *)
Lemma dotted_components (a b c d : Z) :
  (forall (n : Z) (rest : string),
     int_range n -> begins_with_digit rest = false ->
     strtol (fmt_d n ++ rest) = (n, rest)) ->
  int_range a -> int_range b -> int_range c -> int_range d ->
  version_components 4 (dotted a b c d) = ([a; b; c; d], "").
Proof.
  intros Hread Ha Hb Hc Hd.
  change (dotted a b c d)
    with (fmt_d a ++
          String (Ascii.ascii_of_nat 46)
            (fmt_d b ++
             String (Ascii.ascii_of_nat 46)
               (fmt_d c ++ String (Ascii.ascii_of_nat 46) (fmt_d d))))%string.
  cbn [version_components].
  rewrite (round_before_dot a _ Hread Ha). cbn [fst snd].
  rewrite (round_before_dot b _ Hread Hb). cbn [fst snd].
  rewrite (round_before_dot c _ Hread Hc). cbn [fst snd].
  rewrite (round_at_end d Hread Hd). reflexivity.
Qed.

(** X3.  A version text [a.b.c.d] of four [int]s gives the quad
    [a; b; c; d] and leaves [nextNumber] at the terminator.  (With a libc
    whose [strtol] reads back a printed [int] up to the first character
    that is no digit.) *)
Theorem version_quad_of_dotted (a b c d : Z) :
  (forall (n : Z) (rest : string),
     int_range n -> begins_with_digit rest = false ->
     strtol (fmt_d n ++ rest) = (n, rest)) ->
  int_range a -> int_range b -> int_range c -> int_range d ->
  extractVersionQuadFromString (dotted a b c d) = (0, [a; b; c; d]) /\
  snd (version_components 4 (dotted a b c d)) = "".
Proof.
  intros Hread Ha Hb Hc Hd. unfold extractVersionQuadFromString.
  rewrite (dotted_components a b c d Hread Ha Hb Hc Hd). split; reflexivity.
Qed.

(** X4.  [isSunshine] on a descriptor whose [serverInfoAppVersion] is
    [a.b.c.d] says whether [d] is negative; on one whose version has run
    out within three components (the empty text of a fresh descriptor
    among them) it says no. *)
Theorem isSunshine_fourth_component (server : SERVER_DATA) :
  (forall (n : Z) (rest : string),
     int_range n -> begins_with_digit rest = false ->
     strtol (fmt_d n ++ rest) = (n, rest)) ->
  strtol "" = (0, "") ->
  (forall a b c d : Z,
     int_range a -> int_range b -> int_range c -> int_range d ->
     serverInfoAppVersion server = dotted a b c d ->
     isSunshine server = (d <? 0)) /\
  (snd (version_components 3 (serverInfoAppVersion server)) = "" ->
   isSunshine server = false).
Proof.
  intros Hread Hempty. split.
  - intros a b c d Ha Hb Hc Hd Hv.
    unfold isSunshine, extractVersionQuadFromString. rewrite Hv.
    rewrite (dotted_components a b c d Hread Ha Hb Hc Hd). reflexivity.
  - intros Hend. unfold isSunshine, extractVersionQuadFromString.
    cbn [snd]. change 4%nat with (3 + 1)%nat.
    rewrite version_components_app. cbn [fst]. rewrite Hend.
    rewrite (version_components_empty 1 Hempty). cbn [fst repeat].
    rewrite app_nth2; rewrite version_components_length; [| lia].
    reflexivity.
Qed.

End VersionQuad.

(** *** The sample libc reads back what [%d] prints *)

From Stdlib Require DecimalPos DecimalZ.

Lemma sample_digit_none (c : Ascii.ascii) :
  ((48 <=? Ascii.nat_of_ascii c) && (Ascii.nat_of_ascii c <=? 57))%nat = false ->
  Sample.digit c = None.
Proof.
  intros H. unfold Sample.digit. cbv zeta.
  destruct ((0 <=? Z.of_nat (Ascii.nat_of_ascii c) - 48) &&
            (Z.of_nat (Ascii.nat_of_ascii c) - 48 <=? 9)) eqn:E;
    [| reflexivity].
  apply andb_true_iff in E. destruct E as [E1 E2].
  apply Z.leb_le in E1. apply Z.leb_le in E2.
  apply andb_false_iff in H. destruct H as [H | H];
    apply Nat.leb_gt in H; lia.
Qed.

Lemma read_digits_stop (rest : string) (acc : Z) :
  begins_with_digit rest = false ->
  Sample.read_digits rest acc = (acc, rest).
Proof.
  destruct rest as [| c rest]; [reflexivity |].
  simpl. intros H. rewrite (sample_digit_none c H). reflexivity.
Qed.

Lemma read_digits_acc (u : Decimal.uint) (q : positive) (rest : string) :
  begins_with_digit rest = false ->
  Sample.read_digits (NilEmpty.string_of_uint u ++ rest) (Z.pos q)
  = (Z.pos (Pos.of_uint_acc u q), rest).
Proof.
  intros Hrest. revert q.
  induction u as [| u IH | u IH | u IH | u IH | u IH | u IH | u IH | u IH
                  | u IH | u IH]; intros q;
    [apply read_digits_stop; exact Hrest | ..];
    cbn [NilEmpty.string_of_uint String.append Sample.read_digits
           Pos.of_uint_acc];
    match goal with
    | |- context [Sample.digit ?c] =>
        let v := eval vm_compute in (Sample.digit c) in
        change (Sample.digit c) with v
    end;
    cbv iota; rewrite <- IH; f_equal; lia.
Qed.

Lemma read_digits_printed (u : Decimal.uint) (rest : string) :
  begins_with_digit rest = false ->
  Sample.read_digits (NilEmpty.string_of_uint u ++ rest) 0
  = (Z.of_N (Pos.of_uint u), rest).
Proof.
  intros Hrest.
  induction u as [| u IH | u IH | u IH | u IH | u IH | u IH | u IH | u IH
                  | u IH | u IH];
    [apply read_digits_stop; exact Hrest | ..];
    cbn [NilEmpty.string_of_uint String.append Sample.read_digits
           Pos.of_uint];
    match goal with
    | |- context [Sample.digit ?c] =>
        let v := eval vm_compute in (Sample.digit c) in
        change (Sample.digit c) with v
    end;
    cbv iota;
    [exact IH | ..];
    match goal with
    | |- Sample.read_digits _ ?a = _ =>
        let v := eval vm_compute in a in change a with v
    end;
    rewrite (read_digits_acc u _ rest Hrest); reflexivity.
Qed.

Lemma printed_begins_with_digit (p : positive) (rest : string) :
  exists (c : Ascii.ascii) (tail : string),
    (NilEmpty.string_of_uint (Pos.to_uint p) ++ rest)%string = String c tail /\
    Sample.is_space c = false /\
    Ascii.eqb c (Ascii.ascii_of_nat 45) = false /\
    Ascii.eqb c (Ascii.ascii_of_nat 43) = false /\
    Sample.starts_with_digit (String c tail) = true.
Proof.
  pose proof (DecimalPos.Unsigned.to_uint_nonnil p) as Hnil.
  destruct (Pos.to_uint p); [contradiction | ..];
    eexists; eexists; (split; [reflexivity |]); repeat split.
Qed.

Lemma sample_strtol_reads (n : Z) (rest : string) :
  int_range n -> begins_with_digit rest = false ->
  @strtol Sample.libc (fmt_d n ++ rest) = (n, rest).
Proof.
  intros _ Hrest. unfold strtol, Sample.libc, Sample.c_strtol, fmt_d.
  destruct n as [| p | p]; cbn [Z.to_int NilZero.string_of_int].
  - pose proof (read_digits_printed (Decimal.D0 Decimal.Nil) rest Hrest)
      as Hread.
    cbn [NilEmpty.string_of_uint String.append Pos.of_uint Z.of_N] in Hread.
    cbn [NilZero.string_of_uint NilEmpty.string_of_uint String.append
           Sample.skip_spaces].
    change (Sample.is_space
              (Ascii.Ascii false false false false true true false false))
      with false.
    cbv iota.
    change (Ascii.eqb
              (Ascii.Ascii false false false false true true false false)
              (Ascii.ascii_of_nat 45)) with false.
    change (Ascii.eqb
              (Ascii.Ascii false false false false true true false false)
              (Ascii.ascii_of_nat 43)) with false.
    cbv iota.
    change (Sample.starts_with_digit
              (String
                 (Ascii.Ascii false false false false true true false false)
                 rest)) with true.
    cbv iota. exact Hread.
  - assert (Hu : NilZero.string_of_uint (Pos.to_uint p)
                 = NilEmpty.string_of_uint (Pos.to_uint p)).
    { pose proof (DecimalPos.Unsigned.to_uint_nonnil p).
      destruct (Pos.to_uint p); [contradiction | reflexivity ..]. }
    rewrite Hu.
    destruct (printed_begins_with_digit p rest)
      as (c & tail & Heq & Hsp & Hm & Hp & Hd).
    pose proof (read_digits_printed (Pos.to_uint p) rest Hrest) as Hread.
    rewrite Heq in *. cbn [Sample.skip_spaces]. rewrite Hsp, Hm, Hp, Hd.
    rewrite Hread, DecimalPos.Unsigned.of_to. reflexivity.
  - assert (Hu : NilZero.string_of_uint (Pos.to_uint p)
                 = NilEmpty.string_of_uint (Pos.to_uint p)).
    { pose proof (DecimalPos.Unsigned.to_uint_nonnil p).
      destruct (Pos.to_uint p); [contradiction | reflexivity ..]. }
    rewrite Hu.
    destruct (printed_begins_with_digit p rest)
      as (c & tail & Heq & _ & _ & _ & Hd).
    pose proof (read_digits_printed (Pos.to_uint p) rest Hrest) as Hread.
    cbn [String.append Sample.skip_spaces].
    change (Sample.is_space
              (Ascii.Ascii true false true true false true false false))
      with false.
    cbv iota.
    change (Ascii.eqb
              (Ascii.Ascii true false true true false true false false)
              (Ascii.ascii_of_nat 45)) with true.
    cbv iota. rewrite Heq in *. rewrite Hd, Hread.
    rewrite DecimalPos.Unsigned.of_to. reflexivity.
Qed.

Lemma sample_strtol_inside (s : string) :
  ends_in (snd (@strtol Sample.libc s)) s.
Proof.
  assert (Hdigits : forall t acc, ends_in (snd (Sample.read_digits t acc)) t).
  { induction t as [| c t IH]; intros acc; [apply ends_in_refl |].
    simpl. destruct (Sample.digit c); [| apply ends_in_refl].
    eapply ends_in_trans; [apply IH | apply ends_in_tail]. }
  assert (Hspaces : ends_in (Sample.skip_spaces s) s).
  { induction s as [| c t IH]; [apply ends_in_refl |].
    simpl. destruct (Sample.is_space c); [| apply ends_in_refl].
    eapply ends_in_trans; [apply IH | apply ends_in_tail]. }
  unfold strtol, Sample.libc, Sample.c_strtol.
  destruct (Sample.skip_spaces s) as [| c rest] eqn:E;
    [apply ends_in_refl |].
  assert (Hrest : ends_in rest s).
  { eapply ends_in_trans; [apply ends_in_tail | exact Hspaces]. }
  destruct (Ascii.eqb c (Ascii.ascii_of_nat 45)).
  - destruct (Sample.starts_with_digit rest); [| apply ends_in_refl].
    eapply ends_in_trans; [apply Hdigits | exact Hrest].
  - destruct (Ascii.eqb c (Ascii.ascii_of_nat 43)).
    + destruct (Sample.starts_with_digit rest); [| apply ends_in_refl].
      eapply ends_in_trans; [apply Hdigits | exact Hrest].
    + destruct (Sample.starts_with_digit (String c rest));
        [| apply ends_in_refl].
      eapply ends_in_trans; [apply Hdigits | exact Hspaces].
Qed.

(** *** load_serverinfo and load_server_status beyond their failures *)

Section Discovery.

Context {codes : ErrorCodes} {ext : Externals}.

(** What no [load_serverinfo] changes. *)
Lemma load_serverinfo_keeps (https : bool) (w : World) :
  address (w_server (snd (load_serverinfo https w))) = address (w_server w) /\
  httpPort (w_server (snd (load_serverinfo https w)))
    = httpPort (w_server w) /\
  si_address (serverInfo (w_server (snd (load_serverinfo https w))))
    = si_address (serverInfo (w_server w)) /\
  si_rtspSessionUrl (serverInfo (w_server (snd (load_serverinfo https w))))
    = si_rtspSessionUrl (serverInfo (w_server w)) /\
  w_config (snd (load_serverinfo https w)) = w_config w /\
  w_draws (snd (load_serverinfo https w)) = w_draws w.
Proof.
  unfold load_serverinfo. unfold_ops. simpl.
  repeat (next_test; simpl); repeat split; reflexivity.
Qed.

Lemma load_serverinfo_code (https : bool) (w : World) :
  fst (load_serverinfo https w) = GS_OK \/
  fst (load_serverinfo https w) = GS_IO_ERROR \/
  fst (load_serverinfo https w) = GS_ERROR \/
  fst (load_serverinfo https w) = GS_INVALID.
Proof.
  unfold load_serverinfo. unfold_ops. simpl.
  repeat (next_test; simpl);
    first [ left; reflexivity
          | right; left; reflexivity
          | right; right; left; reflexivity
          | right; right; right; reflexivity ].
Qed.

Lemma load_serverinfo_offline (https : bool) (w : World) :
  fst (http_request (map req_url (w_trace w))
         (serverinfo_url (w_server w) https) HTTPRequestTimeoutLow) <> GS_OK ->
  fst (load_serverinfo https w) = GS_IO_ERROR /\
  w_server (snd (load_serverinfo https w)) = w_server w /\
  w_error (snd (load_serverinfo https w)) = w_error w.
Proof.
  intros H. apply Z.eqb_neq in H.
  unfold load_serverinfo. unfold_ops. simpl.
  destruct (http_request _ _ _) as [r data]. simpl in *. rewrite H. simpl.
  repeat split.
Qed.

Lemma load_serverinfo_ok (https : bool) (w : World) :
  conventional codes ->
  fst (load_serverinfo https w) = GS_OK ->
  httpsPort (w_server (snd (load_serverinfo https w))) <> 0 /\
  supports4K (w_server (snd (load_serverinfo https w))) =
    negb (si_serverCodecModeSupport
            (serverInfo (w_server (snd (load_serverinfo https w)))) =? 0) /\
  serverMajorVersion (w_server (snd (load_serverinfo https w))) =
    atoi (serverInfoAppVersion (w_server (snd (load_serverinfo https w)))) /\
  empty (serverInfoAppVersion (w_server (snd (load_serverinfo https w))))
    = false.
Proof.
  intros (H0 & _ & Hinv & _ & Hio & _ & _ & Herr).
  unfold load_serverinfo. unfold_ops. simpl.
  repeat (next_test; simpl); try (intros Hbad; exfalso; lia); intros _;
    repeat match goal with
           | H : (_ || _) = false |- _ =>
               apply orb_false_iff in H; destruct H
           end;
    repeat split; try assumption; try discriminate;
    try (apply Z.eqb_neq; assumption).
Qed.

(** X5.  [load_serverinfo] returns one of [GS_OK], [GS_IO_ERROR],
    [GS_ERROR] and [GS_INVALID].  When the transport fails the result is
    [GS_IO_ERROR] whatever code the transport gave, and neither the
    descriptor nor the error string is written. *)
Theorem load_serverinfo_result_codes (https : bool) (w : World) :
  (fst (load_serverinfo https w) = GS_OK \/
   fst (load_serverinfo https w) = GS_IO_ERROR \/
   fst (load_serverinfo https w) = GS_ERROR \/
   fst (load_serverinfo https w) = GS_INVALID) /\
  (fst (http_request (map req_url (w_trace w))
          (serverinfo_url (w_server w) https) HTTPRequestTimeoutLow)
   <> GS_OK ->
   fst (load_serverinfo https w) = GS_IO_ERROR /\
   w_server (snd (load_serverinfo https w)) = w_server w /\
   w_error (snd (load_serverinfo https w)) = w_error w).
Proof.
  split; [apply load_serverinfo_code | apply load_serverinfo_offline].
Qed.

(** X6.  After a [load_serverinfo] that returned [GS_OK] the descriptor
    has a non-zero [httpsPort], [supports4K] says whether the codec support
    is non-zero, [serverMajorVersion] is [atoi] of the non-empty
    [serverInfoAppVersion], and address and HTTP port are the ones it was
    called with. *)
Theorem load_serverinfo_success (https : bool) (w : World) :
  conventional codes ->
  fst (load_serverinfo https w) = GS_OK ->
  httpsPort (w_server (snd (load_serverinfo https w))) <> 0 /\
  supports4K (w_server (snd (load_serverinfo https w))) =
    negb (si_serverCodecModeSupport
            (serverInfo (w_server (snd (load_serverinfo https w)))) =? 0) /\
  serverMajorVersion (w_server (snd (load_serverinfo https w))) =
    atoi (serverInfoAppVersion (w_server (snd (load_serverinfo https w)))) /\
  serverInfoAppVersion (w_server (snd (load_serverinfo https w))) <> "" /\
  httpPort (w_server (snd (load_serverinfo https w)))
    = httpPort (w_server w) /\
  si_address (serverInfo (w_server (snd (load_serverinfo https w))))
    = si_address (serverInfo (w_server w)).
Proof.
  intros Hc Hok.
  destruct (load_serverinfo_ok https w Hc Hok) as (Hport & H4k & Hmajor & He).
  destruct (load_serverinfo_keeps https w) as (_ & Hhttp & Haddr & _).
  repeat split; try assumption.
  intros Hempty. rewrite Hempty in He. discriminate.
Qed.

(** The version check lets [GS_OK] through only inside the band, and then
    changes nothing. *)
Lemma check_version_ok (ret : Z) (w : World) :
  GS_UNSUPPORTED_VERSION <> GS_OK ->
  fst (body (check_version ret) w) = GS_OK ->
  ret = GS_OK /\
  MIN_SUPPORTED_GFE_VERSION <= serverMajorVersion (w_server w)
    <= MAX_SUPPORTED_GFE_VERSION /\
  snd (body (check_version ret) w) = w.
Proof.
  intros Hne. unfold check_version. unfold_ops.
  destruct (ret =? GS_OK) eqn:E; simpl.
  - apply Z.eqb_eq in E.
    destruct (MAX_SUPPORTED_GFE_VERSION <? serverMajorVersion (w_server w))
      eqn:Emax; simpl; [intros H; contradiction |].
    destruct (serverMajorVersion (w_server w) <? MIN_SUPPORTED_GFE_VERSION)
      eqn:Emin; simpl; [intros H; contradiction |].
    intros _. apply Z.ltb_ge in Emax. apply Z.ltb_ge in Emin.
    repeat split; assumption.
  - apply Z.eqb_neq in E. intros H. contradiction.
Qed.

(** X7.  [load_server_status] returns [GS_OK] only with a server whose
    major version lies between [MIN_SUPPORTED_GFE_VERSION] and
    [MAX_SUPPORTED_GFE_VERSION]; the descriptor then has a non-zero
    [httpsPort], and its major version is [atoi] of its version text. *)
Theorem load_server_status_ok_band (w : World) :
  conventional codes ->
  fst (load_server_status w) = GS_OK ->
  MIN_SUPPORTED_GFE_VERSION
    <= serverMajorVersion (w_server (snd (load_server_status w)))
    <= MAX_SUPPORTED_GFE_VERSION /\
  httpsPort (w_server (snd (load_server_status w))) <> 0 /\
  serverMajorVersion (w_server (snd (load_server_status w))) =
    atoi (serverInfoAppVersion (w_server (snd (load_server_status w)))).
Proof.
  intros Hc.
  assert (Hinv : GS_INVALID <> GS_OK) by (apply conventional_invalid, Hc).
  assert (Hver : GS_UNSUPPORTED_VERSION <> GS_OK).
  { destruct Hc as (-> & _ & _ & _ & _ & _ & H & _). lia. }
  rewrite (load_server_status_run w Hinv). cbv zeta.
  set (learn := httpsPort (w_server w) =? 0).
  set (first := load_serverinfo false w).
  destruct (learn && negb (fst first =? GS_OK)) eqn:Efirst.
  - intros Hok. apply andb_true_iff in Efirst. destruct Efirst as [_ E].
    rewrite Hok, Z.eqb_refl in E. discriminate.
  - set (second := load_serverinfo true (if learn then snd first else w)).
    assert (Hlast : forall last : Z * World,
              (fst last = GS_OK ->
               httpsPort (w_server (snd last)) <> 0 /\
               serverMajorVersion (w_server (snd last)) =
                 atoi (serverInfoAppVersion (w_server (snd last)))) ->
              fst (body (check_version (fst last)) (snd last)) = GS_OK ->
              MIN_SUPPORTED_GFE_VERSION
                <= serverMajorVersion
                     (w_server (snd (body (check_version (fst last))
                                       (snd last))))
                <= MAX_SUPPORTED_GFE_VERSION /\
              httpsPort
                (w_server (snd (body (check_version (fst last)) (snd last))))
                <> 0 /\
              serverMajorVersion
                (w_server (snd (body (check_version (fst last)) (snd last))))
              = atoi (serverInfoAppVersion
                        (w_server (snd (body (check_version (fst last))
                                          (snd last)))))).
    { intros last Hgood Hok.
      destruct (check_version_ok _ _ Hver Hok) as (Hret & Hband & Hsame).
      rewrite Hsame. destruct (Hgood Hret) as [Hport Hmajor].
      repeat split; try assumption; apply Hband. }
    destruct (fst second =? GS_OK) eqn:Esecond.
    + apply Hlast. intros Hok.
      destruct (load_serverinfo_ok _ _ Hc Hok) as (Hp & _ & Hm & _).
      split; assumption.
    + apply Hlast. intros Hok.
      destruct (load_serverinfo_ok _ _ Hc Hok) as (Hp & _ & Hm & _).
      split; assumption.
Qed.


End Discovery.

(** *** Pairing as a whole *)

Section Pairing.

Context {codes : ErrorCodes} {ext : Externals}.

Lemma issued_same (w w' : World) :
  w_trace w' = w_trace w -> issued w w' = [].
Proof.
  intros H. apply issued_app. rewrite H, app_nil_r. reflexivity.
Qed.

Lemma gs_unpair_run (w : World) :
  gs_unpair w =
  (fst (http_request (map req_url (w_trace w)) (unpair_url (w_server w))
          HTTPRequestTimeoutLow),
   record Unpair (unpair_url (w_server w)) HTTPRequestTimeoutLow w).
Proof.
  unfold gs_unpair. unfold_ops. simpl.
  destruct (http_request _ _ _); reflexivity.
Qed.

(** [gs_pair] when one of its two state checks refuses. *)
Lemma gs_pair_refused (pin : string) (w : World) :
  paired (w_server w) = true \/ currentGame (w_server w) <> 0 ->
  fst (gs_pair pin w) = GS_WRONG_STATE /\
  w_server (snd (gs_pair pin w)) = w_server w /\
  w_trace (snd (gs_pair pin w)) = w_trace w.
Proof.
  intros H. unfold gs_pair, body, bind, get_server, when.
  destruct (paired (w_server w)) eqn:Hp; simpl; [repeat split |].
  destruct H as [H | H]; [discriminate |].
  apply Z.eqb_neq in H. rewrite H. simpl. repeat split.
Qed.

(** X8.  [gs_pair] writes nothing into the descriptor but [paired], and
    that only when it returns [GS_OK].  It issues no unpair when it
    returns [GS_OK] or when a state check refused, and exactly one
    otherwise. *)
Theorem gs_pair_descriptor_and_unpair (pin : string) (w : World) :
  conventional codes ->
  w_server (snd (gs_pair pin w)) =
    (if fst (gs_pair pin w) =? GS_OK then set_paired true (w_server w)
     else w_server w) /\
  unpair_calls (issued w (snd (gs_pair pin w))) =
    (if (fst (gs_pair pin w) =? GS_OK) || paired (w_server w) ||
        negb (currentGame (w_server w) =? 0)
     then 0%nat else 1%nat).
Proof.
  intros Hc.
  assert (Hwrong : (GS_WRONG_STATE =? GS_OK) = false).
  { apply Z.eqb_neq. destruct Hc as (-> & _ & _ & H & _). lia. }
  destruct (paired (w_server w)) eqn:Hp.
  - destruct (gs_pair_refused pin w (or_introl Hp)) as (Hr & Hs & Ht).
    rewrite Hr, Hwrong, Hs, (issued_same _ _ Ht). split; reflexivity.
  - destruct (currentGame (w_server w) =? 0) eqn:Hg.
    + apply Z.eqb_eq in Hg.
      destruct (gs_pair_outcome pin w Hc Hp Hg)
        as [(Hr & Hs & l & Ht & Hu) | (Hr & Hs & l & Ht & Hu)].
      * apply Z.eqb_neq in Hr. rewrite Hr, Hs.
        rewrite (issued_app _ _ _ Ht), unpair_calls_app, Hu.
        split; reflexivity.
      * rewrite Hr, Z.eqb_refl, Hs, (issued_app _ _ _ Ht), Hu.
        split; reflexivity.
    + apply Z.eqb_neq in Hg.
      destruct (gs_pair_refused pin w (or_intror Hg)) as (Hr & Hs & Ht).
      rewrite Hr, Hwrong, Hs, (issued_same _ _ Ht). split; reflexivity.
Qed.

(** X9.  [gs_unpair] does not clear [server->paired]: after a [gs_pair]
    that returned [GS_OK] and a [gs_unpair], whatever the host answered,
    the descriptor still says paired, and a further [gs_pair] returns
    [GS_WRONG_STATE] without a request. *)
Theorem gs_pair_after_unpair (pin pin' : string) (w : World) :
  conventional codes ->
  paired (w_server w) = false ->
  currentGame (w_server w) = 0 ->
  fst (gs_pair pin w) = GS_OK ->
  let unpaired := snd (gs_unpair (snd (gs_pair pin w))) in
  paired (w_server unpaired) = true /\
  issued (snd (gs_pair pin w)) unpaired =
    [unpair_request (w_server (snd (gs_pair pin w)))] /\
  fst (gs_pair pin' unpaired) = GS_WRONG_STATE /\
  w_trace (snd (gs_pair pin' unpaired)) = w_trace unpaired.
Proof.
  intros Hc Hp Hg Hok unpaired.
  assert (Hpaired : paired (w_server (snd (gs_pair pin w))) = true).
  { destruct (gs_pair_outcome pin w Hc Hp Hg)
      as [(Hr & _) | (_ & Hs & _)]; [contradiction |].
    rewrite Hs. reflexivity. }
  subst unpaired. rewrite gs_unpair_run. cbn [snd].
  assert (Hstill :
    paired (w_server (record Unpair
                        (unpair_url (w_server (snd (gs_pair pin w))))
                        HTTPRequestTimeoutLow (snd (gs_pair pin w)))) = true)
    by exact Hpaired.
  split; [exact Hstill |]. split.
  - apply issued_app. reflexivity.
  - destruct (gs_pair_refused pin' _ (or_introl Hstill)) as (Hr & _ & Ht).
    split; assumption.
Qed.

End Pairing.

(** *** Sessions: launch, resume, quit, application list and box art *)

(** The tests met on the way, as equations and inequations. *)
Ltac tests_as_facts :=
  repeat match goal with
         | H : negb _ = true |- _ => apply negb_true_iff in H
         | H : negb _ = false |- _ => apply negb_false_iff in H
         | H : Z.eqb _ _ = true |- _ => apply Z.eqb_eq in H
         | H : Z.eqb _ _ = false |- _ => apply Z.eqb_neq in H
         | H : String.eqb _ _ = true |- _ => apply String.eqb_eq in H
         | H : String.eqb _ _ = false |- _ => apply String.eqb_neq in H
         end.

Section Sessions.

Context {codes : ErrorCodes} {ext : Externals} {reader : AppListReader}.

(** X10.  Past the 4K gate [gs_start_app] returns [GS_OK] exactly when
    the request succeeded, the status was [GS_OK], a [gamesession] element
    was found and its text is not "0".  Then [currentGame] is [appId], and
    [rtspSessionUrl] is the text of [sessionUrl0] when there is one and is
    left as it was when there is none: a missing [sessionUrl0] does not
    fail the call. *)
Theorem gs_start_app_success (appId : Z) (sops localaudio : bool)
  (gamepad_mask : Z) (w : World) :
  conventional codes ->
  height (w_config w) < 2160 \/ supports4K (w_server w) = true ->
  let url :=
    start_app_request (w_server w) (w_config w) appId sops localaudio
      gamepad_mask (random_bytes (w_draws w) 16) 0 in
  let answer :=
    http_request (map req_url (w_trace w)) (snd url) HTTPRequestTimeoutLong in
  let session := xml_search (snd answer) "gamesession" "" in
  let run := gs_start_app appId sops localaudio gamepad_mask w in
  (fst run = GS_OK <->
   fst answer = GS_OK /\ fst (xml_status (snd answer)) = GS_OK /\
   fst session = GS_OK /\ snd session <> "0") /\
  (fst run = GS_OK ->
   currentGame (w_server (snd run)) = appId /\
   si_rtspSessionUrl (serverInfo (w_server (snd run))) =
     if fst (xml_search (snd answer) "sessionUrl0" (snd session)) =? GS_OK
     then Some (snd (xml_search (snd answer) "sessionUrl0" (snd session)))
     else si_rtspSessionUrl (serverInfo (w_server w))).
Proof.
  intros Hc Hgate url answer session run.
  assert (H0 : GS_OK = 0) by apply Hc.
  assert (Hfailed : GS_FAILED <> GS_OK) by (apply conventional_failed, Hc).
  apply gate_passed in Hgate.
  subst run session answer. unfold gs_start_app. unfold_ops. simpl.
  rewrite Hgate. simpl. fold url.
  destruct (http_request (map req_url (w_trace w)) (snd url)
              HTTPRequestTimeoutLong) as [ret data].
  simpl. unfold ne.
  destruct (xml_search data "gamesession" "") as [c result] eqn:Esession.
  repeat (next_test; simpl); tests_as_facts;
    (split; [split; [intros Hrun | intros (Ha & Hb & Hd & He)] | intros Hrun]);
    try (exfalso; congruence); try (exfalso; lia);
    repeat split; try congruence; try reflexivity.
Qed.

(** X11.  Past the 4K gate every [gs_start_app] puts the first 16 bytes
    of one fresh random blob into [config->remoteInputAesKey], also when
    the request then fails or the answer is refused; the rest of the
    configuration is untouched. *)
Theorem gs_start_app_fresh_key (appId : Z) (sops localaudio : bool)
  (gamepad_mask : Z) (w : World) :
  height (w_config w) < 2160 \/ supports4K (w_server w) = true ->
  w_config (snd (gs_start_app appId sops localaudio gamepad_mask w)) =
    set_remoteInputAesKey (subdata (random_bytes (w_draws w) 16) 0 16)
      (w_config w) /\
  w_draws (snd (gs_start_app appId sops localaudio gamepad_mask w))
    = S (w_draws w).
Proof.
  intros Hgate. apply gate_passed in Hgate.
  unfold gs_start_app. unfold_ops. simpl. rewrite Hgate. simpl.
  destruct (http_request _ _ _) as [ret data]. simpl.
  repeat (next_test; simpl); split; reflexivity.
Qed.

(** What [gs_quit_app] leaves alone, and its one request. *)
Lemma gs_quit_app_frame (w : World) :
  w_server (snd (gs_quit_app w)) = w_server w /\
  w_config (snd (gs_quit_app w)) = w_config w /\
  w_draws (snd (gs_quit_app w)) = w_draws w /\
  w_trace (snd (gs_quit_app w)) =
    (w_trace w ++
     [mkRequest Cancel (cancel_url (w_server w)) HTTPRequestTimeoutMedium])%list.
Proof.
  unfold gs_quit_app. unfold_ops. simpl.
  destruct (http_request _ _ _) as [ret data]. simpl.
  repeat (next_test; simpl); repeat split; reflexivity.
Qed.

(** X14.  [gs_quit_app] returns [GS_OK] exactly when the request
    succeeded, the status was [GS_OK], a [cancel] element was found and
    its text is not "0"; a failed request gives the transport's code.  It
    issues the one cancel request and writes nothing into the descriptor:
    [currentGame] is what it was, also after a successful quit. *)
Theorem gs_quit_app_success (w : World) :
  conventional codes ->
  let answer :=
    http_request (map req_url (w_trace w)) (cancel_url (w_server w))
      HTTPRequestTimeoutMedium in
  let cancel := xml_search (snd answer) "cancel" "" in
  (fst (gs_quit_app w) = GS_OK <->
   fst answer = GS_OK /\ fst (xml_status (snd answer)) = GS_OK /\
   fst cancel = GS_OK /\ snd cancel <> "0") /\
  (fst answer <> GS_OK -> fst (gs_quit_app w) = fst answer) /\
  w_server (snd (gs_quit_app w)) = w_server w /\
  issued w (snd (gs_quit_app w)) =
    [mkRequest Cancel (cancel_url (w_server w)) HTTPRequestTimeoutMedium].
Proof.
  intros Hc answer cancel.
  assert (H0 : GS_OK = 0) by apply Hc.
  assert (Hfailed : GS_FAILED <> GS_OK) by (apply conventional_failed, Hc).
  destruct (gs_quit_app_frame w) as (Hs & _ & _ & Ht).
  split; [| split; [| split; [exact Hs | apply issued_app; exact Ht]]].
  - subst cancel answer. unfold gs_quit_app. unfold_ops. simpl.
    destruct (http_request _ _ _) as [ret data]. simpl. unfold ne.
    destruct (xml_search data "cancel" "") as [c result].
    repeat (next_test; simpl); tests_as_facts;
      (split; [intros Hrun | intros (Ha & Hb & Hd & He)]);
      try (exfalso; congruence); try (exfalso; lia);
      repeat split; try congruence; try reflexivity.
  - subst cancel answer. unfold gs_quit_app. unfold_ops. simpl.
    destruct (http_request _ _ _) as [ret data]. simpl. intros Hne.
    apply Z.eqb_neq in Hne. rewrite Hne. reflexivity.
Qed.

(** X15.  Since [gs_quit_app] leaves [currentGame] alone, a
    [gs_start_app] on the descriptor of a running game still resumes after
    the game was quit: the two calls issue a cancel and then a resume,
    never a launch. *)
Theorem gs_start_app_after_quit (appId : Z) (sops localaudio : bool)
  (gamepad_mask : Z) (w : World) :
  height (w_config w) < 2160 \/ supports4K (w_server w) = true ->
  currentGame (w_server w) <> 0 ->
  map req_by
    (issued w
       (snd (gs_start_app appId sops localaudio gamepad_mask
               (snd (gs_quit_app w))))) = [Cancel; Resume].
Proof.
  intros Hgate Hbusy.
  destruct (gs_quit_app_frame w) as (Hs & Hcfg & _ & Ht).
  assert (Hgate' :
    height (w_config (snd (gs_quit_app w))) < 2160 \/
    supports4K (w_server (snd (gs_quit_app w))) = true)
    by (rewrite Hs, Hcfg; exact Hgate).
  erewrite issued_app;
    [| rewrite (gs_start_app_trace appId sops localaudio gamepad_mask _ Hgate'),
         Ht, <- app_assoc; reflexivity].
  unfold start_app_request. rewrite Hs.
  apply Z.eqb_neq in Hbusy. rewrite Hbusy. reflexivity.
Qed.

(** X12.  [gs_applist] issues one request and returns [GS_IO_ERROR] when
    it fails, whatever the transport's code, [GS_ERROR] when the status is
    [GS_ERROR], [GS_INVALID] when the list does not parse, and [GS_OK]
    otherwise.  In the first two cases [*list] is not touched; the
    descriptor never is. *)
Theorem gs_applist_result (list : PAPP_LIST) (w : World) :
  let answer :=
    http_request (map req_url (w_trace w)) (applist_url (w_server w))
      HTTPRequestTimeoutMedium in
  let run := gs_applist list w in
  (fst answer <> GS_OK -> fst run = (GS_IO_ERROR, list)) /\
  (fst answer = GS_OK -> fst (xml_status (snd answer)) = GS_ERROR ->
   fst run = (GS_ERROR, list)) /\
  (fst answer = GS_OK -> fst (xml_status (snd answer)) <> GS_ERROR ->
   fst run =
     (if fst (xml_applist (snd answer) list) =? GS_OK then GS_OK
      else GS_INVALID,
      snd (xml_applist (snd answer) list))) /\
  w_server (snd run) = w_server w /\
  issued w (snd run) =
    [mkRequest Applist (applist_url (w_server w)) HTTPRequestTimeoutMedium].
Proof.
  cbv zeta. unfold gs_applist.
  set (answer := http_request _ _ _).
  split; [| split; [| split; [| split]]].
  - intros H. apply Z.eqb_neq in H. rewrite H. reflexivity.
  - intros H1 H2. rewrite H1, H2, !Z.eqb_refl. reflexivity.
  - intros H1 H2. apply Z.eqb_neq in H2. rewrite H1, H2, Z.eqb_refl.
    cbn [negb]. destruct (fst (xml_applist (snd answer) list) =? GS_OK);
      reflexivity.
  - repeat (next_test; cbn [snd negb]); rewrite ?heard_server; reflexivity.
  - apply issued_app.
    repeat (next_test; cbn [snd negb]); rewrite ?heard_trace; reflexivity.
Qed.

Lemma string_length_app (a b : string) :
  String.length (a ++ b) = (String.length a + String.length b)%nat.
Proof. induction a as [| c a IH]; simpl; [| rewrite IH]; reflexivity. Qed.

Lemma string_app_inv_head (p a b : string) :
  (p ++ a = p ++ b)%string -> a = b.
Proof.
  induction p as [| c p IH]; simpl; intros H; [exact H |].
  injection H as H. apply IH, H.
Qed.

Lemma string_app_inv_tail (a b t : string) :
  (a ++ t = b ++ t)%string -> a = b.
Proof.
  revert b. induction a as [| c a IH]; intros [| d b] H; simpl in H.
  - reflexivity.
  - exfalso. apply (f_equal String.length) in H. simpl in H.
    rewrite string_length_app in H. lia.
  - exfalso. apply (f_equal String.length) in H. simpl in H.
    rewrite string_length_app in H. lia.
  - injection H as Hc H. rewrite Hc, (IH b H). reflexivity.
Qed.

(** [%d] prints different [int]s differently. *)
Lemma fmt_d_inj (a b : Z) : fmt_d a = fmt_d b -> a = b.
Proof.
  assert (Hback : forall z : Z,
            NilZero.int_of_string (fmt_d z) = Some (Z.to_int z)).
  { intros z. unfold fmt_d. apply NilZero.isi.
    - destruct z as [| q | q]; simpl; try discriminate.
      intros H. injection H as H.
      exact (DecimalPos.Unsigned.to_uint_nonnil q H).
    - destruct z as [| q | q]; simpl; try discriminate.
      intros H. injection H as H.
      exact (DecimalPos.Unsigned.to_uint_nonnil q H). }
  intros H. pose proof (Hback a) as Ha. rewrite H, Hback in Ha.
  injection Ha as Ha.
  rewrite <- (DecimalZ.of_to a), <- (DecimalZ.of_to b), Ha. reflexivity.
Qed.

(** X13.  [gs_app_boxart] never looks at the status of the answer: it
    returns [GS_OK] with the body in [*out] whenever the request
    succeeded, and [GS_IO_ERROR] with [*out] untouched when it did not,
    and writes neither the descriptor nor the error string.  Its one
    request names the application: two ids whose URLs fit the buffer have
    the same URL only when they are the same id. *)
Theorem gs_app_boxart_result (app_id : Z) (out : Data) (w : World) :
  let answer :=
    http_request (map req_url (w_trace w)) (boxart_url (w_server w) app_id)
      HTTPRequestTimeoutMedium in
  let run := gs_app_boxart app_id out w in
  fst run =
    (if fst answer =? GS_OK then (GS_OK, snd answer)
     else (GS_IO_ERROR, out)) /\
  w_server (snd run) = w_server w /\
  w_error (snd run) = w_error w /\
  issued w (snd run) =
    [mkRequest Appasset (boxart_url (w_server w) app_id)
       HTTPRequestTimeoutMedium] /\
  forall other : Z,
    (String.length
       ("https://" ++ si_address (serverInfo (w_server w)) ++ ":" ++
        fmt_u (httpsPort (w_server w)) ++ "/appasset?uniqueid=" ++
        unique_id ++ "&appid=" ++ fmt_d app_id ++
        "&AssetType=2&AssetIdx=0") < url_size)%nat ->
    (String.length
       ("https://" ++ si_address (serverInfo (w_server w)) ++ ":" ++
        fmt_u (httpsPort (w_server w)) ++ "/appasset?uniqueid=" ++
        unique_id ++ "&appid=" ++ fmt_d other ++
        "&AssetType=2&AssetIdx=0") < url_size)%nat ->
    boxart_url (w_server w) other = boxart_url (w_server w) app_id ->
    other = app_id.
Proof.
  cbv zeta. split; [| split; [| split; [| split]]].
  - unfold gs_app_boxart. destruct (fst (http_request _ _ _) =? GS_OK);
      reflexivity.
  - unfold gs_app_boxart. destruct (fst (http_request _ _ _) =? GS_OK);
      reflexivity.
  - unfold gs_app_boxart. destruct (fst (http_request _ _ _) =? GS_OK);
      reflexivity.
  - apply issued_app. unfold gs_app_boxart.
    destruct (fst (http_request _ _ _) =? GS_OK); reflexivity.
  - intros other Hfit Hfit' Hsame. unfold boxart_url in Hsame.
    rewrite (snprintf_fits _ _ Hfit), (snprintf_fits _ _ Hfit') in Hsame.
    do 7 apply string_app_inv_head in Hsame.
    apply string_app_inv_tail in Hsame. apply fmt_d_inj, Hsame.
Qed.

End Sessions.

(** *** gs_init and the address it is given *)

Section Addresses.

Lemma segments_from_nonempty (s segment : string) :
  segments_from s segment <> [].
Proof.
  revert segment. induction s as [| c s IH]; intros segment; simpl.
  - discriminate.
  - destruct (Ascii.eqb c colon); [discriminate | apply IH].
Qed.

Lemma segments_from_plain (s segment : string) :
  has_colon s = false ->
  segments_from s segment = [(segment ++ s)%string].
Proof.
  revert segment. induction s as [| c s IH]; intros segment H; simpl in *.
  - rewrite string_app_nil. reflexivity.
  - apply orb_false_iff in H. destruct H as [Hc Hs]. rewrite Hc.
    rewrite (IH _ Hs), string_app_assoc. reflexivity.
Qed.

Lemma segments_from_colon (a b segment : string) :
  has_colon a = false ->
  segments_from (a ++ String colon b) segment =
  (segment ++ a)%string ::
  match b with
  | EmptyString => []
  | String _ _ => segments_from b ""
  end.
Proof.
  revert segment. induction a as [| c a IH]; intros segment H; simpl in *.
  - rewrite string_app_nil. reflexivity.
  - apply orb_false_iff in H. destruct H as [Hc Ha]. rewrite Hc.
    rewrite (IH _ Ha), string_app_assoc. reflexivity.
Qed.

Lemma segments_from_no_colon (s segment seg : string) :
  has_colon segment = false ->
  In seg (segments_from s segment) -> has_colon seg = false.
Proof.
  revert segment. induction s as [| c s IH]; intros segment Hseg Hin;
    simpl in Hin.
  - destruct Hin as [<- | []]. exact Hseg.
  - destruct (Ascii.eqb c colon) eqn:Ec.
    + destruct Hin as [<- | Hin]; [exact Hseg |].
      destruct s as [| d s']; [destruct Hin |].
      apply (IH "" eq_refl Hin).
    + apply (IH (segment ++ String c "")%string); [| exact Hin].
      clear - Hseg Ec. induction segment as [| x segment IHs]; simpl in *.
      * rewrite Ec. reflexivity.
      * apply orb_false_iff in Hseg. destruct Hseg as [Hx Hrest].
        rewrite Hx. simpl. apply IHs, Hrest.
Qed.

Lemma concat_cons (x : string) (l : list string) :
  l <> [] ->
  String.concat ":" (x :: l) = (x ++ ":" ++ String.concat ":" l)%string.
Proof. destruct l; [contradiction | reflexivity]. Qed.

Lemma segments_from_join (s segment : string) :
  String.concat ":" (segments_from s segment) = (segment ++ s)%string \/
  (String.concat ":" (segments_from s segment) ++ ":")%string
  = (segment ++ s)%string.
Proof.
  revert segment. induction s as [| c s IH]; intros segment; simpl.
  - left. rewrite string_app_nil. reflexivity.
  - destruct (Ascii.eqb c colon) eqn:Ec.
    + apply Ascii.eqb_eq in Ec. subst c.
      destruct s as [| d s'].
      * right. reflexivity.
      * cbv iota. set (t := String d s') in *.
        rewrite concat_cons by apply segments_from_nonempty.
        destruct (IH "") as [H | H];
          change ("" ++ t)%string with t in H.
        -- left. rewrite H. reflexivity.
        -- right. rewrite !string_app_assoc.
           change (":" ++ String.concat ":" (segments_from t "") ++ ":")%string
             with (String colon
                     (String.concat ":" (segments_from t "") ++ ":"))%string.
           rewrite H. reflexivity.
    + destruct (IH (segment ++ String c "")%string) as [H | H];
        [left | right]; rewrite H, string_app_assoc; reflexivity.
Qed.

(** X18.  The segments [gs_init] cuts the address into have no colon in
    them, and put together again with colons they are the address, up to
    one colon at its end, which is dropped. *)
Theorem segments_rejoin (address : string) :
  (forall seg : string,
     In seg (segments address) -> has_colon seg = false) /\
  (String.concat ":" (segments address) = address \/
   (String.concat ":" (segments address) ++ ":")%string = address).
Proof.
  destruct address as [| c s]; [split; [intros seg [] | left; reflexivity] |].
  unfold segments. split.
  - intros seg. apply segments_from_no_colon. reflexivity.
  - apply (segments_from_join (String c s) "").
Qed.

(** X19.  An address without a colon is one segment, the host, and the
    port is the default 47989; [host:port] is the two segments, and the
    port is [atoi] of the second as an [unsigned short]; whatever follows
    a second colon does not reach the port. *)
Theorem segments_of_host_and_port (ext : Externals)
  (host port more : string) :
  has_colon host = false ->
  has_colon port = false ->
  host <> "" ->
  port <> "" ->
  segments host = [host] /\
  init_port (segments host) = 47989 /\
  segments (host ++ ":" ++ port) = [host; port] /\
  init_port (segments (host ++ ":" ++ port)) = unsigned_short (atoi port) /\
  hd_error (segments (host ++ ":" ++ port ++ ":" ++ more)) = Some host /\
  init_port (segments (host ++ ":" ++ port ++ ":" ++ more))
    = unsigned_short (atoi port).
Proof.
  intros Hh Hp Hhost Hport.
  assert (H1 : segments host = [host]).
  { destruct host as [| c h]; [contradiction |].
    unfold segments. apply (segments_from_plain _ "" Hh). }
  assert (H2 : segments (host ++ ":" ++ port) = [host; port]).
  { destruct host as [| c h]; [contradiction |].
    change (segments (String c h ++ ":" ++ port))
      with (segments_from (String c h ++ String colon port) "").
    rewrite (segments_from_colon _ _ "" Hh).
    destruct port as [| d p]; [contradiction |].
    rewrite (segments_from_plain _ "" Hp). reflexivity. }
  assert (H3 : exists rest,
            segments (host ++ ":" ++ port ++ ":" ++ more)
            = host :: port :: rest).
  { destruct host as [| c h]; [contradiction |].
    change (segments (String c h ++ ":" ++ port ++ ":" ++ more))
      with (segments_from
              (String c h ++ String colon (port ++ String colon more)) "").
    rewrite (segments_from_colon _ _ "" Hh).
    destruct port as [| d p]; [contradiction |].
    change (String d p ++ String colon more)%string
      with (String d p ++ String colon more)%string.
    rewrite (segments_from_colon (String d p) more "" Hp).
    eexists. reflexivity. }
  destruct H3 as [rest H3].
  rewrite H1, H2, H3. repeat split.
Qed.

End Addresses.

Section Startups.

Context {codes : ErrorCodes} {ext : Externals} {startup : Startup}.

Lemma segments_empty (address : string) :
  segments address = [] <-> address = "".
Proof.
  destruct address as [| c s]; [split; reflexivity |].
  split; [| discriminate]. unfold segments. intros H.
  exfalso. exact (segments_from_nonempty _ _ H).
Qed.

(** X16.  [gs_init] reads [seglist[0]] of an empty vector only when the
    address is empty and a key pair could be had.  Without a key pair, and
    without the means to make one, it returns [GS_FAILED] for every
    address, the empty one too, with no request and the descriptor as it
    was. *)
Theorem gs_init_defined (address : string) (w : World) :
  (gs_init address w = None <->
   address = "" /\
   (load_cert_key_pair = true \/ generate_new_cert_key_pair = true)) /\
  (load_cert_key_pair = false -> generate_new_cert_key_pair = false ->
   gs_init address w = Some (GS_FAILED, w)).
Proof.
  unfold gs_init. cbv zeta. split.
  - destruct load_cert_key_pair eqn:El;
      [| destruct generate_new_cert_key_pair eqn:Eg]; cbn [negb andb].
    + destruct (segments address) eqn:E.
      * apply segments_empty in E. split; auto.
      * split; [discriminate |]. intros [Ha _].
        apply segments_empty in Ha. rewrite Ha in E. discriminate.
    + destruct (segments address) eqn:E.
      * apply segments_empty in E. split; auto.
      * split; [discriminate |]. intros [Ha _].
        apply segments_empty in Ha. rewrite Ha in E. discriminate.
    + split; [discriminate |]. intros [_ [H | H]]; discriminate.
  - intros -> ->. reflexivity.
Qed.

Lemma checked_server (last : Z * World) :
  w_server (snd (body (check_version (fst last)) (snd last))) =
  w_server (snd last).
Proof.
  unfold body.
  destruct (check_version_run (fst last) (snd last))
    as (r & w' & -> & _ & Hs & _).
  exact Hs.
Qed.

(** X17.  With a key pair and a non-empty address [gs_init] starts from
    [httpsPort = 0], so its first request is the plain-HTTP serverinfo to
    the first segment at the parsed port; when that request fails,
    [gs_init] returns [GS_IO_ERROR] after that one request.  At most two
    more requests follow, and in the descriptor it leaves, [address] and
    [serverInfo.address] are the first segment and [httpPort] the parsed
    port. *)
Theorem gs_init_learns_port (text : string) (w : World) :
  conventional codes ->
  load_cert_key_pair = true \/ generate_new_cert_key_pair = true ->
  text <> "" ->
  exists (host : string) (run : Z * World) (more : list Request),
    hd_error (segments text) = Some host /\
    gs_init text w = Some run /\
    issued w (snd run) =
      mkRequest (Serverinfo false)
        (snprintf url_size
           ("http://" ++ host ++ ":" ++ fmt_d (init_port (segments text)) ++
            "/serverinfo?uniqueid=" ++ unique_id))
        HTTPRequestTimeoutLow :: more /\
    (List.length more <= 2)%nat /\
    (fst (http_request (map req_url (w_trace w))
            (snprintf url_size
               ("http://" ++ host ++ ":" ++
                fmt_d (init_port (segments text)) ++
                "/serverinfo?uniqueid=" ++ unique_id))
            HTTPRequestTimeoutLow) <> GS_OK ->
     more = [] /\ fst run = GS_IO_ERROR) /\
    address (w_server (snd run)) = host /\
    si_address (serverInfo (w_server (snd run))) = host /\
    httpPort (w_server (snd run)) = init_port (segments text).
Proof.
  intros Hc Hkeys Htext.
  assert (Hinv : GS_INVALID <> GS_OK) by (apply conventional_invalid, Hc).
  assert (Hio : GS_IO_ERROR <> GS_OK).
  { destruct Hc as (-> & _ & _ & _ & H & _). lia. }
  destruct (segments text) as [| host rest] eqn:Eseg;
    [apply segments_empty in Eseg; contradiction |].
  set (port := init_port (host :: rest)).
  set (w0 := with_server (init_server host port (w_server w)) w).
  assert (Hinit : gs_init text w = Some (load_server_status w0)).
  { unfold gs_init. cbv zeta. rewrite Eseg.
    destruct Hkeys as [-> | ->];
      [| destruct load_cert_key_pair]; reflexivity. }
  set (asked :=
         mkRequest (Serverinfo false)
           (snprintf url_size
              ("http://" ++ host ++ ":" ++ fmt_d port ++
               "/serverinfo?uniqueid=" ++ unique_id))
           HTTPRequestTimeoutLow).
  assert (Ht1 : w_trace (snd (load_serverinfo false w0))
                = (w_trace w ++ [asked])%list)
    by apply (load_serverinfo_trace false w0).
  destruct (load_serverinfo_keeps false w0) as (Ha1 & Hp1 & Hsi1 & _).
  assert (Hoff :
    fst (http_request (map req_url (w_trace w)) (req_url asked)
           HTTPRequestTimeoutLow) <> GS_OK ->
    fst (load_serverinfo false w0) = GS_IO_ERROR).
  { intros H. apply (load_serverinfo_offline false w0). exact H. }
  set (first := load_serverinfo false w0) in *.
  assert (Hrun :
    load_server_status w0 =
    if negb (fst first =? GS_OK) then first
    else
      let second := load_serverinfo true (snd first) in
      let last :=
        if fst second =? GS_OK then second
        else load_serverinfo false (snd second) in
      body (check_version (fst last)) (snd last))
    by apply (load_server_status_run w0 Hinv).
  exists host, (load_server_status w0).
  destruct (fst first =? GS_OK) eqn:Efirst; cbn [negb] in Hrun.
  - cbv zeta in Hrun.
    set (second := load_serverinfo true (snd first)) in *.
    pose proof (load_serverinfo_trace true (snd first)) as Ht2.
    destruct (load_serverinfo_keeps true (snd first))
      as (Ha2 & Hp2 & Hsi2 & _).
    fold second in Ht2, Ha2, Hp2, Hsi2.
    pose proof (load_serverinfo_trace false (snd second)) as Ht3.
    destruct (load_serverinfo_keeps false (snd second))
      as (Ha3 & Hp3 & Hsi3 & _).
    assert (Hon : fst (http_request (map req_url (w_trace w))
                         (req_url asked) HTTPRequestTimeoutLow)
                  <> GS_OK -> False).
    { intros H. apply Hoff in H. apply Z.eqb_eq in Efirst. congruence. }
    destruct (fst second =? GS_OK).
    + eexists. rewrite Hrun, !checked_server.
      split; [reflexivity |]. split; [rewrite Hinit, Hrun; reflexivity |].
      split; [apply issued_app;
              rewrite checked_trace, Ht2, Ht1, <- app_assoc; reflexivity |].
      split; [simpl; lia |].
      split; [intros H; destruct (Hon H) |].
      rewrite Ha2, Ha1, Hsi2, Hsi1, Hp2, Hp1. repeat split.
    + eexists. rewrite Hrun, !checked_server.
      split; [reflexivity |]. split; [rewrite Hinit, Hrun; reflexivity |].
      split; [apply issued_app;
              rewrite checked_trace, Ht3, Ht2, Ht1, <- !app_assoc;
              reflexivity |].
      split; [simpl; lia |].
      split; [intros H; destruct (Hon H) |].
      rewrite Ha3, Ha2, Ha1, Hsi3, Hsi2, Hsi1, Hp3, Hp2, Hp1. repeat split.
  - exists []. rewrite Hrun.
    split; [reflexivity |]. split; [rewrite Hinit, Hrun; reflexivity |].
    split; [apply issued_app; exact Ht1 |].
    split; [simpl; lia |].
    split; [intros H; split; [reflexivity | apply Hoff, H] |].
    rewrite Ha1, Hsi1, Hp1. repeat split.
Qed.

End Startups.

(** *** Runs in the sample world *)

Lemma int_range_small (z : Z) : -1000000 <= z <= 1000000 -> int_range z.
Proof.
  unfold int_range. change (2 ^ 31) with 2147483648. lia.
Qed.

Lemma version_quad_zero_fill_witness :
  @strtol Sample.libc "" = (0, "") /\
  snd (@version_components Sample.libc 2 "7.1") = "" /\
  snd (@extractVersionQuadFromString Sample.libc "7.1") = [7; 1; 0; 0].
Proof.
  split; [reflexivity |]. split; [reflexivity |].
  destruct (@version_quad_zero_fill Sample.libc 2 "7.1" eq_refl
              (le_S _ _ (le_S _ _ (le_n 2))) eq_refl) as (H & _).
  exact H.
Defined.

Lemma version_cursor_stays_inside_witness :
  (forall s : string, ends_in (snd (@strtol Sample.libc s)) s) /\
  ends_in (snd (@version_components Sample.libc 2 "7.1.431.0")) "7.1.431.0" /\
  (String.length (snd (@version_components Sample.libc 2 "7.1.431.0"))
   <= 9)%nat.
Proof.
  split; [exact sample_strtol_inside |].
  exact (@version_cursor_stays_inside Sample.libc 2 "7.1.431.0"
           sample_strtol_inside).
Defined.

Lemma version_quad_of_dotted_witness :
  int_range 7 /\ int_range 431 /\ int_range (-1) /\
  @extractVersionQuadFromString Sample.libc "7.1.431.-1"
  = (0, [7; 1; 431; -1]).
Proof.
  assert (H7 : int_range 7) by (apply int_range_small; lia).
  assert (H1 : int_range 1) by (apply int_range_small; lia).
  assert (H431 : int_range 431) by (apply int_range_small; lia).
  assert (Hm : int_range (-1)) by (apply int_range_small; lia).
  split; [exact H7 |]. split; [exact H431 |]. split; [exact Hm |].
  exact (proj1 (@version_quad_of_dotted Sample.libc 7 1 431 (-1)
                  sample_strtol_reads H7 H1 H431 Hm)).
Defined.

Lemma isSunshine_fourth_component_witness :
  serverInfoAppVersion Sample.server = dotted 7 1 431 0 /\
  @isSunshine Sample.libc Sample.server = false /\
  @isSunshine Sample.libc
    (set_serverInfoAppVersion "7.1.431.-1" Sample.server) = true /\
  @isSunshine Sample.libc (set_serverInfoAppVersion "" Sample.server) = false.
Proof.
  assert (H7 : int_range 7) by (apply int_range_small; lia).
  assert (H1 : int_range 1) by (apply int_range_small; lia).
  assert (H431 : int_range 431) by (apply int_range_small; lia).
  assert (H0 : int_range 0) by (apply int_range_small; lia).
  assert (Hm : int_range (-1)) by (apply int_range_small; lia).
  split; [reflexivity |]. split; [| split].
  - exact (proj1 (@isSunshine_fourth_component Sample.libc Sample.server
                    sample_strtol_reads eq_refl)
             7 1 431 0 H7 H1 H431 H0 eq_refl).
  - exact (proj1 (@isSunshine_fourth_component Sample.libc
                    (set_serverInfoAppVersion "7.1.431.-1" Sample.server)
                    sample_strtol_reads eq_refl)
             7 1 431 (-1) H7 H1 H431 Hm eq_refl).
  - exact (proj2 (@isSunshine_fourth_component Sample.libc
                    (set_serverInfoAppVersion "" Sample.server)
                    sample_strtol_reads eq_refl) eq_refl).
Defined.

Lemma load_serverinfo_result_codes_witness :
  let host := Sample.scripted [] in
  let w := Sample.world Sample.server Sample.config in
  fst (@http_request host (map req_url (w_trace w))
         (serverinfo_url (w_server w) true) HTTPRequestTimeoutLow)
    <> @GS_OK Sample.codes /\
  fst (@load_serverinfo Sample.codes host true w) = @GS_IO_ERROR Sample.codes /\
  w_server (snd (@load_serverinfo Sample.codes host true w)) = w_server w.
Proof.
  intros host w.
  assert (H : fst (@http_request host (map req_url (w_trace w))
                     (serverinfo_url (w_server w) true) HTTPRequestTimeoutLow)
              <> @GS_OK Sample.codes) by discriminate.
  destruct (proj2 (@load_serverinfo_result_codes Sample.codes host true w) H)
    as (Hr & Hs & _).
  split; [exact H |]. split; [exact Hr | exact Hs].
Defined.

Lemma load_serverinfo_success_witness :
  let host := Sample.scripted [(0, Sample.serverinfo_answer)] in
  let w := Sample.world Sample.fresh_server Sample.config in
  conventional Sample.codes /\
  fst (@load_serverinfo Sample.codes host false w) = @GS_OK Sample.codes /\
  httpsPort (w_server (snd (@load_serverinfo Sample.codes host false w)))
    <> 0 /\
  supports4K (w_server (snd (@load_serverinfo Sample.codes host false w)))
    = true.
Proof.
  intros host w.
  assert (Hok : fst (@load_serverinfo Sample.codes host false w)
                = @GS_OK Sample.codes) by (vm_compute; reflexivity).
  destruct (@load_serverinfo_success Sample.codes host false w
              sample_codes_conventional Hok) as (Hport & H4k & _).
  split; [exact sample_codes_conventional |]. split; [exact Hok |].
  split; [exact Hport |]. rewrite H4k. vm_compute. reflexivity.
Defined.

Lemma load_server_status_ok_band_witness :
  let host :=
    Sample.scripted
      [(0, Sample.serverinfo_answer); (-5, ""); (0, Sample.serverinfo_answer)] in
  let w := Sample.world Sample.fresh_server Sample.config in
  conventional Sample.codes /\
  fst (@load_server_status Sample.codes host w) = @GS_OK Sample.codes /\
  3 <= serverMajorVersion
         (w_server (snd (@load_server_status Sample.codes host w))) <= 7 /\
  httpsPort (w_server (snd (@load_server_status Sample.codes host w))) <> 0.
Proof.
  intros host w.
  assert (Hok : fst (@load_server_status Sample.codes host w)
                = @GS_OK Sample.codes) by (vm_compute; reflexivity).
  destruct (@load_server_status_ok_band Sample.codes host w
              sample_codes_conventional Hok) as (Hband & Hport & _).
  split; [exact sample_codes_conventional |]. split; [exact Hok |].
  split; [exact Hband | exact Hport].
Defined.

Lemma gs_pair_descriptor_and_unpair_witness :
  conventional Sample.codes /\
  w_server
    (snd (@gs_pair Sample.codes Sample.forging_host "1234" Sample.start))
    = Sample.server /\
  unpair_calls
    (issued Sample.start
       (snd (@gs_pair Sample.codes Sample.forging_host "1234" Sample.start)))
    = 1%nat.
Proof.
  destruct (@gs_pair_descriptor_and_unpair Sample.codes Sample.forging_host
              "1234" Sample.start sample_codes_conventional) as [Hs Hu].
  split; [exact sample_codes_conventional |].
  split; [rewrite Hs | rewrite Hu]; vm_compute; reflexivity.
Defined.

Lemma gs_pair_after_unpair_witness :
  let host :=
    Sample.scripted
      [(0, Sample.answer1); (0, Sample.answer2); (0, Sample.answer3);
       (0, Sample.answer4); (0, Sample.answer4); (0, Sample.answer4)] in
  let paired_world := snd (@gs_pair Sample.codes host "1234" Sample.start) in
  let unpaired := snd (@gs_unpair host paired_world) in
  conventional Sample.codes /\
  fst (@gs_pair Sample.codes host "1234" Sample.start) = @GS_OK Sample.codes /\
  paired (w_server unpaired) = true /\
  fst (@gs_pair Sample.codes host "0000" unpaired)
    = @GS_WRONG_STATE Sample.codes.
Proof.
  intros host paired_world unpaired.
  assert (Hok : fst (@gs_pair Sample.codes host "1234" Sample.start)
                = @GS_OK Sample.codes) by (vm_compute; reflexivity).
  destruct (@gs_pair_after_unpair Sample.codes host "1234" "0000"
              Sample.start sample_codes_conventional eq_refl eq_refl Hok)
    as (Hp & _ & Hr & _).
  split; [exact sample_codes_conventional |]. split; [exact Hok |].
  split; [exact Hp | exact Hr].
Defined.

Lemma gs_start_app_success_witness :
  let host := Sample.scripted [(0, Sample.session)] in
  let run := @gs_start_app Sample.codes host 7 true false 1 Sample.start in
  conventional Sample.codes /\
  fst run = @GS_OK Sample.codes /\
  currentGame (w_server (snd run)) = 7 /\
  si_rtspSessionUrl (serverInfo (w_server (snd run)))
    = Some "rtsp://192.168.1.2:48010".
Proof.
  intros host run.
  assert (Hgate : height (w_config Sample.start) < 2160 \/
                  supports4K (w_server Sample.start) = true)
    by (left; vm_compute; reflexivity).
  assert (Hok : fst run = @GS_OK Sample.codes) by (vm_compute; reflexivity).
  destruct (proj2 (@gs_start_app_success Sample.codes host 7 true false 1
                     Sample.start sample_codes_conventional Hgate) Hok)
    as [Hgame Hurl].
  split; [exact sample_codes_conventional |]. split; [exact Hok |].
  split; [exact Hgame |]. unfold run. rewrite Hurl. vm_compute. reflexivity.
Defined.

Lemma gs_start_app_fresh_key_witness :
  let host := Sample.scripted [(0, Sample.session)] in
  let run := @gs_start_app Sample.codes host 7 true false 1 Sample.start in
  (height (w_config Sample.start) < 2160 \/
   supports4K (w_server Sample.start) = true) /\
  w_draws (snd run) = 1%nat /\
  remoteInputAesKey (w_config (snd run))
    = subdata (@random_bytes host 0 16) 0 16.
Proof.
  intros host run.
  assert (Hgate : height (w_config Sample.start) < 2160 \/
                  supports4K (w_server Sample.start) = true)
    by (left; vm_compute; reflexivity).
  destruct (@gs_start_app_fresh_key Sample.codes host 7 true false 1
              Sample.start Hgate) as [Hkey Hdraws].
  split; [exact Hgate |]. split; [exact Hdraws |].
  unfold run. rewrite Hkey. reflexivity.
Defined.

Lemma gs_quit_app_success_witness :
  let host := Sample.scripted [(0, Sample.cancel_answer)] in
  let w := Sample.world Sample.busy_server Sample.config in
  conventional Sample.codes /\
  fst (@gs_quit_app Sample.codes host w) = @GS_OK Sample.codes /\
  w_server (snd (@gs_quit_app Sample.codes host w)) = Sample.busy_server /\
  map req_by (issued w (snd (@gs_quit_app Sample.codes host w))) = [Cancel].
Proof.
  intros host w.
  destruct (@gs_quit_app_success Sample.codes host w
              sample_codes_conventional) as (Hok & _ & Hserver & Htrace).
  split; [exact sample_codes_conventional |].
  split; [| split; [exact Hserver | rewrite Htrace; reflexivity]].
  apply Hok. vm_compute.
  repeat split; discriminate.
Defined.

Lemma gs_start_app_after_quit_witness :
  let host := Sample.scripted [(0, Sample.cancel_answer); (0, Sample.session)] in
  let w := Sample.world Sample.busy_server Sample.config in
  (height (w_config w) < 2160 \/ supports4K (w_server w) = true) /\
  currentGame (w_server w) <> 0 /\
  fst (@gs_quit_app Sample.codes host w) = @GS_OK Sample.codes /\
  map req_by
    (issued w
       (snd (@gs_start_app Sample.codes host 7 true false 1
               (snd (@gs_quit_app Sample.codes host w))))) = [Cancel; Resume].
Proof.
  intros host w.
  assert (Hgate : height (w_config w) < 2160 \/ supports4K (w_server w) = true)
    by (left; vm_compute; reflexivity).
  assert (Hgame : currentGame (w_server w) <> 0) by discriminate.
  split; [exact Hgate |]. split; [exact Hgame |].
  split; [vm_compute; reflexivity |].
  exact (@gs_start_app_after_quit Sample.codes host 7 true false 1 w
           Hgate Hgame).
Defined.

Lemma gs_applist_result_witness :
  let host := Sample.scripted [(0, Sample.applist_answer)] in
  let offline := Sample.scripted [] in
  fst (@gs_applist Sample.codes host Sample.reader [] Sample.start)
    = (@GS_OK Sample.codes, ["Steam"]) /\
  fst (@gs_applist Sample.codes offline Sample.reader ["Desktop"] Sample.start)
    = (@GS_IO_ERROR Sample.codes, ["Desktop"]).
Proof.
  intros host offline. split.
  - destruct (@gs_applist_result Sample.codes host Sample.reader []
                Sample.start) as (_ & _ & Hread & _).
    rewrite Hread; [vm_compute; reflexivity | vm_compute; reflexivity
                   | vm_compute; discriminate].
  - destruct (@gs_applist_result Sample.codes offline Sample.reader
                ["Desktop"] Sample.start) as (Hdown & _).
    apply Hdown. vm_compute. discriminate.
Defined.

Lemma gs_app_boxart_result_witness :
  let host := Sample.scripted [(0, "png")] in
  fst (@gs_app_boxart Sample.codes host 7 "" Sample.start)
    = (@GS_OK Sample.codes, "png") /\
  (boxart_url Sample.server 8 = boxart_url Sample.server 7 ->
   8 = 7).
Proof.
  intros host.
  destruct (@gs_app_boxart_result Sample.codes host 7 "" Sample.start)
    as (Hrun & _ & _ & _ & Hinj).
  split.
  - rewrite Hrun. vm_compute. reflexivity.
  - intros H.
    apply (Hinj 8);
      [apply Nat.ltb_lt; vm_compute; reflexivity .. | exact H].
Defined.

Lemma segments_rejoin_witness :
  segments "10.0.0.5:47000" = ["10.0.0.5"; "47000"] /\
  String.concat ":" (segments "10.0.0.5:47000") = "10.0.0.5:47000" /\
  (String.concat ":" (segments "10.0.0.5:") ++ ":")%string = "10.0.0.5:".
Proof.
  split; [reflexivity |].
  destruct (segments_rejoin "10.0.0.5:47000") as [_ [H | H]];
    destruct (segments_rejoin "10.0.0.5:") as [_ [H' | H']];
    first [ discriminate H | discriminate H' | split; [exact H | exact H'] ].
Defined.

Lemma segments_of_host_and_port_witness :
  has_colon "10.0.0.5" = false /\
  has_colon "47000" = false /\
  segments "10.0.0.5:47000" = ["10.0.0.5"; "47000"] /\
  init_port (ext := Sample.scripted []) (segments "10.0.0.5:47000") = 47000 /\
  init_port (ext := Sample.scripted []) (segments "10.0.0.5") = 47989.
Proof.
  destruct (segments_of_host_and_port (Sample.scripted []) "10.0.0.5" "47000"
              "" eq_refl eq_refl ltac:(discriminate) ltac:(discriminate))
    as (_ & Hdefault & Hsegs & Hport & _).
  split; [reflexivity |]. split; [reflexivity |].
  split; [exact Hsegs |]. split; [| exact Hdefault].
  etransitivity; [exact Hport | vm_compute; reflexivity].
Defined.

Lemma gs_init_defined_witness :
  @gs_init Sample.codes (Sample.scripted []) Sample.with_keys "" Sample.start
    = None /\
  @gs_init Sample.codes (Sample.scripted []) Sample.without_keys "10.0.0.5"
    Sample.start = Some (@GS_FAILED Sample.codes, Sample.start) /\
  @gs_init Sample.codes (Sample.scripted []) Sample.with_keys "10.0.0.5"
    Sample.start <> None.
Proof.
  split; [| split].
  - apply (proj1 (@gs_init_defined Sample.codes (Sample.scripted [])
                    Sample.with_keys "" Sample.start)).
    split; [reflexivity | left; reflexivity].
  - apply (proj2 (@gs_init_defined Sample.codes (Sample.scripted [])
                    Sample.without_keys "10.0.0.5" Sample.start));
      reflexivity.
  - intros H.
    apply (proj1 (@gs_init_defined Sample.codes (Sample.scripted [])
                    Sample.with_keys "10.0.0.5" Sample.start)) in H.
    destruct H as [H _]. discriminate H.
Defined.

Lemma gs_init_learns_port_witness :
  let host :=
    Sample.scripted
      [(0, Sample.serverinfo_answer); (-5, ""); (0, Sample.serverinfo_answer)] in
  conventional Sample.codes /\
  exists run : Z * World,
    @gs_init Sample.codes host Sample.with_keys "10.0.0.5:47000" Sample.start
      = Some run /\
    address (w_server (snd run)) = "10.0.0.5" /\
    httpPort (w_server (snd run)) = 47000 /\
    hd_error (map req_url (issued Sample.start (snd run)))
      = Some "http://10.0.0.5:47000/serverinfo?uniqueid=0123456789ABCDEF".
Proof.
  intros host. split; [exact sample_codes_conventional |].
  destruct (@gs_init_learns_port Sample.codes host Sample.with_keys
              "10.0.0.5:47000" Sample.start sample_codes_conventional
              (or_introl eq_refl) ltac:(discriminate))
    as (h & run & more & Hhead & Hinit & Htrace & _ & _ & Haddr & _ & Hport).
  exists run. split; [exact Hinit |].
  assert (Hh : h = "10.0.0.5") by (vm_compute in Hhead; congruence).
  split; [rewrite Haddr; exact Hh |].
  split; [rewrite Hport; vm_compute; reflexivity |].
  rewrite Htrace, Hh. vm_compute. reflexivity.
Defined.
